(** * Call Report Dashboard: the table pipeline of [dashboard.py]

    A shallow embedding of the functions of [dashboard.py] that touch the
    uploaded table: [load_data], [validate_data], [get_key_metrics], the five
    chart builders, [generate_insights] and the statements of [main] that
    call them, together with the slice of pandas they rely on.

    Conventions of the embedding:
    - a column label or a file name is a [string] of 8-bit characters; letter
      case and white space follow Python's [str.lower] and [str.strip] on the
      ASCII range, characters above 127 are left alone;
    - a cell is [option value], [None] being pandas' missing marker (NaN, NaT);
    - selecting a column by label reads the first column of that label: the
      labels of a table are taken to be pairwise distinct wherever a column
      is selected (for a repeated label pandas answers a frame, which is not
      modelled);
    - a timestamp is an integer number of nanoseconds since the epoch, without
      time zone;
    - a Python exception is a value of [exn], a fallible computation returns
      [exn + A];
    - a function that only reads the table it is given is a function of the
      table; a function that assigns into it runs in the monad [M] over a
      store of table objects and is handed a reference, so that what the
      caller sees afterwards can be stated;
    - file parsers, the date parser, cross tabulation and the chart
      constructors are parameters ([Libraries]);
    - true division [a / b] of two Python integers is the exact rational;
      the text of messages and insight lines is kept as structured data. *)

From Stdlib Require Import ZArith QArith Ascii String.
From stdpp Require Import base tactics option list strings gmap sorting.

Set Default Proof Using "Type".
Local Open Scope string_scope.
Local Open Scope list_scope.

(** ** Python strings *)

Module PyStr.

(** [str.lower] on one character: the 26 ASCII capitals move down by 32. *)
Definition lower_char (c : ascii) : ascii :=
  let n := N_of_ascii c in
  if ((65 <=? n) && (n <=? 90))%N then ascii_of_N (n + 32) else c.

(** [str.isspace] on one character of the ASCII range: tab, line feed,
    vertical tab, form feed, carriage return, the four separators 28..31
    and the blank. *)
Definition isspace (c : ascii) : bool :=
  let n := N_of_ascii c in
  (((9 <=? n) && (n <=? 13)) || ((28 <=? n) && (n <=? 32)))%N.

Fixpoint lower (s : string) : string :=
  match s with
  | EmptyString => EmptyString
  | String c s' => String (lower_char c) (lower s')
  end.

Fixpoint lstrip (s : string) : string :=
  match s with
  | EmptyString => EmptyString
  | String c s' => if isspace c then lstrip s' else s
  end.

Fixpoint rstrip (s : string) : string :=
  match s with
  | EmptyString => EmptyString
  | String c s' =>
      match rstrip s' with
      | EmptyString => if isspace c then EmptyString else String c EmptyString
      | r => String c r
      end
  end.

Definition strip (s : string) : string := rstrip (lstrip s).

(** [s.endswith(suffix)] *)
Definition endswith (s suffix : string) : bool :=
  let n := String.length s in
  let k := String.length suffix in
  (k <=? n)%nat && bool_decide (substring (n - k) k s = suffix).

(** [s.endswith((a, b))]: a tuple of suffixes, tried in order. *)
Definition endswith_any (s : string) (suffixes : list string) : bool :=
  existsb (endswith s) suffixes.

End PyStr.

(** ** Tables *)

(** What a cell can hold.  A float cell is not modelled. *)
Inductive value :=
| VStr (s : string)
| VInt (z : Z)
| VTime (ns : Z).

Global Instance value_eq_dec : EqDecision value.
Proof. solve_decision. Defined.

Definition value_to_sum (v : value) : string + (Z + Z) :=
  match v with
  | VStr s => inl s
  | VInt z => inr (inl z)
  | VTime t => inr (inr t)
  end.

Definition value_of_sum (x : string + (Z + Z)) : value :=
  match x with
  | inl s => VStr s
  | inr (inl z) => VInt z
  | inr (inr t) => VTime t
  end.

Global Instance value_countable : Countable value.
Proof.
  apply (inj_countable' value_to_sum value_of_sum).
  by intros [].
Defined.

Definition cell : Type := option value.

(** A [DataFrame] is a header and the records under it.  Cell [i] of a record
    belongs to the column labelled by entry [i] of the header; a record that
    stops short is missing its remaining cells. *)
Record DataFrame := mkDataFrame {
  columns : list string;
  rows : list (list cell)
}.

Global Instance DataFrame_eq_dec : EqDecision DataFrame.
Proof. solve_decision. Defined.

Inductive exn :=
| KeyError (key : string)
| ZeroDivisionError
| IndexError
| LibraryError (msg : string)
| DanglingReference.

Global Instance exn_eq_dec : EqDecision exn.
Proof. solve_decision. Defined.

(** Fallible computations without side effect. *)
Definition result (A : Type) : Type := exn + A.

Global Instance result_ret : MRet result := λ A x, inr x.
Global Instance result_bind : MBind result :=
  λ A B f m, match m with inl e => inl e | inr x => f x end.

Definition raise {A} (e : exn) : result A := inl e.

Module pd.

(** [len(df)] *)
Definition len (df : DataFrame) : nat := length (rows df).

(** [c in df.columns] *)
Definition has_column (c : string) (df : DataFrame) : bool :=
  bool_decide (c ∈ columns df).

(** Position of the first column labelled [c]. *)
Fixpoint get_loc (c : string) (cols : list string) : option nat :=
  match cols with
  | [] => None
  | c' :: cols' => if decide (c' = c) then Some 0%nat else S <$> get_loc c cols'
  end.

Definition cell_at (i : nat) (r : list cell) : cell := r !! i ≫= id.

(** Writing cell [i] of a record, padding a short record with missing
    cells first. *)
Definition set_cell (i : nat) (v : cell) (r : list cell) : list cell :=
  <[i := v]> (r ++ replicate (S i - length r) None).

(** [df[c]] for a single label: the series under that label, [KeyError]
    when there is none. *)
Definition getitem (df : DataFrame) (c : string) : result (list cell) :=
  match get_loc c (columns df) with
  | Some i => mret (cell_at i <$> rows df)
  | None => raise (KeyError c)
  end.

(** [df[c] = s] for a label that exists and a series over the same index:
    the frame with that column overwritten. *)
Definition setitem (df : DataFrame) (c : string) (s : list cell) : DataFrame :=
  match get_loc c (columns df) with
  | Some i => mkDataFrame (columns df) (zip_with (set_cell i) s (rows df))
  | None => df
  end.

(** Values of a series with the missing cells dropped. *)
Definition present (s : list cell) : list value := omap id s.

(** Distinct values in order of first appearance. *)
Fixpoint distinct (vs : list value) : list value :=
  match vs with
  | [] => []
  | v :: vs' => v :: filter (λ w, w ≠ v) (distinct vs')
  end.

(** [s.nunique()]: number of distinct values, missing cells not counted
    (pandas' default [dropna=True]). *)
Definition nunique (s : list cell) : nat := length (distinct (present s)).

Definition occurrences (v : value) (vs : list value) : nat :=
  length (filter (λ w, w = v) vs).

(** Insertion by decreasing count; an entry goes in front of the entries
    it ties with. *)
Fixpoint insert_by_count (x : value * nat) (l : list (value * nat))
  : list (value * nat) :=
  match l with
  | [] => [x]
  | y :: l' => if (snd y <=? snd x)%nat then x :: l else y :: insert_by_count x l'
  end.

(** [s.value_counts()]: each distinct value with its number of
    occurrences, most frequent first, missing cells dropped.  pandas does
    not fix the order among equally frequent values; here they stay in
    order of first appearance, and no statement below depends on it. *)
Definition value_counts (s : list cell) : list (value * nat) :=
  let vs := present s in
  foldr insert_by_count [] ((λ v, (v, occurrences v vs)) <$> distinct vs).

(** [df.dropna(subset=[c])]: a new frame without the records whose cell
    under [c] is missing. *)
Definition dropna (df : DataFrame) (c : string) : result DataFrame :=
  match get_loc c (columns df) with
  | Some i =>
      mret (mkDataFrame (columns df)
              (filter (λ r, is_Some (cell_at i r)) (rows df)))
  | None => raise (KeyError c)
  end.

End pd.

(** ** Timestamps *)

Module dt.

Definition ns_per_day : Z := 86400000000000.

(** [Series.dt.date]: the calendar day a timestamp falls on, as the number
    of that day. *)
Definition date (t : Z) : Z := (t `div` ns_per_day)%Z.

(** [Timedelta.days] *)
Definition days (delta : Z) : Z := (delta `div` ns_per_day)%Z.

(** The timestamps of a series, cells of another kind skipped. *)
Definition timestamps (s : list cell) : list Z :=
  omap (λ c, match c with Some (VTime t) => Some t | _ => None end) s.

(** [s.max()] and [s.min()] of a series of timestamps; on a series without
    one pandas answers NaT, on which the arithmetic that follows in the
    source has no integer to give, so that case is an error here. *)
Definition max (s : list cell) : result Z :=
  match timestamps s with
  | [] => raise (LibraryError "NaT")
  | t :: ts => mret (foldr Z.max t ts)
  end.

Definition min (s : list cell) : result Z :=
  match timestamps s with
  | [] => raise (LibraryError "NaT")
  | t :: ts => mret (foldr Z.min t ts)
  end.

(** The series a list of parsed timestamps makes, NaT being a missing cell. *)
Definition series (parsed : list (option Z)) : list cell :=
  (λ o : option Z, VTime <$> o) <$> parsed.

Fixpoint insert_key (k : Z) (l : list Z) : list Z :=
  match l with
  | [] => [k]
  | k' :: l' =>
      if (k <? k')%Z then k :: l
      else if (k =? k')%Z then l
      else k' :: insert_key k l'
  end.

(** [df.groupby(keys).size()]: the distinct keys in increasing order, each
    with the number of records carrying it. *)
Definition groupby_size (keys : list Z) : list (Z * nat) :=
  (λ k, (k, length (filter (λ k', k' = k) keys))) <$> foldr insert_key [] keys.

End dt.

(** ** The libraries the dashboard calls *)

Record UploadedFile := mkUploadedFile {
  name : string;
  content : string
}.

(** File parsers, date parser, cross tabulation and chart constructors are
    library code: the dashboard is verified against any implementation of
    them.  Each may raise.  [to_datetime] is pandas' [to_datetime(s,
    errors='coerce')]: it answers a series over the same index, a cell it
    cannot read becoming NaT. *)
Class Libraries := {
  Figure : Type;
  CrossTab : Type;
  read_csv : UploadedFile → result DataFrame;
  read_excel : UploadedFile → result DataFrame;
  to_datetime : list cell → result (list (option Z));
  to_datetime_length s ts : to_datetime s = inr ts → length ts = length s;
  crosstab : list cell → list cell → result CrossTab;
  px_bar (data : list (value * nat)) (title : string) (horizontal : bool) : result Figure;
  px_pie (data : list (value * nat)) (title : string) : result Figure;
  px_line (data : list (Z * nat)) (title : string) : result Figure;
  px_imshow (img : CrossTab) (title : string) : result Figure;
  update_layout : Figure → result Figure;
  update_traces : Figure → result Figure
}.

(** ** Effects: a store of table objects and the messages put on screen *)

Inductive message :=
| UnsupportedFormat
| ErrorLoadingFile (e : exn)
| MissingColumns (missing : list string)
| ColumnsAdvice
| NoTimeTrend (e : exn).

Inductive ui_event :=
| st_error (m : message)
| st_warning (m : message)
| st_info (m : message).

Definition ref : Type := nat.

Record world := mkWorld {
  heap : list DataFrame;
  screen : list ui_event
}.

Definition M (A : Type) : Type := world → result A * world.

Global Instance M_ret : MRet M := λ A x w, (inr x, w).
Global Instance M_bind : MBind M :=
  λ A B f m w, match m w with
               | (inl e, w') => (inl e, w')
               | (inr x, w') => f x w'
               end.

Definition lift {A} (r : result A) : M A := λ w, (r, w).

(** [try: body except Exception as e: handler e].  What the body did to the
    store before it raised stays done. *)
Definition try_except {A} (body : M A) (handler : exn → M A) : M A :=
  λ w, match body w with
       | (inl e, w') => handler e w'
       | (inr x, w') => (inr x, w')
       end.

Definition emit (ev : ui_event) : M unit :=
  λ w, (inr tt, mkWorld (heap w) (screen w ++ [ev])).

Definition new (df : DataFrame) : M ref :=
  λ w, (inr (length (heap w)), mkWorld (heap w ++ [df]) (screen w)).

Definition read (r : ref) : M DataFrame :=
  λ w, match heap w !! r with
       | Some df => (inr df, w)
       | None => (inl DanglingReference, w)
       end.

Definition write (r : ref) (df : DataFrame) : M unit :=
  λ w, match heap w !! r with
       | Some _ => (inr tt, mkWorld (<[r := df]> (heap w)) (screen w))
       | None => (inl DanglingReference, w)
       end.

(** [df.copy()] *)
Definition copy (r : ref) : M ref := df ← read r; new df.

(** ** The dashboard *)

(** The content of one insight line; the f-string around it, with its
    one-decimal rendering of the averages, is presentation. *)
Inductive insight :=
| AverageCallsPerRepresentative (avg : Q)
| TopPerformer (rep : value) (calls : nat)
| AverageVisitsPerDoctor (avg : Q)
| MostActiveDivision (division : value) (calls : nat)
| DataCovers (days : Z)
| AverageDailyCalls (avg : Q).

(** [d[k]] on a dict *)
Definition dict_getitem (d : gmap string Z) (k : string) : result Z :=
  match d !! k with
  | Some v => mret v
  | None => raise (KeyError k)
  end.

(** [a / b] on two integers *)
Definition truediv (a b : Z) : result Q :=
  if (b =? 0)%Z then raise ZeroDivisionError
  else mret (inject_Z a / inject_Z b)%Q.

(** [xs[0]] *)
Definition first {A} (xs : list A) : result A :=
  match xs with
  | x :: _ => mret x
  | [] => raise IndexError
  end.

Definition required_columns : list string :=
  ["representative"; "doctor"; "division"; "date"].

(** What one pass of [main] hands to the presentation layer. *)
Record page (Fig : Type) := mkPage {
  page_metrics : gmap string Z;
  page_insights : list insight;
  page_charts : list (option Fig)
}.
Global Arguments mkPage {_} _ _ _.
Global Arguments page_metrics {_} _.
Global Arguments page_insights {_} _.
Global Arguments page_charts {_} _.

Section Dashboard.
Context `{Libraries}.

Definition load_data (file : UploadedFile) : M (option ref) :=
  try_except
    (if PyStr.endswith (name file) ".csv" then
       df ← lift (read_csv file);
       r ← new df;
       mret (Some r)
     else if PyStr.endswith_any (name file) [".xlsx"; ".xls"] then
       df ← lift (read_excel file);
       r ← new df;
       mret (Some r)
     else
       emit (st_error UnsupportedFormat);;
       mret None)
    (λ e,
       emit (st_error (ErrorLoadingFile e));;
       mret None).

(** The columns the warning of [validate_data] lists. *)
Definition missing_columns (cols : list string) : list string :=
  filter (λ col, col ∉ PyStr.lower <$> cols) required_columns.

Definition validate_data (df : ref) : M ref :=
  t ← read df;
  let missing := missing_columns (columns t) in
  (if bool_decide (missing ≠ []) then
     emit (st_warning (MissingColumns missing));;
     emit (st_info ColumnsAdvice)
   else mret tt);;
  write df (mkDataFrame ((PyStr.strip ∘ PyStr.lower) <$> columns t) (rows t));;
  mret df.

Definition get_key_metrics (df : DataFrame) : result (gmap string Z) :=
  let metrics : gmap string Z := ∅ in
  let metrics := <["total_calls" := Z.of_nat (pd.len df)]> metrics in
  metrics ←
    (if pd.has_column "representative" df then
       s ← pd.getitem df "representative";
       mret (<["total_reps" := Z.of_nat (pd.nunique s)]> metrics)
     else mret metrics);
  metrics ←
    (if pd.has_column "doctor" df then
       s ← pd.getitem df "doctor";
       mret (<["total_doctors" := Z.of_nat (pd.nunique s)]> metrics)
     else mret metrics);
  metrics ←
    (if pd.has_column "division" df then
       s ← pd.getitem df "division";
       mret (<["total_divisions" := Z.of_nat (pd.nunique s)]> metrics)
     else mret metrics);
  mret metrics.

Definition create_rep_performance_chart (df : DataFrame) : result (option Figure) :=
  if negb (pd.has_column "representative" df) then mret None
  else
    s ← pd.getitem df "representative";
    let rep_counts := pd.value_counts s in
    fig ← px_bar (take 10 rep_counts) "Top 10 Representatives by Number of Calls" false;
    fig ← update_layout fig;
    mret (Some fig).

Definition create_division_analysis_chart (df : DataFrame) : result (option Figure) :=
  if negb (pd.has_column "division" df) then mret None
  else
    s ← pd.getitem df "division";
    let division_counts := pd.value_counts s in
    fig ← px_pie division_counts "Call Distribution by Division";
    mret (Some fig).

Definition create_time_trend_chart (df : ref) : M (option Figure) :=
  t ← read df;
  if negb (pd.has_column "date" t) then mret None
  else
    try_except
      (s ← lift (pd.getitem t "date");
       parsed ← lift (to_datetime s);
       write df (pd.setitem t "date" (dt.series parsed));;
       t ← read df;
       (* from here on the name [df] of the source is bound to a new object *)
       t ← lift (pd.dropna t "date");
       if bool_decide (pd.len t = 0%nat) then mret None
       else
         s ← lift (pd.getitem t "date");
         let daily_calls := dt.groupby_size (dt.date <$> dt.timestamps s) in
         fig ← lift (px_line daily_calls "Call Trend Over Time");
         fig ← lift (update_traces fig);
         mret (Some fig))
      (λ e,
         emit (st_warning (NoTimeTrend e));;
         mret None).

Definition create_doctor_engagement_chart (df : DataFrame) : result (option Figure) :=
  if negb (pd.has_column "doctor" df) then mret None
  else
    s ← pd.getitem df "doctor";
    let doctor_counts := pd.value_counts s in
    fig ← px_bar (take 15 doctor_counts) "Top 15 Most Visited Doctors" true;
    mret (Some fig).

Definition create_cross_analysis (df : DataFrame) : result (option Figure) :=
  if negb (pd.has_column "division" df) || negb (pd.has_column "representative" df)
  then mret None
  else
    d ← pd.getitem df "division";
    r ← pd.getitem df "representative";
    cross_tab ← crosstab d r;
    fig ← px_imshow cross_tab "Calls Heatmap: Division vs Representative";
    mret (Some fig).

(** The four blocks of [generate_insights]; each takes the list built so far
    and answers it with its own lines appended. *)
Definition representative_insights (t : DataFrame) (metrics : gmap string Z)
    (insights : list insight) : result (list insight) :=
  if pd.has_column "representative" t then
    total_calls ← dict_getitem metrics "total_calls";
    total_reps ← dict_getitem metrics "total_reps";
    avg_calls_per_rep ← truediv total_calls total_reps;
    let insights := insights ++ [AverageCallsPerRepresentative avg_calls_per_rep] in
    s ← pd.getitem t "representative";
    top ← first (pd.value_counts s);
    mret (insights ++ [TopPerformer (fst top) (snd top)])
  else mret insights.

Definition doctor_insights (t : DataFrame) (metrics : gmap string Z)
    (insights : list insight) : result (list insight) :=
  if pd.has_column "doctor" t then
    total_calls ← dict_getitem metrics "total_calls";
    total_doctors ← dict_getitem metrics "total_doctors";
    avg_visits_per_doctor ← truediv total_calls total_doctors;
    mret (insights ++ [AverageVisitsPerDoctor avg_visits_per_doctor])
  else mret insights.

Definition division_insights (t : DataFrame) (insights : list insight)
    : result (list insight) :=
  if pd.has_column "division" t then
    s ← pd.getitem t "division";
    top ← first (pd.value_counts s);
    mret (insights ++ [MostActiveDivision (fst top) (snd top)])
  else mret insights.

(** The date block.  After the span line is appended the only step left is
    a division by [max(date_range, 1)], which cannot raise: the handler never
    meets a list extended by one line only. *)
Definition time_insights (df : ref) (t : DataFrame) (insights : list insight)
    : M (list insight) :=
  if pd.has_column "date" t then
    try_except
      (s ← lift (pd.getitem t "date");
       parsed ← lift (to_datetime s);
       write df (pd.setitem t "date" (dt.series parsed));;
       t ← read df;
       (* from here on the name [df] of the source is bound to a new object *)
       t ← lift (pd.dropna t "date");
       if bool_decide (0 < pd.len t)%nat then
         s ← lift (pd.getitem t "date");
         hi ← lift (dt.max s);
         lo ← lift (dt.min s);
         let date_range := dt.days (hi - lo) in
         let insights := insights ++ [DataCovers date_range] in
         daily_avg ← lift (truediv (Z.of_nat (pd.len t)) (Z.max date_range 1));
         mret (insights ++ [AverageDailyCalls daily_avg])
       else mret insights)
      (λ _, mret insights)
  else mret insights.

Definition generate_insights (df : ref) (metrics : gmap string Z) : M (list insight) :=
  t ← read df;
  let insights := [] in
  insights ← lift (representative_insights t metrics insights);
  insights ← lift (doctor_insights t metrics insights);
  insights ← lift (division_insights t insights);
  insights ← time_insights df t insights;
  mret insights.

(** The statements of [main] that load, check and analyse the table; the
    widgets that show the results and the two exports are left to the
    presentation layer. *)
Definition main (uploaded_file : option UploadedFile) : M (option (page Figure)) :=
  match uploaded_file with
  | Some file =>
      df ← load_data file;
      match df with
      | Some df =>
          df ← validate_data df;
          t ← read df;
          metrics ← lift (get_key_metrics t);
          c ← copy df;
          insights ← generate_insights c metrics;
          t ← read df;
          fig1 ← lift (create_rep_performance_chart t);
          t ← read df;
          fig2 ← lift (create_division_analysis_chart t);
          c ← copy df;
          fig3 ← create_time_trend_chart c;
          t ← read df;
          fig4 ← lift (create_doctor_engagement_chart t);
          t ← read df;
          fig5 ← lift (create_cross_analysis t);
          mret (Some (mkPage metrics insights [fig1; fig2; fig3; fig4; fig5]))
      | None => mret None
      end
  | None => mret None
  end.

End Dashboard.

(** ** One implementation of the libraries

    A small implementation of [Libraries], on which the statements below
    are run: comma-separated text without quoting, dates written
    [YYYY-MM-DD], charts kept as the data they were asked to show.  With
    [plots_fail] set, every chart constructor raises. *)

Module StandIn.

Inductive chart :=
| Bar (data : list (value * nat)) (title : string) (horizontal : bool)
| Pie (data : list (value * nat)) (title : string)
| Line (data : list (Z * nat)) (title : string)
| Heatmap (pairs : list (value * value)) (title : string).

Fixpoint split (sep : ascii) (s : string) : list string :=
  match s with
  | EmptyString => [EmptyString]
  | String c s' =>
      if decide (c = sep) then EmptyString :: split sep s'
      else match split sep s' with
           | f :: fs => String c f :: fs
           | [] => [String c EmptyString]
           end
  end.

Definition field (s : string) : cell :=
  if decide (s = "") then None else Some (VStr s).

Definition parse_csv (file : UploadedFile) : result DataFrame :=
  match filter (λ l, l ≠ "") (split "010"%char (content file)) with
  | [] => raise (LibraryError "EmptyDataError")
  | header :: records =>
      mret (mkDataFrame (split ","%char header)
              ((λ l, field <$> split ","%char l) <$> records))
  end.

Definition parse_excel (file : UploadedFile) : result DataFrame :=
  raise (LibraryError "BadZipFile").

Definition digit (c : ascii) : option Z :=
  let n := N_of_ascii c in
  if ((48 <=? n) && (n <=? 57))%N then Some (Z.of_N n - 48)%Z else None.

Fixpoint number_from (acc : Z) (s : string) : option Z :=
  match s with
  | EmptyString => Some acc
  | String c s' => d ← digit c; number_from (10 * acc + d)%Z s'
  end.

Definition number (s : string) : option Z :=
  if decide (s = "") then None else number_from 0%Z s.

Definition is_leap (y : Z) : bool :=
  ((y `mod` 4 =? 0) && (negb (y `mod` 100 =? 0) || (y `mod` 400 =? 0)))%Z.

Definition days_in_month (y m : Z) : Z :=
  if (m =? 2)%Z then (if is_leap y then 29 else 28)%Z
  else if ((m =? 4) || (m =? 6) || (m =? 9) || (m =? 11))%Z then 30%Z
  else 31%Z.

(** Days from 1970-01-01 to the given day of the Gregorian calendar. *)
Definition days_from_civil (y m d : Z) : Z :=
  (let y := if m <=? 2 then y - 1 else y in
   let era := y `div` 400 in
   let yoe := y - era * 400 in
   let mp := (m + 9) `mod` 12 in
   let doy := (153 * mp + 2) `div` 5 + d - 1 in
   let doe := yoe * 365 + yoe `div` 4 - yoe `div` 100 + doy in
   era * 146097 + doe - 719468)%Z.

Definition parse_date (s : string) : option Z :=
  if bool_decide (String.length s = 10%nat)
     && bool_decide (substring 4 1 s = "-")
     && bool_decide (substring 7 1 s = "-")
  then
    y ← number (substring 0 4 s);
    m ← number (substring 5 2 s);
    d ← number (substring 8 2 s);
    if ((1 <=? m) && (m <=? 12) && (1 <=? d) && (d <=? days_in_month y m))%Z
    then Some (days_from_civil y m d * dt.ns_per_day)%Z
    else None
  else None.

Definition parse_cell (c : cell) : option Z :=
  match c with
  | Some (VStr s) => parse_date s
  | Some (VInt ns) => Some ns
  | Some (VTime ns) => Some ns
  | None => None
  end.

Definition plot (plots_fail : bool) (c : chart) : result chart :=
  if plots_fail then raise (LibraryError "ValueError") else mret c.

Definition pairs (d r : list cell) : list (value * value) :=
  omap (λ p, x ← fst p; y ← snd p; Some (x, y)) (zip d r).

Definition parse_cells (s : list cell) : result (list (option Z)) :=
  mret (parse_cell <$> s).

(** [parse_cells] answers a series over the same index. *)
Definition parse_cells_length (s : list cell) (ts : list (option Z))
    (Hts : parse_cells s = inr ts) : length ts = length s :=
  let unwrap (r : result (list (option Z))) :=
    match r with inr ts' => ts' | inl _ => parse_cell <$> s end in
  eq_trans (f_equal length (eq_sym (f_equal unwrap Hts))) (length_fmap parse_cell s).

Definition libraries (plots_fail : bool) : Libraries := {|
  Figure := chart;
  CrossTab := list (value * value);
  read_csv := parse_csv;
  read_excel := parse_excel;
  to_datetime := parse_cells;
  to_datetime_length := parse_cells_length;
  crosstab d r := mret (pairs d r);
  px_bar data title horizontal := plot plots_fail (Bar data title horizontal);
  px_pie data title := plot plots_fail (Pie data title);
  px_line data title := plot plots_fail (Line data title);
  px_imshow img title := plot plots_fail (Heatmap img title);
  update_layout fig := mret fig;
  update_traces fig := mret fig
|}.

End StandIn.


(** ** Notions the statements are written with *)

(** The columns [get_key_metrics] counts, each with the key it reports
    under. *)
Definition counted_columns : list (string * string) :=
  [("representative", "total_reps");
   ("doctor", "total_doctors");
   ("division", "total_divisions")].

(** What [validate_data] puts on screen for a header. *)
Definition validation_messages (cols : list string) : list ui_event :=
  if bool_decide (missing_columns cols ≠ [])
  then [st_warning (MissingColumns (missing_columns cols)); st_info ColumnsAdvice]
  else [].

(** The span in days between the first and the last of a non-empty list of
    timestamps. *)
Definition span_days (x : Z) (xs : list Z) : Z :=
  dt.days (foldr Z.max x xs - foldr Z.min x xs).

(** The lines the date block of [generate_insights] appends for the parsed
    timestamps of the date column. *)
Definition date_lines (times : list Z) : list insight :=
  match times with
  | [] => []
  | x :: xs =>
      let span := span_days x xs in
      [DataCovers span;
       AverageDailyCalls
         (inject_Z (Z.of_nat (length times)) / inject_Z (Z.max span 1))%Q]
  end.

(** The world after [df['date'] = pd.to_datetime(df['date'], errors='coerce')]
    on the object [df]. *)
Definition dates_parsed (df : ref) (t : DataFrame) (parsed : list (option Z))
    (w : world) : world :=
  mkWorld (<[df := pd.setitem t "date" (dt.series parsed)]> (heap w)) (screen w).

(** The first three blocks of [generate_insights], which only read the
    table. *)
Definition column_insights (t : DataFrame) (metrics : gmap string Z)
    : result (list insight) :=
  insights ← representative_insights t metrics [];
  insights ← doctor_insights t metrics insights;
  division_insights t insights.

(** The two lines of the representative block. *)
Definition about_representatives (i : insight) : Prop :=
  match i with
  | AverageCallsPerRepresentative _ | TopPerformer _ _ => True
  | _ => False
  end.

(** Strictly increasing lists of day numbers. *)
Fixpoint increasing (l : list Z) : Prop :=
  match l with
  | [] => True
  | k :: l' => match l' with [] => True | k' :: _ => (k < k')%Z end ∧ increasing l'
  end.

Section Statements.
Context `{Libraries}.

(** The parser [load_data] picks for a file name, if any. *)
Definition chosen_parser (file : UploadedFile) : option (result DataFrame) :=
  if PyStr.endswith (name file) ".csv" then Some (read_csv file)
  else if PyStr.endswith (name file) ".xlsx" || PyStr.endswith (name file) ".xls"
  then Some (read_excel file)
  else None.

(** The chart the time-trend builder asks for. *)
Definition daily_calls (times : list Z) : list (Z * nat) :=
  dt.groupby_size (dt.date <$> times).

(** What the constructor calls of the time-trend builder give. *)
Definition line_chart (times : list Z) : result Figure :=
  fig ← px_line (daily_calls times) "Call Trend Over Time";
  update_traces fig.

End Statements.

(** ** The test script [test_dashboard.py]

    The two checks of the script that work on a table already loaded.  What
    a check prints is kept as structured data beside the value it returns. *)

Inductive printed :=
| MissingRequiredColumns (missing : list string)
| AllRequiredColumnsPresent
| MetricsCalculated (total_calls total_reps total_doctors total_divisions : nat)
| ErrorCalculatingMetrics (e : exn).

Definition test_data_validation (df : DataFrame) : bool * list printed :=
  let missing := filter (λ col, col ∉ columns df) required_columns in
  if bool_decide (missing ≠ []) then (false, [MissingRequiredColumns missing])
  else (true, [AllRequiredColumnsPresent]).

Definition test_metrics_calculation (df : DataFrame) : bool * list printed :=
  let body : result (list printed) :=
    let total_calls := pd.len df in
    s ← pd.getitem df "representative";
    let total_reps := pd.nunique s in
    s ← pd.getitem df "doctor";
    let total_doctors := pd.nunique s in
    s ← pd.getitem df "division";
    let total_divisions := pd.nunique s in
    mret [MetricsCalculated total_calls total_reps total_doctors total_divisions] in
  match body with
  | inr out => (true, out)
  | inl e => (false, [ErrorCalculatingMetrics e])
  end.

(** ** Further notions the statements are written with *)

(** The table [validate_data] leaves in place of [t]. *)
Definition normalized (t : DataFrame) : DataFrame :=
  mkDataFrame ((PyStr.strip ∘ PyStr.lower) <$> columns t) (rows t).

(** The column [c] is there and holds at least one value. *)
Definition holds_value (t : DataFrame) (c : string) : Prop :=
  ∃ s v, pd.getitem t c = inr s ∧ Some v ∈ s.

(** The column [c] is there and holds no value: the table has no record,
    or every cell of the column is missing. *)
Definition without_values (t : DataFrame) (c : string) : Prop :=
  pd.has_column c t = true ∧ ¬ holds_value t c.

(** An entry of a frequency table is at least as frequent as another. *)
Definition at_least_as_frequent (x y : value * nat) : Prop := (snd y ≤ snd x)%nat.

(** [shown] lists values of the series [s], each once and with the number
    of cells that hold it, most frequent first, and no value left out is
    held by more cells than a value listed. *)
Definition most_frequent (s : list cell) (shown : list (value * nat)) : Prop :=
  NoDup shown.*1 ∧
  StronglySorted at_least_as_frequent shown ∧
  (∀ v n, (v, n) ∈ shown → Some v ∈ s ∧ n = pd.occurrences v (pd.present s)) ∧
  (∀ v v' n', Some v ∈ s → v ∉ shown.*1 → (v', n') ∈ shown →
              (pd.occurrences v (pd.present s) ≤ n')%nat).

(** What is sensible for an insight line on a table of [total] records. *)
Definition in_range (total : nat) (i : insight) : Prop :=
  match i with
  | AverageCallsPerRepresentative q | AverageVisitsPerDoctor q =>
      (1 <= q)%Q ∧ (q <= inject_Z (Z.of_nat total))%Q
  | TopPerformer _ n | MostActiveDivision _ n => (1 ≤ n ≤ total)%nat
  | DataCovers d => (0 ≤ d)%Z
  | AverageDailyCalls q => (0 < q)%Q ∧ (q <= inject_Z (Z.of_nat total))%Q
  end.

(** The exceptions the column rules of [generate_insights] can raise. *)
Definition column_rule_error (e : exn) : Prop :=
  e = KeyError "total_calls" ∨ e = KeyError "total_reps"
  ∨ e = KeyError "total_doctors" ∨ e = ZeroDivisionError ∨ e = IndexError.

Definition supported_suffixes : list string := [".csv"; ".xlsx"; ".xls"].

(** An ASCII capital letter. *)
Definition is_upper (c : ascii) : bool :=
  let n := N_of_ascii c in ((65 <=? n) && (n <=? 90))%N.

Section Provenance.
Context `{Libraries}.

(** Where a line of [generate_insights] on the table [t] with the mapping
    [metrics] comes from. *)
Definition line_of (t : DataFrame) (metrics : gmap string Z) (i : insight) : Prop :=
  match i with
  | AverageCallsPerRepresentative q =>
      pd.has_column "representative" t = true ∧
      ∃ calls reps, metrics !! "total_calls" = Some calls ∧
                    metrics !! "total_reps" = Some reps ∧ reps ≠ 0%Z ∧
                    q = (inject_Z calls / inject_Z reps)%Q
  | TopPerformer v n =>
      ∃ s, pd.getitem t "representative" = inr s ∧
           first (pd.value_counts s) = inr (v, n)
  | AverageVisitsPerDoctor q =>
      pd.has_column "doctor" t = true ∧
      ∃ calls doctors, metrics !! "total_calls" = Some calls ∧
                       metrics !! "total_doctors" = Some doctors ∧ doctors ≠ 0%Z ∧
                       q = (inject_Z calls / inject_Z doctors)%Q
  | MostActiveDivision v n =>
      ∃ s, pd.getitem t "division" = inr s ∧
           first (pd.value_counts s) = inr (v, n)
  | DataCovers d =>
      ∃ s parsed x xs, pd.getitem t "date" = inr s ∧ to_datetime s = inr parsed ∧
                       omap id parsed = x :: xs ∧ d = span_days x xs
  | AverageDailyCalls q =>
      ∃ s parsed x xs, pd.getitem t "date" = inr s ∧ to_datetime s = inr parsed ∧
                       omap id parsed = x :: xs ∧
                       q = (inject_Z (Z.of_nat (length (x :: xs)))
                            / inject_Z (Z.max (span_days x xs) 1))%Q
  end.

(** The list [generate_insights] returns on the table [t], whatever the
    store it sits in. *)
Definition insights_of (t : DataFrame) (metrics : gmap string Z)
    : result (list insight) :=
  pre ← column_insights t metrics;
  mret (pre ++ match pd.getitem t "date" ≫= to_datetime with
               | inr parsed => date_lines (omap id parsed)
               | inl _ => []
               end).

(** The chart [create_time_trend_chart] returns on the table [t]. *)
Definition trend_of (t : DataFrame) : option Figure :=
  match pd.getitem t "date" ≫= to_datetime with
  | inr parsed =>
      match omap id parsed with
      | [] => None
      | times => match line_chart times with inr fig => Some fig | inl _ => None end
      end
  | inl _ => None
  end.

End Provenance.

(** ** Sample tables *)

Module Sample.

(** The two records of the specification's example. *)
Definition two_calls : DataFrame :=
  mkDataFrame ["representative"; "doctor"; "division"; "date"]
    [[Some (VStr "John Doe"); Some (VStr "Dr. Smith");
      Some (VStr "Cardiology"); Some (VStr "2024-01-15")];
     [Some (VStr "John Doe"); Some (VStr "Dr. Jones");
      Some (VStr "Cardiology"); Some (VStr "2024-01-16")]].

(** The metrics of a table, as [main] hands them to [generate_insights]. *)
Definition metrics_of (t : DataFrame) : gmap string Z :=
  match get_key_metrics t with
  | inr metrics => metrics
  | inl _ => ∅
  end.

(** Two records, the date of the second unreadable. *)
Definition one_bad_date : DataFrame :=
  mkDataFrame ["date"] [[Some (VStr "2024-01-15")]; [Some (VStr "not-a-date")]].

(** One record, its representative cell empty. *)
Definition blank_representative : DataFrame :=
  mkDataFrame ["representative"; "doctor"] [[None; Some (VStr "Dr. Smith")]].

(** A table without a representative column. *)
Definition no_representative : DataFrame :=
  mkDataFrame ["doctor"; "date"]
    [[Some (VStr "Dr. Smith"); Some (VStr "2024-01-15")]].

Definition jan15 : Z := 1705276800000000000%Z.
Definition jan16 : Z := 1705363200000000000%Z.

Definition upload : UploadedFile :=
  mkUploadedFile "calls.csv"
    "representative,doctor,division,date
John Doe,Dr. Smith,Cardiology,2024-01-15
John Doe,Dr. Jones,Cardiology,2024-01-16
".

(** The libraries with every call working. *)
Definition working : Libraries := StandIn.libraries false.

(** The libraries with chart constructors that raise. *)
Definition failing : Libraries := StandIn.libraries true.

End Sample.

(** * Properties *)

(** ** Strings *)

Module PyStrFacts.
Import PyStr.

Lemma lower_char_idemp c : lower_char (lower_char c) = lower_char c.
Proof. by destruct c as [[] [] [] [] [] [] [] []]. Qed.

Lemma isspace_lower_char c : isspace (lower_char c) = isspace c.
Proof. by destruct c as [[] [] [] [] [] [] [] []]. Qed.

Lemma lower_idemp s : lower (lower s) = lower s.
Proof.
  induction s as [|c s IH]; simpl; [done|].
  by rewrite lower_char_idemp, IH.
Qed.

Lemma lower_lstrip s : lower (lstrip s) = lstrip (lower s).
Proof.
  induction s as [|c s IH]; simpl; [done|].
  rewrite isspace_lower_char. by destruct (isspace c).
Qed.

Lemma lower_rstrip s : lower (rstrip s) = rstrip (lower s).
Proof.
  induction s as [|c s IH]; simpl; [done|].
  rewrite <- IH, isspace_lower_char.
  destruct (rstrip s); simpl; [by destruct (isspace c)|done].
Qed.

Lemma lower_strip s : lower (strip s) = strip (lower s).
Proof. unfold strip. by rewrite lower_rstrip, lower_lstrip. Qed.

Lemma lstrip_idemp s : lstrip (lstrip s) = lstrip s.
Proof.
  induction s as [|c s IH]; simpl; [done|].
  destruct (isspace c) eqn:E; [done|]. simpl. by rewrite E.
Qed.

Lemma rstrip_cons c s :
  rstrip (String c s) =
  match rstrip s with
  | EmptyString => if isspace c then EmptyString else String c EmptyString
  | r => String c r
  end.
Proof. done. Qed.

Lemma rstrip_idemp s : rstrip (rstrip s) = rstrip s.
Proof.
  induction s as [|c s IH]; [done|].
  rewrite rstrip_cons.
  destruct (rstrip s) as [|c' r] eqn:E.
  - destruct (isspace c) eqn:Ec; simpl; [done|]. by rewrite Ec.
  - by rewrite rstrip_cons, IH.
Qed.

(** Trimming on the right leaves a string trimmed on the left as it is on
    that side. *)
Lemma lstrip_rstrip_fixed s : lstrip s = s → lstrip (rstrip s) = rstrip s.
Proof.
  destruct s as [|c s]; simpl; [done|].
  destruct (isspace c) eqn:Ec.
  - intros Hs. exfalso.
    assert (Hlen : ∀ u, (String.length (lstrip u) <= String.length u)%nat).
    { induction u as [|d u IHu]; simpl; [lia|]. destruct (isspace d); simpl; lia. }
    specialize (Hlen s). rewrite Hs in Hlen. simpl in Hlen. lia.
  - intros _. destruct (rstrip s); simpl; by rewrite Ec.
Qed.

Lemma strip_idemp s : strip (strip s) = strip s.
Proof.
  unfold strip.
  rewrite (lstrip_rstrip_fixed (lstrip s)) by apply lstrip_idemp.
  apply rstrip_idemp.
Qed.

(** The transformation [validate_data] applies to a column label is
    idempotent. *)
Lemma normalize_idemp s :
  (strip ∘ lower) ((strip ∘ lower) s) = (strip ∘ lower) s.
Proof.
  unfold compose. by rewrite lower_strip, lower_idemp, strip_idemp.
Qed.

Example lower_strip_header : strip (lower "  Doctor ") = "doctor".
Proof. reflexivity. Qed.

Example strip_keeps_inner_blanks : strip " call type  " = "call type".
Proof. reflexivity. Qed.

Example endswith_csv : endswith "calls.csv" ".csv" = true.
Proof. reflexivity. Qed.

Example endswith_is_case_sensitive : endswith "CALLS.CSV" ".csv" = false.
Proof. reflexivity. Qed.

Example endswith_any_xls : endswith_any "calls.xls" [".xlsx"; ".xls"] = true.
Proof. reflexivity. Qed.

Example endswith_longer_suffix : endswith "csv" ".csv" = false.
Proof. reflexivity. Qed.

End PyStrFacts.

(** ** Series and frames *)

Module pdFacts.
Import pd.

Lemma get_loc_is_Some c cols : c ∈ cols ↔ is_Some (get_loc c cols).
Proof.
  induction cols as [|c' cols IH]; simpl.
  - split; [by intros ?%elem_of_nil | by intros [? ?]].
  - rewrite elem_of_cons. destruct (decide (c' = c)) as [->|Hne].
    + split; eauto.
    + rewrite fmap_is_Some, <- IH. naive_solver.
Qed.

Lemma get_loc_None c cols : c ∉ cols ↔ get_loc c cols = None.
Proof. rewrite get_loc_is_Some, eq_None_not_Some. done. Qed.

Lemma get_loc_lookup c cols i : get_loc c cols = Some i → cols !! i = Some c.
Proof.
  revert i. induction cols as [|c' cols IH]; intros i; simpl; [done|].
  destruct (decide (c' = c)) as [->|Hne].
  - by intros [= <-].
  - destruct (get_loc c cols) as [j|]; simpl; [|done].
    intros [= <-]. simpl. by apply IH.
Qed.

Lemma has_column_true c df : has_column c df = true ↔ c ∈ columns df.
Proof. unfold has_column. by rewrite bool_decide_eq_true. Qed.

Lemma has_column_false c df : has_column c df = false ↔ c ∉ columns df.
Proof. unfold has_column. by rewrite bool_decide_eq_false. Qed.

(** Under the guard [c in df.columns] the selection [df[c]] succeeds. *)
Lemma getitem_has_column c df :
  has_column c df = true →
  ∃ i, get_loc c (columns df) = Some i ∧ getitem df c = inr (cell_at i <$> rows df).
Proof.
  intros [i Hi]%has_column_true%get_loc_is_Some.
  exists i. unfold getitem. by rewrite Hi.
Qed.

Lemma getitem_length c df s : getitem df c = inr s → length s = len df.
Proof.
  unfold getitem, len. destruct (get_loc c (columns df)); [|done].
  intros [= <-]. by rewrite length_fmap.
Qed.

Lemma elem_of_distinct (v : value) vs : v ∈ distinct vs ↔ v ∈ vs.
Proof.
  induction vs as [|w vs IH]; simpl; [done|].
  rewrite !elem_of_cons, list_elem_of_filter, IH.
  destruct (decide (v = w)); naive_solver.
Qed.

Lemma NoDup_distinct vs : NoDup (distinct vs).
Proof.
  induction vs as [|w vs IH]; simpl; [constructor|].
  constructor.
  - rewrite list_elem_of_filter. naive_solver.
  - by apply NoDup_filter.
Qed.

(** The length of [distinct] is the cardinal of the set of values. *)
Lemma length_distinct vs :
  length (distinct vs) = size (list_to_set vs : gset value).
Proof.
  rewrite <- (size_list_to_set (C := gset value) (distinct vs)) by apply NoDup_distinct.
  f_equal. apply set_eq. intros v.
  by rewrite !elem_of_list_to_set, elem_of_distinct.
Qed.

Lemma nunique_size s :
  nunique s = size (list_to_set (present s) : gset value).
Proof. apply length_distinct. Qed.

Lemma elem_of_present v s : v ∈ present s ↔ Some v ∈ s.
Proof.
  unfold present. rewrite list_elem_of_omap. split.
  - intros (c & Hc & Heq). unfold id in Heq. by subst c.
  - intros Hv. by exists (Some v).
Qed.

Lemma insert_by_count_not_nil x l : insert_by_count x l ≠ [].
Proof. destruct l as [|y l]; simpl; [done|]. by destruct (snd y <=? snd x)%nat. Qed.

Lemma elem_of_insert_by_count y x l : y ∈ insert_by_count x l ↔ y = x ∨ y ∈ l.
Proof.
  induction l as [|z l IH]; simpl.
  - rewrite list_elem_of_singleton. set_solver.
  - destruct (snd z <=? snd x)%nat; rewrite !elem_of_cons; [done|].
    rewrite IH. naive_solver.
Qed.

Lemma elem_of_sort_counts (f : value → nat) ws v n :
  (v, n) ∈ foldr insert_by_count [] ((λ w, (w, f w)) <$> ws) ↔ v ∈ ws ∧ n = f v.
Proof.
  induction ws as [|w ws IH]; simpl.
  - rewrite !elem_of_nil. tauto.
  - rewrite elem_of_insert_by_count, IH, elem_of_cons. split.
    + intros [[= -> ->]|[? ?]]; auto.
    + intros [[->|?] ->]; auto.
Qed.

(** What [value_counts] lists: each value present in the series, with its
    number of occurrences. *)
Lemma elem_of_value_counts v n s :
  (v, n) ∈ value_counts s ↔ Some v ∈ s ∧ n = occurrences v (present s).
Proof.
  unfold value_counts.
  by rewrite elem_of_sort_counts, elem_of_distinct, elem_of_present.
Qed.

Lemma value_counts_nil s : value_counts s = [] ↔ present s = [].
Proof.
  unfold value_counts. destruct (present s) as [|v vs]; simpl; [done|].
  split; [|done]. intros Hnil. by apply insert_by_count_not_nil in Hnil.
Qed.

Example value_counts_most_frequent_first :
  value_counts [Some (VStr "a"); None; Some (VStr "b"); Some (VStr "b")]
  = [(VStr "b", 2); (VStr "a", 1)].
Proof. reflexivity. Qed.

Example nunique_skips_missing :
  nunique [Some (VStr "a"); None; Some (VStr "b"); Some (VStr "a")] = 2.
Proof. reflexivity. Qed.

End pdFacts.

(** ** The metrics calculator *)


Ltac unfold_result :=
  unfold mbind, result_bind, mret, result_ret, raise in *; simpl in *.

Ltac guarded_getitem E :=
  let i := fresh "i" in
  let Hs := fresh "Hs" in
  destruct (pdFacts.getitem_has_column _ _ E) as (i & _ & Hs);
  rewrite ?Hs in *.

(** [get_key_metrics] in closed form. *)
Lemma get_key_metrics_run (df : DataFrame) :
  ∃ metrics : gmap string Z,
    get_key_metrics df = inr metrics ∧
    metrics !! "total_calls" = Some (Z.of_nat (pd.len df)) ∧
    ∀ col key, (col, key) ∈ counted_columns →
      if pd.has_column col df
      then ∃ s, pd.getitem df col = inr s ∧
             metrics !! key = Some (Z.of_nat (pd.nunique s))
      else metrics !! key = None.
Proof.
  unfold get_key_metrics.
  destruct (pd.has_column "representative" df) eqn:E1;
    [guarded_getitem E1|];
    (destruct (pd.has_column "doctor" df) eqn:E2; [guarded_getitem E2|]);
    (destruct (pd.has_column "division" df) eqn:E3; [guarded_getitem E3|]);
    unfold_result;
    (eexists; split; [reflexivity|]; split; [by simplify_map_eq|]);
    intros col key Hin; unfold counted_columns in Hin;
    repeat (apply elem_of_cons in Hin as [[= -> ->]|Hin]);
    try (by apply elem_of_nil in Hin);
    rewrite ?E1, ?E2, ?E3;
    try (by simplify_map_eq);
    (eexists; split; [eassumption|]);
    by simplify_map_eq.
Qed.

(** C1.  On every table [get_key_metrics] returns a mapping, without error.
    In it [total_calls] is the number of records.  For each of the columns
    representative, doctor and division: when the table has the column, the
    key [total_reps], [total_doctors] or [total_divisions] holds the number
    of distinct values found in that column, that is the cardinal of the set
    of its values (a missing cell holds no value); when the table does not
    have the column, the key is not in the mapping. *)
Theorem get_key_metrics_spec (df : DataFrame) :
  ∃ metrics : gmap string Z,
    get_key_metrics df = inr metrics ∧
    metrics !! "total_calls" = Some (Z.of_nat (length (rows df))) ∧
    ∀ col key, (col, key) ∈ counted_columns →
      if pd.has_column col df
      then ∃ s, pd.getitem df col = inr s ∧
             metrics !! key
             = Some (Z.of_nat (size (list_to_set (pd.present s) : gset value)))
      else metrics !! key = None.
Proof.
  destruct (get_key_metrics_run df) as (metrics & Hrun & Hcalls & Hcols).
  exists metrics. split; [done|]. split; [done|].
  intros col key Hin. specialize (Hcols col key Hin).
  destruct (pd.has_column col df); [|done].
  destruct Hcols as (s & Hs & Hkey). exists s.
  by rewrite <- pdFacts.nunique_size.
Qed.

(** ** Running effectful code *)

Ltac unfold_M :=
  unfold mbind, M_bind, mret, M_ret, lift, try_except, emit, new, read, write,
    copy in *.

Lemma read_valid r w t : heap w !! r = Some t → read r w = (inr t, w).
Proof. intros Hr. unfold read. by rewrite Hr. Qed.

Lemma read_dangling r w : heap w !! r = None → read r w = (inl DanglingReference, w).
Proof. intros Hr. unfold read. by rewrite Hr. Qed.

Lemma write_valid r w t t' :
  heap w !! r = Some t →
  write r t' w = (inr tt, mkWorld (<[r := t']> (heap w)) (screen w)).
Proof. intros Hr. unfold write. by rewrite Hr. Qed.

(** ** The normalizer *)


Lemma validate_data_run df w t :
  heap w !! df = Some t →
  validate_data df w
  = (inr df,
     mkWorld
       (<[df := mkDataFrame ((PyStr.strip ∘ PyStr.lower) <$> columns t) (rows t)]> (heap w))
       (screen w ++ validation_messages (columns t))).
Proof.
  intros Hdf. unfold validate_data, validation_messages. unfold_M.
  rewrite Hdf. case_bool_decide; simpl; rewrite Hdf; simpl.
  - by rewrite <- app_assoc.
  - by rewrite app_nil_r.
Qed.

Lemma validate_data_dangling df w :
  heap w !! df = None → validate_data df w = (inl DanglingReference, w).
Proof. intros Hdf. unfold validate_data. unfold_M. by rewrite Hdf. Qed.

Lemma filter_nil_Forall {A} (P : A → Prop) `{∀ x, Decision (P x)} (l : list A) :
  filter P l = [] ↔ Forall (λ x, ¬ P x) l.
Proof.
  induction l as [|x l IH]; simpl.
  - split; [constructor|done].
  - rewrite Forall_cons, <- IH, filter_cons.
    destruct (decide (P x)); split; try done; tauto.
Qed.

(** The warning is shown exactly when a required name is not among the
    lower-cased labels; trimming plays no part in the test. *)
Lemma validation_messages_nil cols :
  validation_messages cols = [] ↔
  ∀ col, col ∈ required_columns → col ∈ PyStr.lower <$> cols.
Proof.
  unfold validation_messages, missing_columns.
  case_bool_decide as Hm; split; try done.
  - intros Hall. destruct Hm.
    apply filter_nil_Forall, Forall_forall. intros col Hcol Hnot.
    by apply Hnot, Hall.
  - intros _ col Hcol.
    destruct (decide (col ∈ PyStr.lower <$> cols)) as [|Hnot]; [done|].
    assert (col ∈ filter (λ col, col ∉ PyStr.lower <$> cols) required_columns) as Hin
      by by apply list_elem_of_filter.
    rewrite Hm in Hin. by apply elem_of_nil in Hin.
Qed.

(** C10.  The transformation of [validate_data] on column labels, lower-case
    then trim, is idempotent: applied to a header already transformed it
    changes no label, and running [validate_data] a second time on the same
    table object leaves every table of the store as the first run left it. *)
Theorem validate_data_idempotent (cols : list string) (df : ref) (w : world) :
  (PyStr.strip ∘ PyStr.lower) <$> ((PyStr.strip ∘ PyStr.lower) <$> cols)
  = (PyStr.strip ∘ PyStr.lower) <$> cols
  ∧ heap (snd (validate_data df (snd (validate_data df w))))
    = heap (snd (validate_data df w)).
Proof.
  assert (Hcols : ∀ l : list string,
    (PyStr.strip ∘ PyStr.lower) <$> ((PyStr.strip ∘ PyStr.lower) <$> l)
    = (PyStr.strip ∘ PyStr.lower) <$> l).
  { intros l. rewrite <- list_fmap_compose. apply list_fmap_ext.
    intros _ s _. apply PyStrFacts.normalize_idemp. }
  split; [apply Hcols|].
  destruct (heap w !! df) as [t|] eqn:Hdf.
  - rewrite (validate_data_run df w t Hdf). simpl.
    erewrite validate_data_run; simpl.
    2:{ apply list_lookup_insert_eq. by eapply lookup_lt_Some. }
    rewrite list_insert_insert_eq. simpl. by rewrite Hcols.
  - rewrite (validate_data_dangling df w Hdf). simpl.
    by rewrite (validate_data_dangling df w Hdf).
Qed.

(** C4, as the code has it.  A table whose header reads
    [representative, doctor, division, date] with a blank in front of
    [doctor] has, once normalized, all four required columns; yet
    [validate_data] warns that [doctor] is missing, because its test looks at
    the labels lower-cased but not trimmed. *)
Theorem validate_data_warns_on_padded_header :
  let t := mkDataFrame ["representative"; " doctor"; "division"; "date"]
             [[Some (VStr "John Doe"); Some (VStr "Dr. Smith");
               Some (VStr "Cardiology"); Some (VStr "2024-01-15")]] in
  let normalized := (PyStr.strip ∘ PyStr.lower) <$> columns t in
  normalized = required_columns
  ∧ validate_data 0%nat (mkWorld [t] [])
    = (inr 0%nat,
       mkWorld [mkDataFrame normalized (rows t)]
         [st_warning (MissingColumns ["doctor"]); st_info ColumnsAdvice]).
Proof. split; vm_compute; reflexivity. Qed.

(** ** The loader *)

Section Loader.
Context `{Libraries}.


Lemma load_data_run file w :
  load_data file w =
  match chosen_parser file with
  | Some (inr t) => (inr (Some (length (heap w))), mkWorld (heap w ++ [t]) (screen w))
  | Some (inl e) => (inr None, mkWorld (heap w) (screen w ++ [st_error (ErrorLoadingFile e)]))
  | None => (inr None, mkWorld (heap w) (screen w ++ [st_error UnsupportedFormat]))
  end.
Proof.
  unfold load_data, chosen_parser, PyStr.endswith_any. unfold_M. simpl.
  destruct (PyStr.endswith (name file) ".csv").
  - by destruct (read_csv file).
  - rewrite orb_false_r.
    destruct (PyStr.endswith (name file) ".xlsx" || PyStr.endswith (name file) ".xls").
    + by destruct (read_excel file).
    + done.
Qed.

(** C7.  [load_data] never raises.  It yields no table exactly when the file
    name ends in none of [.csv], [.xlsx], [.xls], or the parser chosen for it
    raises.  A name ending in [.csv] goes to the CSV parser, one ending in
    [.xlsx] or [.xls] to the spreadsheet parser, and the table a parser
    returns is handed back as a new object, with nothing put on screen. *)
Theorem load_data_spec (file : UploadedFile) (w : world) :
  let csv := PyStr.endswith (name file) ".csv" in
  let excel := PyStr.endswith (name file) ".xlsx" || PyStr.endswith (name file) ".xls" in
  (fst (load_data file w) = inr None ↔
     (csv = false ∧ excel = false)
     ∨ (csv = true ∧ ∃ e, read_csv file = inl e)
     ∨ (csv = false ∧ excel = true ∧ ∃ e, read_excel file = inl e))
  ∧ (∀ t, (csv = true ∧ read_csv file = inr t)
          ∨ (csv = false ∧ excel = true ∧ read_excel file = inr t) →
       load_data file w
       = (inr (Some (length (heap w))), mkWorld (heap w ++ [t]) (screen w)))
  ∧ (∃ r, fst (load_data file w) = inr r).
Proof.
  intros csv excel. rewrite load_data_run. unfold chosen_parser.
  fold csv. fold excel. clearbody csv excel.
  destruct csv, excel; cbn -[read_csv read_excel];
    try destruct (read_csv file) as [e1|t1] eqn:E1;
    try destruct (read_excel file) as [e2|t2] eqn:E2; cbn;
    (split; [|split]; [| |by eexists]).
  all: try (intros t [[? ?]|[? [? ?]]]; by simplify_eq).
  all: split.
  all: try done.
  all: try (intros [[? ?]|[[? [? ?]]|[? [? [? ?]]]]]; done).
  all: intros _; eauto 8.
Qed.

End Loader.

(** ** Overwriting a column and dropping records *)

Module frameFacts.
Import pd.

Lemma cell_at_set_cell_eq i v r : cell_at i (set_cell i v r) = v.
Proof.
  unfold cell_at, set_cell.
  rewrite list_lookup_insert_eq; [done|].
  rewrite length_app, length_replicate. lia.
Qed.

Lemma cell_at_app_missing j r n : cell_at j (r ++ replicate n None) = cell_at j r.
Proof.
  unfold cell_at. destruct (decide (j < length r)%nat) as [Hlt|Hge].
  - by rewrite lookup_app_l.
  - rewrite lookup_app_r by lia. rewrite (lookup_ge_None_2 r) by lia.
    destruct (decide (j - length r < n)%nat).
    + by rewrite lookup_replicate_2.
    + by rewrite lookup_ge_None_2 by (rewrite length_replicate; lia).
Qed.

Lemma cell_at_set_cell_ne i j v r : i ≠ j → cell_at j (set_cell i v r) = cell_at j r.
Proof.
  intros Hne. unfold set_cell.
  transitivity (cell_at j (r ++ replicate (S i - length r) None)).
  - unfold cell_at. by rewrite list_lookup_insert_ne.
  - apply cell_at_app_missing.
Qed.

(** Reading back the column just written. *)
Lemma column_zip_set_cell i s (rs : list (list cell)) :
  length s = length rs → cell_at i <$> zip_with (set_cell i) s rs = s.
Proof.
  revert rs. induction s as [|v s IH]; intros [|r rs]; simpl; try done.
  intros [= Hlen]. by rewrite cell_at_set_cell_eq, IH.
Qed.

(** The other columns stay as they were. *)
Lemma column_zip_set_cell_ne i j s (rs : list (list cell)) :
  i ≠ j → length s = length rs →
  cell_at j <$> zip_with (set_cell i) s rs = cell_at j <$> rs.
Proof.
  intros Hne. revert rs. induction s as [|v s IH]; intros [|r rs]; simpl; try done.
  intros [= Hlen]. by rewrite cell_at_set_cell_ne, IH.
Qed.

Lemma columns_setitem df c s : columns (setitem df c s) = columns df.
Proof. unfold setitem. by destruct (get_loc c (columns df)). Qed.

Lemma getitem_setitem_eq df c s old :
  getitem df c = inr old → length s = len df →
  getitem (setitem df c s) c = inr s.
Proof.
  unfold getitem, setitem, len.
  destruct (get_loc c (columns df)) as [i|] eqn:Hi; [|done].
  intros _ Hlen. simpl. rewrite Hi. simpl.
  by rewrite column_zip_set_cell.
Qed.

(** A label found at two positions names the same position: positions of
    distinct labels differ. *)
Lemma get_loc_ne c c' cols i j :
  c ≠ c' → get_loc c cols = Some i → get_loc c' cols = Some j → i ≠ j.
Proof.
  intros Hne Hi%pdFacts.get_loc_lookup Hj%pdFacts.get_loc_lookup ->. congruence.
Qed.

Lemma getitem_setitem_ne df c c' s :
  c ≠ c' → length s = len df →
  getitem (setitem df c s) c' = getitem df c'.
Proof.
  intros Hne Hlen. unfold getitem, setitem, len in *.
  destruct (get_loc c (columns df)) as [i|] eqn:Hi; [|done]. simpl.
  destruct (get_loc c' (columns df)) as [j|] eqn:Hj; [|done]. simpl.
  rewrite column_zip_set_cell_ne; [done| |done].
  by eapply get_loc_ne.
Qed.

Lemma len_setitem df c s : length s = len df → len (setitem df c s) = len df.
Proof.
  unfold setitem, len. destruct (get_loc c (columns df)); [|done]. simpl.
  intros Hlen. rewrite length_zip_with. lia.
Qed.

Lemma column_filter_present i (rs : list (list cell)) :
  cell_at i <$> filter (λ r, is_Some (cell_at i r)) rs
  = filter is_Some (cell_at i <$> rs).
Proof.
  induction rs as [|r rs IH]; [done|].
  rewrite fmap_cons, !filter_cons.
  destruct (decide (is_Some (cell_at i r))); rewrite ?fmap_cons; by rewrite IH.
Qed.

(** After [dropna] on a column, that column is the old one without its
    missing cells. *)
Lemma getitem_dropna df c s :
  getitem df c = inr s →
  ∃ df', dropna df c = inr df' ∧ columns df' = columns df ∧
         getitem df' c = inr (filter is_Some s) ∧
         len df' = length (filter is_Some s).
Proof.
  unfold getitem, dropna, len.
  destruct (get_loc c (columns df)) as [i|] eqn:Hi; [|done].
  intros [= <-]. eexists. split; [done|]. simpl. rewrite Hi. simpl.
  split; [done|]. split.
  - by rewrite column_filter_present.
  - by rewrite <- column_filter_present, length_fmap.
Qed.

Lemma series_cons o parsed :
  dt.series (o :: parsed) = (VTime <$> o) :: dt.series parsed.
Proof. done. Qed.

Lemma filter_present_series parsed :
  filter is_Some (dt.series parsed) = dt.series (filter is_Some parsed).
Proof.
  induction parsed as [|[x|] parsed IH]; [done| |]; rewrite series_cons.
  - rewrite !filter_cons_True by (simpl; eauto). rewrite series_cons.
    f_equal. apply IH.
  - rewrite !filter_cons_False by (by intros [? ?]). apply IH.
Qed.

Lemma timestamps_series parsed : dt.timestamps (dt.series parsed) = omap id parsed.
Proof.
  unfold dt.timestamps.
  induction parsed as [|[x|] parsed IH]; [done| |]; rewrite series_cons; simpl.
  - f_equal. apply IH.
  - apply IH.
Qed.

Lemma omap_filter_present (parsed : list (option Z)) :
  omap id (filter is_Some parsed) = omap id parsed.
Proof.
  induction parsed as [|[x|] parsed IH]; [done| |].
  - rewrite filter_cons_True by eauto. simpl. f_equal. apply IH.
  - rewrite filter_cons_False by (by intros [? ?]). apply IH.
Qed.

Lemma length_filter_present (parsed : list (option Z)) :
  length (filter is_Some parsed) = length (omap id parsed).
Proof.
  induction parsed as [|[x|] parsed IH]; [done| |].
  - rewrite filter_cons_True by eauto. simpl. f_equal. apply IH.
  - rewrite filter_cons_False by (by intros [? ?]). apply IH.
Qed.

Lemma elem_of_omap_id (x : Z) (parsed : list (option Z)) :
  x ∈ omap id parsed ↔ Some x ∈ parsed.
Proof.
  rewrite list_elem_of_omap. split.
  - intros (o & Ho & Heq). unfold id in Heq. by subst o.
  - intros Hx. by exists (Some x).
Qed.

End frameFacts.

(** ** Dates *)

Module dtFacts.

Lemma foldr_max_spec t ts :
  foldr Z.max t ts ∈ t :: ts ∧ ∀ x, x ∈ t :: ts → (x ≤ foldr Z.max t ts)%Z.
Proof.
  induction ts as [|u ts [IHin IHub]]; simpl.
  - split; [set_solver|]. intros x ?%list_elem_of_singleton. lia.
  - split.
    + destruct (Z.max_spec u (foldr Z.max t ts)) as [[_ ->]|[_ ->]].
      * apply elem_of_cons in IHin as [->|?]; set_solver.
      * set_solver.
    + intros x Hx. assert (x = u ∨ x ∈ t :: ts) as [->|Hx'] by set_solver.
      * lia.
      * specialize (IHub x Hx'). lia.
Qed.

Lemma foldr_min_spec t ts :
  foldr Z.min t ts ∈ t :: ts ∧ ∀ x, x ∈ t :: ts → (foldr Z.min t ts ≤ x)%Z.
Proof.
  induction ts as [|u ts [IHin IHlb]]; simpl.
  - split; [set_solver|]. intros x ?%list_elem_of_singleton. lia.
  - split.
    + destruct (Z.min_spec u (foldr Z.min t ts)) as [[_ ->]|[_ ->]].
      * set_solver.
      * apply elem_of_cons in IHin as [->|?]; set_solver.
    + intros x Hx. assert (x = u ∨ x ∈ t :: ts) as [->|Hx'] by set_solver.
      * lia.
      * specialize (IHlb x Hx'). lia.
Qed.

Lemma elem_of_insert_key k' k l : k' ∈ dt.insert_key k l ↔ k' = k ∨ k' ∈ l.
Proof.
  induction l as [|u l IH]; simpl.
  - set_solver.
  - destruct (Z.ltb_spec k u); [set_solver|].
    destruct (Z.eqb_spec k u) as [->|]; [set_solver|].
    rewrite !elem_of_cons, IH. tauto.
Qed.

Lemma elem_of_sorted_keys k keys : k ∈ foldr dt.insert_key [] keys ↔ k ∈ keys.
Proof.
  induction keys as [|u keys IH]; simpl; [done|].
  rewrite elem_of_insert_key, IH. set_solver.
Qed.


Lemma increasing_insert_key k l : increasing l → increasing (dt.insert_key k l).
Proof.
  induction l as [|u l IH]; simpl; [done|].
  intros [Hu Hl].
  destruct (Z.ltb_spec k u); [simpl; tauto|].
  destruct (Z.eqb_spec k u) as [->|]; [simpl; tauto|].
  simpl. split; [|by apply IH].
  destruct l as [|u' l]; simpl; [lia|].
  destruct (Z.ltb_spec k u'); [lia|].
  destruct (Z.eqb_spec k u'); [lia|lia].
Qed.

Lemma increasing_sorted_keys keys : increasing (foldr dt.insert_key [] keys).
Proof. induction keys; simpl; [done|]. by apply increasing_insert_key. Qed.

(** What [groupby_size] lists: each key that occurs, with the number of its
    occurrences, keys increasing. *)
Lemma elem_of_groupby_size k n keys :
  (k, n) ∈ dt.groupby_size keys ↔
  k ∈ keys ∧ n = length (filter (λ k', k' = k) keys).
Proof.
  unfold dt.groupby_size. rewrite list_elem_of_fmap. split.
  - intros (k0 & Heq & Hk). rewrite elem_of_sorted_keys in Hk.
    injection Heq as -> ->. done.
  - intros [Hk ->]. exists k. by rewrite elem_of_sorted_keys.
Qed.

Lemma groupby_size_keys keys : increasing (dt.groupby_size keys).*1.
Proof.
  unfold dt.groupby_size. rewrite <- list_fmap_compose.
  erewrite list_fmap_ext; [rewrite list_fmap_id; apply increasing_sorted_keys|].
  done.
Qed.

Example groupby_size_by_day :
  dt.groupby_size [19738; 19737; 19738]%Z = [(19737%Z, 1); (19738%Z, 2)].
Proof. reflexivity. Qed.

End dtFacts.

(** ** The date column: parsing, overwriting, dropping *)

Section Dates.
Context `{Libraries}.


Lemma series_length parsed : length (dt.series parsed) = length parsed.
Proof. unfold dt.series. by rewrite length_fmap. Qed.

(** The two statements both date-dependent functions start with: the
    object is overwritten, the name is rebound to the frame of the records
    that carry a date. *)
Lemma parse_dates_run df w t s parsed :
  heap w !! df = Some t →
  pd.getitem t "date" = inr s →
  to_datetime s = inr parsed →
  ∃ t', pd.getitem t' "date" = inr (dt.series (filter is_Some parsed))
      ∧ pd.len t' = length (omap id parsed)
      ∧ ∀ A (k : DataFrame → M A),
          (write df (pd.setitem t "date" (dt.series parsed));;
           t ← read df;
           t ← lift (pd.dropna t "date");
           k t) w
          = k t' (dates_parsed df t parsed w).
Proof.
  intros Hdf Hs Hparsed.
  assert (Hlen : length (dt.series parsed) = pd.len t).
  { rewrite series_length, (to_datetime_length _ _ Hparsed).
    by eapply pdFacts.getitem_length. }
  pose proof (frameFacts.getitem_setitem_eq t "date" _ s Hs Hlen) as Hget.
  destruct (frameFacts.getitem_dropna _ _ _ Hget) as (t' & Hdrop & _ & Hget' & Hlen').
  exists t'. split; [|split].
  - by rewrite Hget', frameFacts.filter_present_series.
  - by rewrite Hlen', frameFacts.filter_present_series, series_length,
      frameFacts.length_filter_present.
  - intros A k. unfold_M. rewrite Hdf. cbn [heap screen].
    rewrite list_lookup_insert_eq by (by eapply lookup_lt_Some).
    by rewrite Hdrop.
Qed.



Lemma time_insights_run df w t s ins :
  heap w !! df = Some t →
  pd.getitem t "date" = inr s →
  time_insights df t ins w =
  match to_datetime s with
  | inl _ => (inr ins, w)
  | inr parsed => (inr (ins ++ date_lines (omap id parsed)), dates_parsed df t parsed w)
  end.
Proof.
  intros Hdf Hs. unfold time_insights.
  assert (pd.has_column "date" t = true) as ->.
  { apply pdFacts.has_column_true, pdFacts.get_loc_is_Some.
    unfold pd.getitem in Hs. destruct (pd.get_loc "date" (columns t)); [eauto|done]. }
  unfold try_except at 1. unfold mbind at 1, M_bind at 1, lift at 1. rewrite Hs.
  unfold mbind at 1, M_bind at 1, lift at 1.
  destruct (to_datetime s) as [e|parsed] eqn:Hparsed; [done|].
  destruct (parse_dates_run df w t s parsed Hdf Hs Hparsed) as (t' & Hget & Hlen & Hrun).
  rewrite Hrun. rewrite Hlen.
  destruct (omap id parsed) as [|x xs] eqn:Htimes.
  - rewrite bool_decide_false by (simpl; lia). unfold_M. simpl. by rewrite app_nil_r.
  - rewrite bool_decide_true by (simpl; lia). unfold_M. rewrite Hget.
    unfold dt.max, dt.min.
    rewrite frameFacts.timestamps_series, frameFacts.omap_filter_present, Htimes.
    unfold_result. unfold truediv.
    destruct (Z.eqb_spec (Z.max (dt.days (foldr Z.max x xs - foldr Z.min x xs)) 1) 0);
      [lia|].
    unfold mret, result_ret, date_lines, span_days. by rewrite <- app_assoc.
Qed.



Lemma create_time_trend_chart_run df w t :
  heap w !! df = Some t →
  create_time_trend_chart df w =
  match pd.getitem t "date" with
  | inl _ => (inr None, w)
  | inr s =>
      match to_datetime s with
      | inl e => (inr None, mkWorld (heap w) (screen w ++ [st_warning (NoTimeTrend e)]))
      | inr parsed =>
          let w' := dates_parsed df t parsed w in
          match omap id parsed with
          | [] => (inr None, w')
          | times =>
              match line_chart times with
              | inr fig => (inr (Some fig), w')
              | inl e =>
                  (inr None,
                   mkWorld (heap w') (screen w' ++ [st_warning (NoTimeTrend e)]))
              end
          end
      end
  end.
Proof.
  intros Hdf. unfold create_time_trend_chart.
  unfold mbind at 1, M_bind at 1. rewrite (read_valid _ _ _ Hdf).
  destruct (pd.has_column "date" t) eqn:Hcol; cbn [negb].
  - destruct (pdFacts.getitem_has_column _ _ Hcol) as (i & _ & Hs). rewrite Hs.
    unfold try_except at 1. unfold mbind at 1, M_bind at 1, lift at 1.
    unfold mbind at 1, M_bind at 1, lift at 1.
    destruct (to_datetime (pd.cell_at i <$> rows t)) as [e|parsed] eqn:Hparsed; [done|].
    destruct (parse_dates_run df w t _ parsed Hdf Hs Hparsed) as (t' & Hget & Hlen & Hrun).
    rewrite Hrun. rewrite Hlen. cbn zeta.
    destruct (omap id parsed) as [|x xs] eqn:Htimes.
    + by rewrite bool_decide_true by done.
    + rewrite bool_decide_false by done. unfold_M. rewrite Hget.
      rewrite frameFacts.timestamps_series, frameFacts.omap_filter_present, Htimes.
      unfold line_chart, daily_calls. unfold_result.
      destruct (px_line _ _) as [e|fig]; [done|].
      by destruct (update_traces fig).
  - apply pdFacts.has_column_false, pdFacts.get_loc_None in Hcol.
    unfold pd.getitem. by rewrite Hcol.
Qed.

End Dates.

(** ** The insight generator *)



Section Insights.
Context `{Libraries}.

Lemma generate_insights_run df w t metrics :
  heap w !! df = Some t →
  generate_insights df metrics w =
  match column_insights t metrics with
  | inl e => (inl e, w)
  | inr pre => time_insights df t pre w
  end.
Proof.
  intros Hdf. unfold generate_insights, column_insights.
  unfold mbind at 1, M_bind at 1. rewrite (read_valid _ _ _ Hdf).
  unfold_M. unfold mbind, result_bind.
  destruct (representative_insights t metrics []) as [e|i1]; [done|].
  destruct (doctor_insights t metrics i1) as [e|i2]; [done|].
  destruct (division_insights t i2) as [e|i3]; [done|].
  by destruct (time_insights df t i3 w) as [[e|i4] w'].
Qed.

Lemma time_insights_cases df w t ins :
  heap w !! df = Some t →
  time_insights df t ins w =
  match pd.getitem t "date" with
  | inl _ => (inr ins, w)
  | inr s =>
      match to_datetime s with
      | inl _ => (inr ins, w)
      | inr parsed =>
          (inr (ins ++ date_lines (omap id parsed)), dates_parsed df t parsed w)
      end
  end.
Proof.
  intros Hdf. destruct (pd.getitem t "date") as [e|s] eqn:Hs.
  - unfold time_insights.
    assert (pd.has_column "date" t = false) as ->; [|done].
    apply pdFacts.has_column_false, pdFacts.get_loc_None.
    unfold pd.getitem in Hs. by destruct (pd.get_loc "date" (columns t)).
  - by apply time_insights_run.
Qed.

(** The outcomes of [generate_insights] on a valid reference: an earlier
    rule raised, no date column, the date parser raised, dates parsed. *)
Ltac insights_outcomes Hdf :=
  rewrite (generate_insights_run _ _ _ _ Hdf);
  destruct (column_insights _ _);
  [|rewrite (time_insights_cases _ _ _ _ Hdf);
    destruct (pd.getitem _ "date"); [|destruct (to_datetime _)]].

(** C2, as the code has it.  Take a table with a date column that the date
    parser reads with at least one valid date, and suppose the
    representative, doctor and division rules raise no error.  Then
    [generate_insights] ends its list with a span line and a daily-average
    line.  The span is the number of whole days between the earliest and the
    latest parsed date.  The daily average is the number of records whose
    date parsed, not the number of records of the table, divided by
    [max(span, 1)]. *)
Theorem generate_insights_date_lines df w t metrics s parsed pre :
  heap w !! df = Some t →
  pd.getitem t "date" = inr s →
  to_datetime s = inr parsed →
  (∃ x, Some x ∈ parsed) →
  column_insights t metrics = inr pre →
  ∃ lo hi,
    Some lo ∈ parsed ∧ Some hi ∈ parsed ∧
    (∀ x, Some x ∈ parsed → (lo ≤ x ≤ hi)%Z) ∧
    let span := dt.days (hi - lo) in
    let dated := length (filter is_Some parsed) in
    fst (generate_insights df metrics w)
    = inr (pre ++ [DataCovers span;
                   AverageDailyCalls
                     (inject_Z (Z.of_nat dated) / inject_Z (Z.max span 1))%Q]).
Proof.
  intros Hdf Hs Hparsed [x0 Hx0] Hpre.
  rewrite (generate_insights_run _ _ _ _ Hdf), Hpre.
  rewrite (time_insights_cases _ _ _ _ Hdf), Hs, Hparsed.
  rewrite frameFacts.length_filter_present.
  apply frameFacts.elem_of_omap_id in Hx0.
  destruct (omap id parsed) as [|x xs] eqn:Htimes; [by apply elem_of_nil in Hx0|].
  destruct (dtFacts.foldr_max_spec x xs) as [Hmax_in Hmax].
  destruct (dtFacts.foldr_min_spec x xs) as [Hmin_in Hmin].
  exists (foldr Z.min x xs), (foldr Z.max x xs).
  rewrite <- !frameFacts.elem_of_omap_id, Htimes.
  split; [done|]. split; [done|]. split.
  - intros y Hy. rewrite <- frameFacts.elem_of_omap_id, Htimes in Hy.
    split; [by apply Hmin | by apply Hmax].
  - done.
Qed.

(** C5, as the code has it.  [generate_insights] puts nothing on screen and
    touches no other object of the store.  Of the table it is given it keeps
    the header, the number of records and every column other than [date].
    The date column it overwrites with the parsed timestamps whenever the
    column is there, the earlier rules raise no error and the date parser
    does not raise; in every other case the table is left as it was.  [main]
    hands it a copy, so the table of the pipeline is never changed. *)
Theorem generate_insights_frame df w t metrics :
  heap w !! df = Some t →
  let w' := snd (generate_insights df metrics w) in
  screen w' = screen w ∧
  length (heap w') = length (heap w) ∧
  (∀ r, r ≠ df → heap w' !! r = heap w !! r) ∧
  (∃ t', heap w' !! df = Some t' ∧
         columns t' = columns t ∧
         pd.len t' = pd.len t ∧
         (∀ c, c ≠ "date" → pd.getitem t' c = pd.getitem t c) ∧
         match column_insights t metrics, pd.getitem t "date" ≫= to_datetime with
         | inr _, inr parsed => pd.getitem t' "date" = inr (dt.series parsed)
         | _, _ => t' = t
         end) ∧
  heap (snd ((c ← copy df; generate_insights c metrics) w)) !! df = Some t.
Proof.
  intros Hdf w'.
  split; [|split; [|split; [|split]]].
  - subst w'. by insights_outcomes Hdf.
  - subst w'. insights_outcomes Hdf; try done.
    simpl. by rewrite length_insert.
  - intros r Hr. subst w'. insights_outcomes Hdf; try done.
    simpl. by rewrite list_lookup_insert_ne.
  - subst w'. rewrite (generate_insights_run _ _ _ _ Hdf).
    destruct (column_insights t metrics) as [e|pre]; [by exists t|].
    rewrite (time_insights_cases _ _ _ _ Hdf).
    destruct (pd.getitem t "date") as [e|s] eqn:Hs; [by exists t|].
    unfold_result.
    destruct (to_datetime s) as [e|parsed] eqn:Hparsed; [by exists t|].
    assert (Hlen : length (dt.series parsed) = pd.len t).
    { rewrite series_length, (to_datetime_length _ _ Hparsed).
      by eapply pdFacts.getitem_length. }
    exists (pd.setitem t "date" (dt.series parsed)). simpl.
    split; [apply list_lookup_insert_eq; by eapply lookup_lt_Some|].
    split; [apply frameFacts.columns_setitem|].
    split; [by apply frameFacts.len_setitem|].
    split; [|by eapply frameFacts.getitem_setitem_eq].
    intros c Hc. by apply frameFacts.getitem_setitem_ne.
  - unfold copy. unfold mbind at 1, M_bind at 1.
    unfold mbind at 1, M_bind at 1. rewrite (read_valid _ _ _ Hdf).
    unfold new. cbn beta iota.
    set (v := mkWorld (heap w ++ [t]) (screen w)).
    assert (Hc : heap v !! length (heap w) = Some t).
    { subst v. simpl. by rewrite lookup_app_r, Nat.sub_diag by lia. }
    assert (Hne : df ≠ length (heap w)).
    { apply lookup_lt_Some in Hdf. lia. }
    assert (Hv : heap v !! df = Some t).
    { subst v. simpl. by rewrite lookup_app_l by (by eapply lookup_lt_Some). }
    insights_outcomes Hc; try done.
    simpl. rewrite list_lookup_insert_ne by done.
    by rewrite lookup_app_l by (by eapply lookup_lt_Some).
Qed.

End Insights.

(** ** Tables without a representative column, tables without values *)

Section Columns.
Context `{Libraries}.

Lemma representative_insights_absent t metrics ins :
  pd.has_column "representative" t = false →
  representative_insights t metrics ins = inr ins.
Proof. intros Hcol. unfold representative_insights. by rewrite Hcol. Qed.

(** The doctor, division and date blocks append no line about
    representatives. *)
Lemma doctor_insights_lines t metrics ins ins' :
  doctor_insights t metrics ins = inr ins' →
  Forall (λ i, ¬ about_representatives i) ins →
  Forall (λ i, ¬ about_representatives i) ins'.
Proof.
  unfold doctor_insights. destruct (pd.has_column "doctor" t); [|by intros [= <-]].
  unfold_result.
  destruct (dict_getitem metrics "total_calls"); [done|].
  destruct (dict_getitem metrics "total_doctors"); [done|].
  destruct (truediv _ _); [done|].
  intros [= <-] Hins. apply Forall_app. split; [done|].
  apply Forall_singleton. simpl. tauto.
Qed.

Lemma division_insights_lines t ins ins' :
  division_insights t ins = inr ins' →
  Forall (λ i, ¬ about_representatives i) ins →
  Forall (λ i, ¬ about_representatives i) ins'.
Proof.
  unfold division_insights. destruct (pd.has_column "division" t); [|by intros [= <-]].
  unfold_result.
  destruct (pd.getitem t "division"); [done|].
  destruct (first _); [done|].
  intros [= <-] Hins. apply Forall_app. split; [done|].
  apply Forall_singleton. simpl. tauto.
Qed.

Lemma date_lines_not_about_representatives times :
  Forall (λ i, ¬ about_representatives i) (date_lines times).
Proof.
  destruct times; simpl; [constructor|].
  apply Forall_cons. split; [simpl; tauto|]. apply Forall_singleton. simpl. tauto.
Qed.

(** C8.  On a table without a representative column: the metrics mapping
    has no key [total_reps]; the representative chart builder returns the
    empty result; and whatever list [generate_insights] returns holds neither
    the average-calls-per-representative line nor the top-performer line. *)
Theorem representative_column_absent df w t metrics :
  heap w !! df = Some t →
  pd.has_column "representative" t = false →
  (∃ m, get_key_metrics t = inr m ∧ m !! "total_reps" = None) ∧
  create_rep_performance_chart t = inr None ∧
  (∀ ins, fst (generate_insights df metrics w) = inr ins →
          ∀ i, i ∈ ins → ¬ about_representatives i).
Proof.
  intros Hdf Hcol. split; [|split].
  - destruct (get_key_metrics_run t) as (m & Hm & _ & Hcols).
    exists m. split; [done|].
    specialize (Hcols "representative" "total_reps").
    rewrite Hcol in Hcols. apply Hcols. unfold counted_columns. set_solver.
  - unfold create_rep_performance_chart. by rewrite Hcol.
  - intros ins. rewrite (generate_insights_run _ _ _ _ Hdf).
    unfold column_insights. rewrite (representative_insights_absent _ _ _ Hcol).
    unfold mbind at 1, result_bind at 1.
    destruct (doctor_insights t metrics []) as [e|i1] eqn:H1; [done|].
    unfold mbind at 1, result_bind at 1.
    destruct (division_insights t i1) as [e|i2] eqn:H2; [done|].
    rewrite (time_insights_cases _ _ _ _ Hdf).
    assert (Forall (λ i, ¬ about_representatives i) i2) as Hi2.
    { eapply division_insights_lines; [done|].
      eapply doctor_insights_lines; [done|]. constructor. }
    assert (Forall (λ i, ¬ about_representatives i) ins → 
            ∀ i, i ∈ ins → ¬ about_representatives i) as Hall.
    { intros Hins i Hi. by eapply Forall_forall in Hins. }
    destruct (pd.getitem t "date") as [e|s]; [intros [= <-]; by apply Hall|].
    destruct (to_datetime s) as [e|parsed]; intros [= <-]; apply Hall; [done|].
    apply Forall_app. split; [done|]. apply date_lines_not_about_representatives.
Qed.

Lemma nunique_pos s v : Some v ∈ s → (1 ≤ pd.nunique s)%nat.
Proof.
  intros Hv%pdFacts.elem_of_present%pdFacts.elem_of_distinct.
  unfold pd.nunique. destruct (pd.distinct (pd.present s)); simpl; [|lia].
  by apply elem_of_nil in Hv.
Qed.

Lemma nunique_zero s : (∀ v, Some v ∉ s) → pd.nunique s = 0%nat.
Proof.
  intros Hs. unfold pd.nunique.
  destruct (pd.present s) as [|v vs] eqn:Hp; [done|].
  destruct (Hs v). apply pdFacts.elem_of_present. rewrite Hp. set_solver.
Qed.

Lemma first_value_counts s v : Some v ∈ s → ∃ top, first (pd.value_counts s) = inr top.
Proof.
  intros Hv. destruct (pd.value_counts s) as [|top l] eqn:Hvc; [|by exists top].
  apply pdFacts.value_counts_nil in Hvc.
  apply pdFacts.elem_of_present in Hv. rewrite Hvc in Hv. by apply elem_of_nil in Hv.
Qed.

(** C9, as the code has it.  Let [m] be the metrics of a table.  If the
    representative column is there and holds at least one value, the divisor
    [total_reps] is at least 1, the lookup of the most frequent value is
    within bounds and the representative rule gives its two lines; likewise
    the divisor [total_doctors] when the doctor column holds at least one
    value.  If the representative column is there and holds no value, as in
    the empty table, the divisor is zero and [generate_insights] raises
    [ZeroDivisionError]. *)
Theorem insights_divisors df w t m ins :
  heap w !! df = Some t →
  get_key_metrics t = inr m →
  (∀ s v, pd.getitem t "representative" = inr s → Some v ∈ s →
     ∃ reps top,
       m !! "total_reps" = Some reps ∧ (1 ≤ reps)%Z ∧
       first (pd.value_counts s) = inr top ∧
       representative_insights t m ins
       = inr (ins ++ [AverageCallsPerRepresentative
                        (inject_Z (Z.of_nat (pd.len t)) / inject_Z reps)%Q;
                      TopPerformer (fst top) (snd top)])) ∧
  (∀ s v, pd.getitem t "doctor" = inr s → Some v ∈ s →
     ∃ doctors,
       m !! "total_doctors" = Some doctors ∧ (1 ≤ doctors)%Z ∧
       doctor_insights t m ins
       = inr (ins ++ [AverageVisitsPerDoctor
                        (inject_Z (Z.of_nat (pd.len t)) / inject_Z doctors)%Q])) ∧
  (∀ s, pd.getitem t "representative" = inr s → (∀ v, Some v ∉ s) →
     m !! "total_reps" = Some 0%Z ∧
     generate_insights df m w = (inl ZeroDivisionError, w)).
Proof.
  intros Hdf Hm.
  destruct (get_key_metrics_run t) as (m' & Hm' & Hcalls & Hcols).
  assert (m' = m) as -> by congruence.
  assert (Hpresent : ∀ c s, pd.getitem t c = inr s → pd.has_column c t = true).
  { intros c s Hs. apply pdFacts.has_column_true, pdFacts.get_loc_is_Some.
    unfold pd.getitem in Hs. destruct (pd.get_loc c (columns t)); [eauto|done]. }
  split; [|split].
  - intros s v Hs Hv.
    specialize (Hcols "representative" "total_reps").
    rewrite (Hpresent _ _ Hs) in Hcols.
    destruct Hcols as (s' & Hs' & Hreps); [unfold counted_columns; set_solver|].
    assert (s' = s) as -> by congruence.
    destruct (first_value_counts s v Hv) as [top Htop].
    pose proof (nunique_pos s v Hv) as Hpos.
    exists (Z.of_nat (pd.nunique s)), top.
    split; [done|]. split; [lia|]. split; [done|].
    unfold representative_insights, dict_getitem, truediv.
    rewrite (Hpresent _ _ Hs), Hcalls, Hreps, Hs. unfold_result.
    destruct (Z.eqb_spec (Z.of_nat (pd.nunique s)) 0); [lia|].
    rewrite Htop. by rewrite <- app_assoc.
  - intros s v Hs Hv.
    specialize (Hcols "doctor" "total_doctors").
    rewrite (Hpresent _ _ Hs) in Hcols.
    destruct Hcols as (s' & Hs' & Hdocs); [unfold counted_columns; set_solver|].
    assert (s' = s) as -> by congruence.
    pose proof (nunique_pos s v Hv) as Hpos.
    exists (Z.of_nat (pd.nunique s)).
    split; [done|]. split; [lia|].
    unfold doctor_insights, dict_getitem, truediv.
    rewrite (Hpresent _ _ Hs), Hcalls, Hdocs. unfold_result.
    by destruct (Z.eqb_spec (Z.of_nat (pd.nunique s)) 0); [lia|].
  - intros s Hs Hnone.
    specialize (Hcols "representative" "total_reps").
    rewrite (Hpresent _ _ Hs) in Hcols.
    destruct Hcols as (s' & Hs' & Hreps); [unfold counted_columns; set_solver|].
    assert (s' = s) as -> by congruence.
    rewrite (nunique_zero s Hnone) in Hreps.
    split; [done|].
    rewrite (generate_insights_run _ _ _ _ Hdf).
    unfold column_insights, representative_insights, dict_getitem, truediv.
    by rewrite (Hpresent _ _ Hs), Hcalls, Hreps.
Qed.

End Columns.

(** ** The chart builders *)

Section Charts.
Context `{Libraries}.

Lemma occurrences_by_day day (parsed : list (option Z)) :
  length (filter (λ k, k = day) (dt.date <$> omap id parsed))
  = length (filter (λ o : option Z, dt.date <$> o = Some day) parsed).
Proof.
  induction parsed as [|[x|] parsed IH]; [done| |].
  - cbn [omap list_omap id fmap list_fmap]. rewrite !filter_cons.
    destruct (decide (dt.date x = day)) as [Hd|Hd].
    + rewrite decide_True by (simpl; by rewrite Hd). simpl. f_equal. apply IH.
    + rewrite decide_False by (simpl; congruence). apply IH.
  - cbn [omap list_omap id]. rewrite filter_cons_False by done. apply IH.
Qed.

Lemma length_filter_pos {A} (P : A → Prop) `{∀ x, Decision (P x)} (l : list A) :
  (0 < length (filter P l))%nat ↔ ∃ x, x ∈ l ∧ P x.
Proof.
  split.
  - destruct (filter P l) as [|x l'] eqn:Hf; simpl; [lia|]. intros _.
    assert (x ∈ filter P l) as Hx by (rewrite Hf; set_solver).
    apply list_elem_of_filter in Hx. naive_solver.
  - intros (x & Hx & HP).
    assert (x ∈ filter P l) as Hin by by apply list_elem_of_filter.
    destruct (filter P l); simpl; [by apply elem_of_nil in Hin|lia].
Qed.

(** C6.  The time-trend builder never raises.  It returns the empty result
    when the table has no date column and when no record has a date that
    parses.  Otherwise the chart it returns is the one its constructor makes
    of the daily counts: the days on which at least one parsed date falls,
    in increasing order, each with the number of records whose parsed date
    falls on it; a record whose date does not parse is counted nowhere.  (If
    the constructor raises, the result is empty.) *)
Theorem create_time_trend_chart_spec df w t :
  heap w !! df = Some t →
  ∃ fig w',
    create_time_trend_chart df w = (inr fig, w') ∧
    (pd.has_column "date" t = false → fig = None) ∧
    (∀ s parsed,
       pd.getitem t "date" = inr s → to_datetime s = inr parsed →
       let times := omap id parsed in
       (times = [] → fig = None) ∧
       (times ≠ [] →
          fig = (match line_chart times with inr f => Some f | inl _ => None end) ∧
          increasing (daily_calls times).*1 ∧
          ∀ day n, (day, n) ∈ daily_calls times ↔
            (0 < n)%nat ∧
            n = length (filter (λ o : option Z, dt.date <$> o = Some day) parsed))).
Proof.
  intros Hdf. rewrite (create_time_trend_chart_run _ _ _ Hdf).
  destruct (pd.getitem t "date") as [e|s] eqn:Hs.
  { eexists _, _. split; [done|]. split; [done|]. by intros ? ? [=]. }
  assert (pd.has_column "date" t = true) as Hcol.
  { apply pdFacts.has_column_true, pdFacts.get_loc_is_Some.
    unfold pd.getitem in Hs. destruct (pd.get_loc "date" (columns t)); [eauto|done]. }
  destruct (to_datetime s) as [e|parsed] eqn:Hparsed.
  { eexists _, _. split; [done|]. split; [by rewrite Hcol|].
    intros ? ? [= <-]. by rewrite Hparsed. }
  cbn zeta.
  assert (Hgen : ∀ fig : option Figure,
    (omap id parsed = [] → fig = None) →
    (omap id parsed ≠ [] →
       fig = match line_chart (omap id parsed) with inr f => Some f | inl _ => None end) →
    (pd.has_column "date" t = false → fig = None) ∧
    (∀ s0 parsed0,
       (inr s : result (list cell)) = inr s0 → to_datetime s0 = inr parsed0 →
       let times := omap id parsed0 in
       (times = [] → fig = None) ∧
       (times ≠ [] →
          fig = (match line_chart times with inr f => Some f | inl _ => None end) ∧
          increasing (daily_calls times).*1 ∧
          ∀ day n, (day, n) ∈ daily_calls times ↔
            (0 < n)%nat ∧
            n = length (filter (λ o : option Z, dt.date <$> o = Some day) parsed0)))).
  { intros fig Hnil Hcons. split; [by rewrite Hcol|].
    intros s0 parsed0 [= <-] Hp0. assert (parsed0 = parsed) as -> by congruence.
    split; [done|]. intros Hne. split; [by apply Hcons|].
    split; [apply dtFacts.groupby_size_keys|].
    intros day n. unfold daily_calls.
    rewrite dtFacts.elem_of_groupby_size, occurrences_by_day.
    split.
    - intros [Hday ->]. split; [|done].
      rewrite <- occurrences_by_day. apply length_filter_pos. by exists day.
    - intros [Hpos ->]. split; [|done].
      rewrite <- occurrences_by_day in Hpos.
      apply length_filter_pos in Hpos as (k & Hk & ->). done. }
  destruct (omap id parsed) as [|x xs] eqn:Htimes.
  { eexists _, _. split; [done|]. apply Hgen; [done|]. by intros []. }
  destruct (line_chart (x :: xs)) as [e|fig] eqn:Hfig.
  - eexists _, _. split; [done|]. by apply Hgen.
  - eexists _, _. split; [done|]. by apply Hgen.
Qed.

(** C3, as the code has it.  Only the time-trend builder has a handler: it
    never raises, and an exception of the date parser or of its chart
    constructor leaves an empty result and a warning on screen.  Each of the
    other four returns the empty result when a column it needs is absent,
    and lets an exception of its chart constructor reach the caller. *)
Theorem chart_builders_exceptions df w t :
  heap w !! df = Some t →
  (∃ fig w', create_time_trend_chart df w = (inr fig, w')) ∧
  (∀ s e, pd.getitem t "date" = inr s → to_datetime s = inl e →
     create_time_trend_chart df w
     = (inr None, mkWorld (heap w) (screen w ++ [st_warning (NoTimeTrend e)]))) ∧
  (∀ s parsed e,
     pd.getitem t "date" = inr s → to_datetime s = inr parsed →
     omap id parsed ≠ [] → line_chart (omap id parsed) = inl e →
     create_time_trend_chart df w
     = (inr None,
        mkWorld (heap (dates_parsed df t parsed w))
          (screen w ++ [st_warning (NoTimeTrend e)]))) ∧
  (pd.has_column "representative" t = false →
     create_rep_performance_chart t = inr None ∧ create_cross_analysis t = inr None) ∧
  (pd.has_column "division" t = false →
     create_division_analysis_chart t = inr None ∧ create_cross_analysis t = inr None) ∧
  (pd.has_column "doctor" t = false → create_doctor_engagement_chart t = inr None) ∧
  (∀ s e, pd.getitem t "representative" = inr s →
     px_bar (take 10 (pd.value_counts s))
       "Top 10 Representatives by Number of Calls" false = inl e →
     create_rep_performance_chart t = inl e) ∧
  (∀ s e, pd.getitem t "division" = inr s →
     px_pie (pd.value_counts s) "Call Distribution by Division" = inl e →
     create_division_analysis_chart t = inl e) ∧
  (∀ s e, pd.getitem t "doctor" = inr s →
     px_bar (take 15 (pd.value_counts s)) "Top 15 Most Visited Doctors" true = inl e →
     create_doctor_engagement_chart t = inl e) ∧
  (∀ d r img e,
     pd.getitem t "division" = inr d → pd.getitem t "representative" = inr r →
     crosstab d r = inr img →
     px_imshow img "Calls Heatmap: Division vs Representative" = inl e →
     create_cross_analysis t = inl e).
Proof.
  intros Hdf.
  assert (Hpresent : ∀ c s, pd.getitem t c = inr s → pd.has_column c t = true).
  { intros c s Hs. apply pdFacts.has_column_true, pdFacts.get_loc_is_Some.
    unfold pd.getitem in Hs. destruct (pd.get_loc c (columns t)); [eauto|done]. }
  split_and!.
  - rewrite (create_time_trend_chart_run _ _ _ Hdf).
    destruct (pd.getitem t "date"); [by eauto|].
    destruct (to_datetime _); [by eauto|]. cbn zeta.
    destruct (omap id _); [by eauto|].
    destruct (line_chart _); by eauto.
  - intros s e Hs He. rewrite (create_time_trend_chart_run _ _ _ Hdf). by rewrite Hs, He.
  - intros s parsed e Hs Hp Hne He.
    rewrite (create_time_trend_chart_run _ _ _ Hdf). rewrite Hs, Hp. cbn zeta.
    destruct (omap id parsed); [done|]. by rewrite He.
  - unfold create_rep_performance_chart, create_cross_analysis. intros ->.
    by rewrite orb_true_r.
  - unfold create_division_analysis_chart, create_cross_analysis. by intros ->.
  - unfold create_doctor_engagement_chart. by intros ->.
  - intros s e Hs He. unfold create_rep_performance_chart.
    rewrite (Hpresent _ _ Hs), Hs. unfold_result. by rewrite He.
  - intros s e Hs He. unfold create_division_analysis_chart.
    rewrite (Hpresent _ _ Hs), Hs. unfold_result. by rewrite He.
  - intros s e Hs He. unfold create_doctor_engagement_chart.
    rewrite (Hpresent _ _ Hs), Hs. unfold_result. by rewrite He.
  - intros d r img e Hd Hr Himg He. unfold create_cross_analysis.
    rewrite (Hpresent _ _ Hd), (Hpresent _ _ Hr), Hd, Hr. unfold_result.
    by rewrite Himg, He.
Qed.

End Charts.

(** ** The statements on sample tables *)

Section Samples.
Import Sample.
#[local] Existing Instance working.

(** The example of the specification: two calls by one representative to
    two doctors of one division, a day apart. *)
Example two_calls_run :
  let metrics := metrics_of two_calls in
  (metrics !! "total_calls", metrics !! "total_reps",
   metrics !! "total_doctors", metrics !! "total_divisions")
  = (Some 2%Z, Some 1%Z, Some 2%Z, Some 1%Z)
  ∧ fst (generate_insights 0%nat metrics (mkWorld [two_calls] []))
    = inr [AverageCallsPerRepresentative (inject_Z 2 / inject_Z 1)%Q;
           TopPerformer (VStr "John Doe") 2;
           AverageVisitsPerDoctor (inject_Z 2 / inject_Z 2)%Q;
           MostActiveDivision (VStr "Cardiology") 2;
           DataCovers 1;
           AverageDailyCalls (inject_Z 2 / inject_Z 1)%Q].
Proof. split; vm_compute; reflexivity. Qed.

(** The same two calls, uploaded as a file. *)
Example upload_run :
  match main (Some upload) (mkWorld [] []) with
  | (inr (Some p), w) =>
      heap w !! 0%nat = Some two_calls
      ∧ screen w = []
      ∧ page_metrics p !! "total_calls" = Some 2%Z
      ∧ length (page_insights p) = 6%nat
      ∧ page_charts p !! 2%nat
        = Some (Some (StandIn.Line [(19737%Z, 1%nat); (19738%Z, 1%nat)]
                        "Call Trend Over Time"))
  | _ => False
  end.
Proof. vm_compute. split_and!; reflexivity. Qed.

(** C2 on a table: two records, one date readable. *)
Lemma generate_insights_date_lines_witness :
  let w := mkWorld [one_bad_date] [] in
  let s := [Some (VStr "2024-01-15"); Some (VStr "not-a-date")] in
  let parsed := [Some jan15; None] in
  (heap w !! 0%nat = Some one_bad_date
   ∧ pd.getitem one_bad_date "date" = inr s
   ∧ to_datetime s = inr parsed
   ∧ (∃ x, Some x ∈ parsed)
   ∧ column_insights one_bad_date ∅ = inr [])
  ∧ ∃ lo hi,
      Some lo ∈ parsed ∧ Some hi ∈ parsed ∧
      (∀ x, Some x ∈ parsed → (lo ≤ x ≤ hi)%Z) ∧
      let span := dt.days (hi - lo) in
      let dated := length (filter is_Some parsed) in
      fst (generate_insights 0%nat ∅ w)
      = inr ([] ++ [DataCovers span;
                    AverageDailyCalls
                      (inject_Z (Z.of_nat dated) / inject_Z (Z.max span 1))%Q]).
Proof.
  intros w s parsed.
  assert (H1 : heap w !! 0%nat = Some one_bad_date) by reflexivity.
  assert (H2 : pd.getitem one_bad_date "date" = inr s) by reflexivity.
  assert (H3 : to_datetime s = inr parsed) by (vm_compute; reflexivity).
  assert (H4 : ∃ x, Some x ∈ parsed) by (exists jan15; apply list_elem_of_here).
  assert (H5 : column_insights one_bad_date ∅ = inr []) by reflexivity.
  split; [by repeat split|].
  exact (generate_insights_date_lines 0%nat w one_bad_date ∅ s parsed [] H1 H2 H3 H4 H5).
Defined.

(** C2 as stated fails.  The table has two records and one readable date:
    the span is 0 days, [total_calls] is 2, and the daily average the
    generator gives is 1, not 2. *)
Lemma daily_average_counts_dated_records :
  let metrics := metrics_of one_bad_date in
  metrics !! "total_calls" = Some 2%Z
  ∧ fst (generate_insights 0%nat metrics (mkWorld [one_bad_date] []))
    = inr [DataCovers 0; AverageDailyCalls (inject_Z 1 / inject_Z 1)%Q]
  ∧ ¬ (inject_Z 1 / inject_Z 1 == inject_Z 2 / inject_Z (Z.max 0 1))%Q.
Proof.
  split; [vm_compute; reflexivity|]. split; [vm_compute; reflexivity|].
  intros Heq. vm_compute in Heq. discriminate Heq.
Qed.

(** C5 on the two calls of the specification. *)
Lemma generate_insights_frame_witness :
  let w := mkWorld [two_calls] [] in
  let metrics := metrics_of two_calls in
  heap w !! 0%nat = Some two_calls
  ∧ screen (snd (generate_insights 0%nat metrics w)) = []
  ∧ (∃ t', heap (snd (generate_insights 0%nat metrics w)) !! 0%nat = Some t'
           ∧ pd.getitem t' "doctor" = pd.getitem two_calls "doctor"
           ∧ pd.getitem t' "date" = inr [Some (VTime jan15); Some (VTime jan16)])
  ∧ heap (snd ((c ← copy 0%nat; generate_insights c metrics) w)) !! 0%nat
    = Some two_calls.
Proof.
  intros w metrics.
  assert (H1 : heap w !! 0%nat = Some two_calls) by reflexivity.
  destruct (generate_insights_frame 0%nat w two_calls metrics H1)
    as (Hscreen & _ & _ & (t' & Ht' & _ & _ & Hother & Hdate) & Hcopy).
  split; [exact H1|]. split; [exact Hscreen|]. split; [|exact Hcopy].
  exists t'. split; [exact Ht'|]. split; [by apply Hother|].
  exact Hdate.
Defined.

(** C5 as stated fails: after the call the date column of the table that
    was passed holds timestamps, not the strings it held before. *)
Lemma generate_insights_overwrites_dates :
  let w := mkWorld [one_bad_date] [] in
  let w' := snd (generate_insights 0%nat (metrics_of one_bad_date) w) in
  heap w !! 0%nat = Some one_bad_date
  ∧ heap w' !! 0%nat = Some (mkDataFrame ["date"] [[Some (VTime jan15)]; [None]])
  ∧ heap w' !! 0%nat ≠ heap w !! 0%nat.
Proof.
  split; [reflexivity|]. split; [vm_compute; reflexivity|].
  vm_compute. discriminate.
Qed.

(** C6 on a table: two records, one date readable. *)
Lemma create_time_trend_chart_spec_witness :
  let w := mkWorld [one_bad_date] [] in
  heap w !! 0%nat = Some one_bad_date
  ∧ ∃ w', create_time_trend_chart 0%nat w
          = (inr (Some (StandIn.Line [(19737%Z, 1%nat)] "Call Trend Over Time")), w').
Proof.
  intros w.
  assert (H1 : heap w !! 0%nat = Some one_bad_date) by reflexivity.
  split; [exact H1|].
  destruct (create_time_trend_chart_spec 0%nat w one_bad_date H1)
    as (fig & w' & Hrun & _ & Hdated).
  destruct (Hdated [Some (VStr "2024-01-15"); Some (VStr "not-a-date")]
              [Some jan15; None] eq_refl eq_refl) as [_ Hfig].
  destruct Hfig as (Hfig & _ & _); [discriminate|].
  exists w'. rewrite Hrun, Hfig. reflexivity.
Defined.

(** C8 on a table without a representative column. *)
Lemma representative_column_absent_witness :
  let w := mkWorld [no_representative] [] in
  let metrics := metrics_of no_representative in
  (heap w !! 0%nat = Some no_representative
   ∧ pd.has_column "representative" no_representative = false)
  ∧ (∃ m, get_key_metrics no_representative = inr m ∧ m !! "total_reps" = None)
  ∧ create_rep_performance_chart no_representative = inr None
  ∧ (∀ ins, fst (generate_insights 0%nat metrics w) = inr ins →
            ∀ i, i ∈ ins → ¬ about_representatives i)
  ∧ fst (generate_insights 0%nat metrics w)
    = inr [AverageVisitsPerDoctor (inject_Z 1 / inject_Z 1)%Q;
           DataCovers 0;
           AverageDailyCalls (inject_Z 1 / inject_Z 1)%Q].
Proof.
  intros w metrics.
  assert (H1 : heap w !! 0%nat = Some no_representative) by reflexivity.
  assert (H2 : pd.has_column "representative" no_representative = false)
    by (vm_compute; reflexivity).
  destruct (representative_column_absent 0%nat w no_representative metrics H1 H2)
    as (Hm & Hchart & Hins).
  split; [by split|]. split; [exact Hm|]. split; [exact Hchart|].
  split; [exact Hins|]. vm_compute. reflexivity.
Defined.

(** C9 on the two calls of the specification and on a table whose only
    representative cell is empty. *)
Lemma insights_divisors_witness :
  (heap (mkWorld [two_calls] []) !! 0%nat = Some two_calls
   ∧ (∃ m, get_key_metrics two_calls = inr m)
   ∧ heap (mkWorld [blank_representative] []) !! 0%nat = Some blank_representative
   ∧ ∃ m, get_key_metrics blank_representative = inr m)
  ∧ (∃ reps, metrics_of two_calls !! "total_reps" = Some reps ∧ (1 ≤ reps)%Z)
  ∧ metrics_of blank_representative !! "total_reps" = Some 0%Z
  ∧ generate_insights 0%nat (metrics_of blank_representative)
      (mkWorld [blank_representative] [])
    = (inl ZeroDivisionError, mkWorld [blank_representative] []).
Proof.
  assert (H1 : heap (mkWorld [two_calls] []) !! 0%nat = Some two_calls) by reflexivity.
  assert (H2 : get_key_metrics two_calls = inr (metrics_of two_calls)).
  { destruct (get_key_metrics_run two_calls) as (m & Hm & _).
    unfold metrics_of. by rewrite Hm. }
  assert (H3 : heap (mkWorld [blank_representative] []) !! 0%nat
               = Some blank_representative) by reflexivity.
  assert (H4 : get_key_metrics blank_representative
               = inr (metrics_of blank_representative)).
  { destruct (get_key_metrics_run blank_representative) as (m & Hm & _).
    unfold metrics_of. by rewrite Hm. }
  split; [split_and!; eauto|].
  destruct (insights_divisors 0%nat _ two_calls _ [] H1 H2) as (Hreps & _ & _).
  destruct (insights_divisors 0%nat _ blank_representative _ [] H3 H4) as (_ & _ & Hzero).
  split.
  - destruct (Hreps [Some (VStr "John Doe"); Some (VStr "John Doe")]
                (VStr "John Doe") eq_refl (list_elem_of_here _ _))
      as (reps & top & Hr & Hpos & _).
    by exists reps.
  - apply (Hzero [None] eq_refl).
    intros v Hv. apply list_elem_of_singleton in Hv. discriminate Hv.
Defined.

(** C9 as stated fails: one record, the representative column present, and
    yet the divisor [total_reps] is 0 and the division raises. *)
Lemma blank_representative_divides_by_zero :
  let w := mkWorld [blank_representative] [] in
  let metrics := metrics_of blank_representative in
  pd.len blank_representative = 1%nat
  ∧ pd.has_column "representative" blank_representative = true
  ∧ metrics !! "total_reps" = Some 0%Z
  ∧ ¬ (1 ≤ 0)%Z
  ∧ generate_insights 0%nat metrics w = (inl ZeroDivisionError, w).
Proof. split_and!; try (vm_compute; reflexivity). lia. Qed.

(** C3 on the two calls of the specification. *)
Lemma chart_builders_exceptions_witness :
  let w := mkWorld [two_calls] [] in
  heap w !! 0%nat = Some two_calls
  ∧ (∃ fig w', create_time_trend_chart 0%nat w = (inr fig, w'))
  ∧ (pd.has_column "doctor" two_calls = false →
     create_doctor_engagement_chart two_calls = inr None).
Proof.
  intros w.
  assert (H1 : heap w !! 0%nat = Some two_calls) by reflexivity.
  destruct (chart_builders_exceptions 0%nat w two_calls H1)
    as (Htrend & _ & _ & _ & _ & Hdoctor & _).
  split; [exact H1|]. split; [exact Htrend|exact Hdoctor].
Defined.

(** C3 as stated fails.  With chart constructors that raise, the
    representative chart builder and the heat map builder raise, and so
    does [main]; the time-trend builder alone returns the empty result. *)
Lemma chart_exception_reaches_caller :
  let w := mkWorld [two_calls] [] in
  create_rep_performance_chart (H := failing) two_calls
  = inl (LibraryError "ValueError")
  ∧ create_cross_analysis (H := failing) two_calls
    = inl (LibraryError "ValueError")
  ∧ fst (create_time_trend_chart (H := failing) 0%nat w) = inr None
  ∧ fst (main (H := failing) (Some upload) (mkWorld [] []))
    = inl (LibraryError "ValueError").
Proof. split_and!; vm_compute; reflexivity. Qed.

End Samples.

(** * Further properties of the code *)

(** ** Frequency tables *)

Module countFacts.
Import pd.

Lemma insert_by_count_perm x l : insert_by_count x l ≡ₚ x :: l.
Proof.
  induction l as [|y l IH]; simpl; [done|].
  destruct (snd y <=? snd x)%nat; [done|].
  rewrite IH. apply Permutation_swap.
Qed.

Lemma sort_counts_perm l : foldr insert_by_count [] l ≡ₚ l.
Proof.
  induction l as [|x l IH]; simpl; [done|].
  by rewrite insert_by_count_perm, IH.
Qed.

Lemma insert_by_count_sorted x l :
  StronglySorted at_least_as_frequent l →
  StronglySorted at_least_as_frequent (insert_by_count x l).
Proof.
  induction 1 as [|y l Hl IH Hy]; simpl.
  - repeat constructor.
  - destruct (Nat.leb_spec (snd y) (snd x)) as [Hle|Hlt].
    + constructor; [by constructor|].
      constructor; [done|].
      eapply Forall_impl; [exact Hy|].
      unfold at_least_as_frequent. intros z Hz. lia.
    + constructor; [done|].
      rewrite insert_by_count_perm. constructor; [|done].
      unfold at_least_as_frequent. lia.
Qed.

Lemma value_counts_sorted s : StronglySorted at_least_as_frequent (value_counts s).
Proof.
  unfold value_counts.
  induction (_ <$> distinct (present s)) as [|x l IH]; simpl; [constructor|].
  by apply insert_by_count_sorted.
Qed.

Lemma value_counts_perm s :
  value_counts s
  ≡ₚ (λ v, (v, occurrences v (present s))) <$> distinct (present s).
Proof. apply sort_counts_perm. Qed.

Lemma value_counts_keys s : (value_counts s).*1 ≡ₚ distinct (present s).
Proof.
  rewrite value_counts_perm, <- list_fmap_compose.
  erewrite list_fmap_ext; [by rewrite list_fmap_id|done].
Qed.

Lemma NoDup_value_counts s : NoDup (value_counts s).*1.
Proof. rewrite value_counts_keys. apply pdFacts.NoDup_distinct. Qed.

Lemma sum_list_fmap_add {A} (f g : A → nat) (ks : list A) :
  sum_list ((λ k, f k + g k)%nat <$> ks)
  = (sum_list (f <$> ks) + sum_list (g <$> ks))%nat.
Proof. induction ks as [|k ks IH]; csimpl; [done|]. rewrite IH. lia. Qed.

Lemma sum_list_indicator {A} `{EqDecision A} (x : A) (ks : list A) :
  NoDup ks →
  sum_list ((λ k, if decide (x = k) then 1 else 0)%nat <$> ks)
  = if decide (x ∈ ks) then 1%nat else 0%nat.
Proof.
  induction 1 as [|k ks Hk Hks IH]; csimpl.
  - destruct (decide (x ∈ [])) as [Hin|]; [by apply elem_of_nil in Hin|done].
  - rewrite IH. destruct (decide (x = k)) as [->|Hne].
    + rewrite (decide_False (P := k ∈ ks)) by done.
      rewrite decide_True by left. done.
    + destruct (decide (x ∈ ks)) as [Hin|Hin].
      * rewrite decide_True by (by right). done.
      * rewrite decide_False; [done|]. by intros [?|?]%elem_of_cons.
Qed.

(** Counting how often each of a duplicate-free list of keys that covers
    [l] occurs in [l] counts every element of [l] once. *)
Lemma sum_occurrences {A} `{EqDecision A} (ks l : list A) :
  NoDup ks → (∀ x, x ∈ l → x ∈ ks) →
  sum_list ((λ k, length (filter (λ y, y = k) l)) <$> ks) = length l.
Proof.
  intros Hks. induction l as [|x l IH]; intros Hcover.
  - clear. induction ks as [|k ks IH]; csimpl; [done|]. exact IH.
  - assert (Hx : x ∈ ks) by (apply Hcover; left).
    specialize (IH (λ y Hy, Hcover y (list_elem_of_further _ _ _ Hy))).
    erewrite list_fmap_ext.
    2:{ intros i k _. rewrite filter_cons.
        instantiate (1 := λ k, ((if decide (x = k) then 1 else 0)
                               + length (filter (λ y, y = k) l))%nat).
        simpl. by destruct (decide (x = k)). }
    rewrite sum_list_fmap_add, IH, sum_list_indicator by done.
    by rewrite decide_True.
Qed.

Lemma value_counts_total s : sum_list (value_counts s).*2 = length (present s).
Proof.
  assert (Hperm : (value_counts s).*2
    ≡ₚ (λ v, occurrences v (present s)) <$> distinct (present s)).
  { rewrite value_counts_perm, <- list_fmap_compose. done. }
  rewrite Hperm. unfold occurrences.
  apply sum_occurrences; [apply pdFacts.NoDup_distinct|].
  intros x. by rewrite pdFacts.elem_of_distinct.
Qed.

Lemma occurrences_le_length v vs : (occurrences v vs ≤ length vs)%nat.
Proof. unfold occurrences. apply length_filter. Qed.

Lemma length_present s : (length (present s) ≤ length s)%nat.
Proof.
  unfold present. induction s as [|[v|] s IH]; csimpl; [done| |]; lia.
Qed.

Lemma length_distinct_le vs : (length (distinct vs) ≤ length vs)%nat.
Proof.
  induction vs as [|v vs IH]; simpl; [done|].
  pose proof (length_filter (λ w, w ≠ v) (distinct vs)). lia.
Qed.

Lemma nunique_le s : (nunique s ≤ length s)%nat.
Proof.
  unfold nunique. pose proof (length_distinct_le (present s)).
  pose proof (length_present s). lia.
Qed.

(** The first entry of a frequency table is a most frequent value. *)
Lemma value_counts_first s top :
  first (value_counts s) = inr top →
  Some (fst top) ∈ s ∧ snd top = occurrences (fst top) (present s) ∧
  (1 ≤ snd top ≤ length s)%nat ∧
  ∀ v, (occurrences v (present s) ≤ snd top)%nat.
Proof.
  intros Htop. pose proof (value_counts_sorted s) as Hsorted.
  destruct (value_counts s) as [|top' l] eqn:Hvc; [done|].
  injection Htop as ->.
  assert (Hin : (fst top, snd top) ∈ value_counts s).
  { rewrite Hvc. destruct top. left. }
  apply pdFacts.elem_of_value_counts in Hin as [Hin Hn].
  split; [done|]. split; [done|].
  apply StronglySorted_cons in Hsorted as [Hall _].
  assert (Hmax : ∀ v, (occurrences v (present s) ≤ snd top)%nat).
  { intros v. destruct (decide (Some v ∈ s)) as [Hv|Hv].
    - assert ((v, occurrences v (present s)) ∈ value_counts s) as Hvin
        by by apply pdFacts.elem_of_value_counts.
      rewrite Hvc in Hvin. apply elem_of_cons in Hvin as [<-|Hvin]; [done|].
      by apply (proj1 (Forall_forall _ _) Hall) in Hvin.
    - unfold occurrences.
      rewrite (proj2 (filter_nil_Forall (λ w, w = v) (present s))); [simpl; lia|].
      apply Forall_forall. intros w Hw ->.
      by apply Hv, pdFacts.elem_of_present. }
  split; [|done]. split.
  - rewrite Hn. unfold occurrences. apply Nat.le_succ_l.
    apply (proj2 (length_filter_pos _ _)). exists (fst top).
    split; [by apply pdFacts.elem_of_present|done].
  - rewrite Hn. pose proof (occurrences_le_length (fst top) (present s)).
    pose proof (length_present s). lia.
Qed.

End countFacts.

(** ** Where insight lines come from *)

Section Lines.
Context `{Libraries}.

Lemma dict_getitem_inr (d : gmap string Z) k v : dict_getitem d k = inr v ↔ d !! k = Some v.
Proof. unfold dict_getitem. destruct (d !! k); split; by intros [= ->]. Qed.

Lemma dict_getitem_inl (d : gmap string Z) k e :
  dict_getitem d k = inl e ↔ d !! k = None ∧ e = KeyError k.
Proof.
  unfold dict_getitem. destruct (d !! k); split; try done.
  - by intros [? ?].
  - by intros [= <-].
  - by intros [_ ->].
Qed.

Lemma truediv_inr a b q :
  truediv a b = inr q ↔ b ≠ 0%Z ∧ q = (inject_Z a / inject_Z b)%Q.
Proof.
  unfold truediv. destruct (Z.eqb_spec b 0); split; try done.
  - by intros [? _].
  - by intros [= <-].
  - by intros [_ ->].
Qed.

Lemma truediv_inl a b e : truediv a b = inl e ↔ b = 0%Z ∧ e = ZeroDivisionError.
Proof.
  unfold truediv. destruct (Z.eqb_spec b 0); split; try done.
  - by intros [= <-].
  - by intros [_ ->].
  - by intros [? _].
Qed.

Lemma first_inl {A} (xs : list A) e : first xs = inl e ↔ xs = [] ∧ e = IndexError.
Proof.
  destruct xs; simpl; split; try done.
  - by intros [= <-].
  - by intros [_ ->].
  - by intros [? _].
Qed.

(** A block of [generate_insights] either leaves the list or appends lines
    that all have their provenance. *)
Lemma representative_insights_provenance t metrics ins ins' :
  representative_insights t metrics ins = inr ins' →
  ∃ lines, ins' = ins ++ lines ∧ Forall (line_of t metrics) lines.
Proof.
  unfold representative_insights.
  destruct (pd.has_column "representative" t) eqn:Hcol;
    [|intros [= <-]; exists []; by rewrite app_nil_r].
  unfold_result.
  destruct (dict_getitem metrics "total_calls") as [|calls] eqn:Hc; [done|].
  destruct (dict_getitem metrics "total_reps") as [|reps] eqn:Hr; [done|].
  destruct (truediv calls reps) as [|q] eqn:Hq; [done|].
  destruct (pd.getitem t "representative") as [|s] eqn:Hs; [done|].
  destruct (first (pd.value_counts s)) as [|[v n]] eqn:Htop; [done|].
  intros [= <-]. eexists. rewrite <- app_assoc. split; [done|].
  apply dict_getitem_inr in Hc, Hr. apply truediv_inr in Hq as [Hne ->].
  repeat constructor; simpl; eauto 10.
Qed.

Lemma doctor_insights_provenance t metrics ins ins' :
  doctor_insights t metrics ins = inr ins' →
  ∃ lines, ins' = ins ++ lines ∧ Forall (line_of t metrics) lines.
Proof.
  unfold doctor_insights.
  destruct (pd.has_column "doctor" t) eqn:Hcol;
    [|intros [= <-]; exists []; by rewrite app_nil_r].
  unfold_result.
  destruct (dict_getitem metrics "total_calls") as [|calls] eqn:Hc; [done|].
  destruct (dict_getitem metrics "total_doctors") as [|docs] eqn:Hr; [done|].
  destruct (truediv calls docs) as [|q] eqn:Hq; [done|].
  intros [= <-]. eexists. split; [done|].
  apply dict_getitem_inr in Hc, Hr. apply truediv_inr in Hq as [Hne ->].
  repeat constructor; simpl; eauto 10.
Qed.

Lemma division_insights_provenance t metrics ins ins' :
  division_insights t ins = inr ins' →
  ∃ lines, ins' = ins ++ lines ∧ Forall (line_of t metrics) lines.
Proof.
  unfold division_insights.
  destruct (pd.has_column "division" t) eqn:Hcol;
    [|intros [= <-]; exists []; by rewrite app_nil_r].
  unfold_result.
  destruct (pd.getitem t "division") as [|s] eqn:Hs; [done|].
  destruct (first (pd.value_counts s)) as [|[v n]] eqn:Htop; [done|].
  intros [= <-]. eexists. split; [done|].
  repeat constructor; simpl; eauto 10.
Qed.

Lemma date_lines_provenance t metrics s parsed :
  pd.getitem t "date" = inr s → to_datetime s = inr parsed →
  Forall (line_of t metrics) (date_lines (omap id parsed)).
Proof.
  intros Hs Hp. destruct (omap id parsed) as [|x xs] eqn:Htimes; simpl; [constructor|].
  repeat constructor; simpl; eauto 10.
Qed.

Lemma column_insights_provenance t metrics pre :
  column_insights t metrics = inr pre → Forall (line_of t metrics) pre.
Proof.
  unfold column_insights. unfold mbind, result_bind.
  destruct (representative_insights t metrics []) as [|i1] eqn:H1; [done|].
  destruct (doctor_insights t metrics i1) as [|i2] eqn:H2; [done|].
  intros H3.
  apply representative_insights_provenance in H1 as (l1 & -> & Hl1).
  apply doctor_insights_provenance in H2 as (l2 & -> & Hl2).
  apply (division_insights_provenance _ metrics) in H3 as (l3 & -> & Hl3).
  simpl. by rewrite !Forall_app.
Qed.

(** Every line [generate_insights] returns has its provenance. *)
Lemma generate_insights_provenance df w t metrics ins :
  heap w !! df = Some t →
  fst (generate_insights df metrics w) = inr ins →
  Forall (line_of t metrics) ins.
Proof.
  intros Hdf. rewrite (generate_insights_run _ _ _ _ Hdf).
  destruct (column_insights t metrics) as [|pre] eqn:Hpre; [done|].
  apply column_insights_provenance in Hpre.
  rewrite (time_insights_cases _ _ _ _ Hdf).
  destruct (pd.getitem t "date") as [|s] eqn:Hs; [by intros [= <-]|].
  destruct (to_datetime s) as [|parsed] eqn:Hp; [by intros [= <-]|].
  intros [= <-]. apply Forall_app. split; [done|].
  by eapply date_lines_provenance.
Qed.

End Lines.

(** ** What the insight lines say *)

Section LineFacts.
Context `{Libraries}.

Lemma getitem_guard t c s : pd.getitem t c = inr s → pd.has_column c t = true.
Proof.
  intros Hs. apply pdFacts.has_column_true, pdFacts.get_loc_is_Some.
  unfold pd.getitem in Hs. destruct (pd.get_loc c (columns t)); [eauto|done].
Qed.

(** X6.  The top-performer line of [generate_insights] names a value of the
    representative column together with the number of records that carry
    it, and no value of that column is carried by more records; likewise the
    most-active-division line for the division column. *)
Theorem top_lines_most_frequent df w t metrics ins :
  heap w !! df = Some t →
  fst (generate_insights df metrics w) = inr ins →
  (∀ v n, TopPerformer v n ∈ ins →
     ∃ s, pd.getitem t "representative" = inr s ∧ Some v ∈ s ∧
          n = pd.occurrences v (pd.present s) ∧
          ∀ v', (pd.occurrences v' (pd.present s) ≤ n)%nat) ∧
  (∀ v n, MostActiveDivision v n ∈ ins →
     ∃ s, pd.getitem t "division" = inr s ∧ Some v ∈ s ∧
          n = pd.occurrences v (pd.present s) ∧
          ∀ v', (pd.occurrences v' (pd.present s) ≤ n)%nat).
Proof.
  intros Hdf Hins.
  pose proof (generate_insights_provenance _ _ _ _ _ Hdf Hins) as Hlines.
  split; intros v n Hin;
    apply (proj1 (Forall_forall _ _) Hlines) in Hin as (s & Hs & Htop);
    apply countFacts.value_counts_first in Htop as (Hv & Hn & _ & Hmax);
    by exists s.
Qed.

Lemma span_days_nonneg x xs : (0 ≤ span_days x xs)%Z.
Proof.
  unfold span_days, dt.days, dt.ns_per_day.
  destruct (dtFacts.foldr_max_spec x xs) as [Hin _].
  destruct (dtFacts.foldr_min_spec x xs) as [_ Hmin].
  specialize (Hmin _ Hin). apply Z.div_pos; lia.
Qed.

Lemma average_bounds (a b : Z) :
  (1 ≤ b ≤ a)%Z →
  (1 <= inject_Z a / inject_Z b)%Q ∧ (inject_Z a / inject_Z b <= inject_Z a)%Q.
Proof.
  intros [Hb Hab].
  assert (Hpos : (0 < inject_Z b)%Q) by (rewrite <- (Zlt_Qlt 0); lia).
  split.
  - apply Qle_shift_div_l; [done|]. rewrite Qmult_1_l, <- Zle_Qle. lia.
  - apply Qle_shift_div_r; [done|]. rewrite <- inject_Z_mult, <- Zle_Qle. nia.
Qed.

Lemma daily_average_bounds (n d : Z) :
  (1 ≤ n)%Z → (1 ≤ d)%Z →
  (0 < inject_Z n / inject_Z d)%Q ∧ (inject_Z n / inject_Z d <= inject_Z n)%Q.
Proof.
  intros Hn Hd.
  assert (Hpos : (0 < inject_Z d)%Q) by (rewrite <- (Zlt_Qlt 0); lia).
  split.
  - apply Qlt_shift_div_l; [done|]. rewrite Qmult_0_l, <- (Zlt_Qlt 0). lia.
  - apply Qle_shift_div_r; [done|]. rewrite <- inject_Z_mult, <- Zle_Qle. nia.
Qed.

Lemma length_omap_id {A} (l : list (option A)) : (length (omap id l) ≤ length l)%nat.
Proof. induction l as [|[x|] l IH]; csimpl; [done| |]; lia. Qed.

(** X7.  With the metrics of the table itself, every line [generate_insights]
    returns is in range: the averages per representative and per doctor lie
    between 1 and the number of records, the counts of the top lines between
    1 and the number of records, the span is not negative, and the daily
    average is positive and at most the number of records. *)
Theorem insight_lines_in_range df w t m ins :
  heap w !! df = Some t →
  get_key_metrics t = inr m →
  fst (generate_insights df m w) = inr ins →
  Forall (in_range (pd.len t)) ins.
Proof.
  intros Hdf Hm Hins.
  pose proof (generate_insights_provenance _ _ _ _ _ Hdf Hins) as Hlines.
  destruct (get_key_metrics_run t) as (m' & Hm' & Hcalls & Hcols).
  assert (m' = m) as -> by congruence.
  assert (Hcount : ∀ col key n,
    (col, key) ∈ counted_columns → pd.has_column col t = true →
    m !! key = Some n → n ≠ 0%Z → (1 ≤ n ≤ Z.of_nat (pd.len t))%Z).
  { intros col key n Hin Hcol Hkey Hne. specialize (Hcols col key Hin).
    rewrite Hcol in Hcols. destruct Hcols as (s & Hs & Hkey').
    assert (n = Z.of_nat (pd.nunique s)) as -> by congruence.
    pose proof (countFacts.nunique_le s).
    rewrite (pdFacts.getitem_length _ _ _ Hs) in *. lia. }
  assert (Htop : ∀ c s v n,
    pd.getitem t c = inr s → first (pd.value_counts s) = inr (v, n) →
    (1 ≤ n ≤ pd.len t)%nat).
  { intros c s v n Hs Hfirst.
    apply countFacts.value_counts_first in Hfirst as (_ & _ & Hn & _).
    simpl in Hn. by rewrite (pdFacts.getitem_length _ _ _ Hs) in Hn. }
  eapply Forall_impl; [exact Hlines|].
  intros [q|v n|q|v n|d|q]; simpl.
  - intros (Hcol & calls & reps & Hc & Hr & Hne & ->).
    assert (calls = Z.of_nat (pd.len t)) as -> by congruence.
    apply average_bounds.
    eapply (Hcount "representative" "total_reps"); [|done..].
    unfold counted_columns. set_solver.
  - intros (s & Hs & Hfirst). by eapply Htop.
  - intros (Hcol & calls & docs & Hc & Hr & Hne & ->).
    assert (calls = Z.of_nat (pd.len t)) as -> by congruence.
    apply average_bounds.
    eapply (Hcount "doctor" "total_doctors"); [|done..].
    unfold counted_columns. set_solver.
  - intros (s & Hs & Hfirst). by eapply Htop.
  - intros (s & parsed & x & xs & _ & _ & _ & ->). apply span_days_nonneg.
  - intros (s & parsed & x & xs & Hs & Hp & Htimes & ->).
    pose proof (span_days_nonneg x xs).
    destruct (daily_average_bounds (Z.of_nat (length (x :: xs)))
                (Z.max (span_days x xs) 1)) as [Hpos Hle]; [simpl; lia|lia|].
    split; [done|]. eapply Qle_trans; [exact Hle|].
    rewrite <- Zle_Qle. apply Nat2Z.inj_le.
    rewrite <- Htimes. etransitivity; [apply length_omap_id|].
    rewrite (to_datetime_length _ _ Hp). by rewrite (pdFacts.getitem_length _ _ _ Hs).
Qed.

Lemma column_insights_error t metrics e :
  column_insights t metrics = inl e → column_rule_error e.
Proof.
  unfold column_insights, representative_insights, doctor_insights,
    division_insights, column_rule_error.
  destruct (pd.has_column "representative" t) eqn:E1;
    [destruct (pdFacts.getitem_has_column _ _ E1) as (i1 & _ & ->)|];
    (destruct (pd.has_column "doctor" t) eqn:E2);
    (destruct (pd.has_column "division" t) eqn:E3;
      [destruct (pdFacts.getitem_has_column _ _ E3) as (i3 & _ & ->)|]);
    unfold_result;
    repeat match goal with
      | |- context [dict_getitem ?d ?k] =>
          let E := fresh "E" in
          destruct (dict_getitem d k) eqn:E;
          [apply dict_getitem_inl in E as [_ ->]|]
      | |- context [truediv ?a ?b] =>
          let E := fresh "E" in
          destruct (truediv a b) eqn:E; [apply truediv_inl in E as [_ ->]|]
      | |- context [first ?l] =>
          let E := fresh "E" in
          destruct (first l) eqn:E; [apply first_inl in E as [_ ->]|]
      end;
    intros [= <-]; tauto.
Qed.

(** X8.  When [generate_insights] raises, the exception comes from one of its
    column rules: a key missing from the metrics mapping, a division by
    zero, or a most-frequent lookup in a column without values; a failure of
    the date rule never gets out.  In that case the store and the screen
    are as they were before the call. *)
Theorem generate_insights_raises df w t metrics e :
  heap w !! df = Some t →
  fst (generate_insights df metrics w) = inl e →
  column_rule_error e ∧ snd (generate_insights df metrics w) = w.
Proof.
  intros Hdf. rewrite (generate_insights_run _ _ _ _ Hdf).
  destruct (column_insights t metrics) as [e'|pre] eqn:Hpre.
  - intros [= <-]. split; [by eapply column_insights_error|done].
  - rewrite (time_insights_cases _ _ _ _ Hdf).
    destruct (pd.getitem t "date"); [done|]. by destruct (to_datetime _).
Qed.

End LineFacts.

(** ** Columns without values *)

Section EmptyColumns.
Context `{Libraries}.

Lemma metrics_facts t m :
  get_key_metrics t = inr m →
  m !! "total_calls" = Some (Z.of_nat (pd.len t)) ∧
  ∀ col key s, (col, key) ∈ counted_columns → pd.getitem t col = inr s →
               m !! key = Some (Z.of_nat (pd.nunique s)).
Proof.
  intros Hm. destruct (get_key_metrics_run t) as (m' & Hm' & Hcalls & Hcols).
  assert (m' = m) as -> by congruence. split; [done|].
  intros col key s Hin Hs. specialize (Hcols col key Hin).
  rewrite (getitem_guard _ _ _ Hs) in Hcols.
  destruct Hcols as (s' & Hs' & Hkey). congruence.
Qed.

Lemma nunique_present_nil s : pd.present s = [] → pd.nunique s = 0%nat.
Proof. unfold pd.nunique. by intros ->. Qed.

Lemma nunique_present_cons s : pd.present s ≠ [] → pd.nunique s ≠ 0%nat.
Proof. unfold pd.nunique. destruct (pd.present s); [done|]. simpl. lia. Qed.

Lemma holds_value_present t c s :
  pd.getitem t c = inr s → holds_value t c ↔ pd.present s ≠ [].
Proof.
  intros Hs. unfold holds_value. split.
  - intros (s' & v & Hs' & Hv). assert (s' = s) as -> by congruence.
    apply pdFacts.elem_of_present in Hv. intros Hnil. rewrite Hnil in Hv.
    by apply elem_of_nil in Hv.
  - destruct (pd.present s) as [|v vs] eqn:Hp; [done|]. intros _.
    exists s, v. split; [done|]. apply pdFacts.elem_of_present. rewrite Hp. left.
Qed.

(** A column is absent, or there without a value, or there with one. *)
Lemma column_status t c :
  (pd.has_column c t = false ∧ ¬ without_values t c)
  ∨ (∃ s, pd.getitem t c = inr s ∧ pd.present s = [] ∧ without_values t c)
  ∨ (∃ s, pd.getitem t c = inr s ∧ pd.present s ≠ [] ∧ ¬ without_values t c).
Proof.
  unfold without_values.
  destruct (pd.has_column c t) eqn:Hcol; [|left; split; [done|]; by intros [? _]].
  destruct (pdFacts.getitem_has_column _ _ Hcol) as (i & _ & Hs).
  pose proof (holds_value_present _ _ _ Hs) as Hv.
  destruct (decide (pd.present (pd.cell_at i <$> rows t) = [])) as [Hnil|Hne].
  - right; left. eexists. split; [done|]. split; [done|]. split; [done|].
    rewrite Hv. by intros ?.
  - right; right. eexists. split; [done|]. split; [done|].
    intros [_ Hno]. by apply Hno, Hv.
Qed.

Lemma representative_insights_empty t m s ins :
  get_key_metrics t = inr m →
  pd.getitem t "representative" = inr s → pd.present s = [] →
  representative_insights t m ins = inl ZeroDivisionError.
Proof.
  intros [Hcalls Hcols]%metrics_facts Hs Hnil.
  unfold representative_insights, dict_getitem, truediv.
  rewrite (getitem_guard _ _ _ Hs), Hcalls.
  rewrite (Hcols "representative" "total_reps" s) by (unfold counted_columns; set_solver || done).
  by rewrite (nunique_present_nil _ Hnil).
Qed.

Lemma representative_insights_full t m s ins :
  get_key_metrics t = inr m →
  pd.getitem t "representative" = inr s → pd.present s ≠ [] →
  ∃ lines, representative_insights t m ins = inr (ins ++ lines).
Proof.
  intros [Hcalls Hcols]%metrics_facts Hs Hne.
  unfold representative_insights, dict_getitem, truediv.
  rewrite (getitem_guard _ _ _ Hs), Hcalls, Hs.
  rewrite (Hcols "representative" "total_reps" s) by (unfold counted_columns; set_solver || done).
  unfold_result. apply nunique_present_cons in Hne as Hn.
  destruct (Z.eqb_spec (Z.of_nat (pd.nunique s)) 0); [lia|].
  destruct (pd.value_counts s) as [|top l] eqn:Hvc.
  { by apply pdFacts.value_counts_nil in Hvc. }
  simpl. eexists. by rewrite <- app_assoc.
Qed.

Lemma doctor_insights_empty t m s ins :
  get_key_metrics t = inr m →
  pd.getitem t "doctor" = inr s → pd.present s = [] →
  doctor_insights t m ins = inl ZeroDivisionError.
Proof.
  intros [Hcalls Hcols]%metrics_facts Hs Hnil.
  unfold doctor_insights, dict_getitem, truediv.
  rewrite (getitem_guard _ _ _ Hs), Hcalls.
  rewrite (Hcols "doctor" "total_doctors" s) by (unfold counted_columns; set_solver || done).
  by rewrite (nunique_present_nil _ Hnil).
Qed.

Lemma doctor_insights_full t m s ins :
  get_key_metrics t = inr m →
  pd.getitem t "doctor" = inr s → pd.present s ≠ [] →
  ∃ lines, doctor_insights t m ins = inr (ins ++ lines).
Proof.
  intros [Hcalls Hcols]%metrics_facts Hs Hne.
  unfold doctor_insights, dict_getitem, truediv.
  rewrite (getitem_guard _ _ _ Hs), Hcalls.
  rewrite (Hcols "doctor" "total_doctors" s) by (unfold counted_columns; set_solver || done).
  unfold_result. apply nunique_present_cons in Hne as Hn.
  destruct (Z.eqb_spec (Z.of_nat (pd.nunique s)) 0); [lia|]. by eexists.
Qed.

Lemma division_insights_empty t s ins :
  pd.getitem t "division" = inr s → pd.present s = [] →
  division_insights t ins = inl IndexError.
Proof.
  intros Hs Hnil. unfold division_insights.
  rewrite (getitem_guard _ _ _ Hs), Hs. unfold_result.
  by rewrite (proj2 (pdFacts.value_counts_nil s) Hnil).
Qed.

Lemma division_insights_full t s ins :
  pd.getitem t "division" = inr s → pd.present s ≠ [] →
  ∃ lines, division_insights t ins = inr (ins ++ lines).
Proof.
  intros Hs Hne. unfold division_insights.
  rewrite (getitem_guard _ _ _ Hs), Hs. unfold_result.
  destruct (pd.value_counts s) as [|top l] eqn:Hvc.
  { by apply pdFacts.value_counts_nil in Hvc. }
  simpl. by eexists.
Qed.

Lemma doctor_insights_absent t metrics ins :
  pd.has_column "doctor" t = false → doctor_insights t metrics ins = inr ins.
Proof. intros Hcol. unfold doctor_insights. by rewrite Hcol. Qed.

Lemma division_insights_absent t ins :
  pd.has_column "division" t = false → division_insights t ins = inr ins.
Proof. intros Hcol. unfold division_insights. by rewrite Hcol. Qed.

(** The outcome of the three column rules, by the first column that is
    there without a value. *)
Lemma column_insights_outcome t m :
  get_key_metrics t = inr m →
  match column_insights t m with
  | inr _ =>
      ¬ without_values t "representative" ∧ ¬ without_values t "doctor"
      ∧ ¬ without_values t "division"
  | inl e =>
      (e = ZeroDivisionError ∧
       (without_values t "representative" ∨ without_values t "doctor"))
      ∨ (e = IndexError ∧
         ¬ without_values t "representative" ∧ ¬ without_values t "doctor"
         ∧ without_values t "division")
  end.
Proof.
  intros Hm. unfold column_insights.
  destruct (column_status t "representative")
    as [[Hc1 Hn1]|[(s1 & Hs1 & Hp1 & Hw1)|(s1 & Hs1 & Hp1 & Hn1)]].
  2:{ rewrite (representative_insights_empty _ _ _ _ Hm Hs1 Hp1). simpl. auto. }
  all: [> rewrite (representative_insights_absent _ _ _ Hc1)
        | destruct (representative_insights_full _ _ _ [] Hm Hs1 Hp1) as [l1 ->] ].
  all: unfold mbind at 1, result_bind at 1.
  all: destruct (column_status t "doctor")
    as [[Hc2 Hn2]|[(s2 & Hs2 & Hp2 & Hw2)|(s2 & Hs2 & Hp2 & Hn2)]].
  all: try (rewrite (doctor_insights_empty _ _ _ _ Hm Hs2 Hp2); simpl; by auto).
  all: try rewrite (doctor_insights_absent _ _ _ Hc2).
  all: try (destruct (doctor_insights_full _ _ _ ([] ++ l1) Hm Hs2 Hp2) as [l2 ->]).
  all: try (destruct (doctor_insights_full _ _ _ [] Hm Hs2 Hp2) as [l2 ->]).
  all: unfold mbind at 1, result_bind at 1.
  all: destruct (column_status t "division")
    as [[Hc3 Hn3]|[(s3 & Hs3 & Hp3 & Hw3)|(s3 & Hs3 & Hp3 & Hn3)]].
  all: try (rewrite (division_insights_empty _ _ _ Hs3 Hp3); by auto 10).
  all: try (rewrite (division_insights_absent _ _ Hc3); by auto).
  all: match goal with
       | |- context [division_insights _ ?i] =>
           destruct (division_insights_full _ _ i Hs3 Hp3) as [l3 ->]
       end; by auto.
Qed.

(** X9.  With the metrics of the table itself, [generate_insights] returns
    its list exactly when none of the columns representative, doctor and
    division is there without a value.  Otherwise it raises:
    [ZeroDivisionError] when the representative or the doctor column is
    there without a value, [IndexError] when only the division column is. *)
Theorem generate_insights_returns_iff df w t m :
  heap w !! df = Some t →
  get_key_metrics t = inr m →
  ((∃ ins, fst (generate_insights df m w) = inr ins) ↔
     ¬ without_values t "representative" ∧ ¬ without_values t "doctor"
     ∧ ¬ without_values t "division")
  ∧ (fst (generate_insights df m w) = inl ZeroDivisionError ↔
       without_values t "representative" ∨ without_values t "doctor")
  ∧ (fst (generate_insights df m w) = inl IndexError ↔
       ¬ without_values t "representative" ∧ ¬ without_values t "doctor"
       ∧ without_values t "division").
Proof.
  intros Hdf Hm. pose proof (column_insights_outcome t m Hm) as Hout.
  rewrite (generate_insights_run _ _ _ _ Hdf).
  destruct (column_insights t m) as [e|pre].
  - simpl. destruct Hout as [[-> Hz]|[-> Hi]]; split_and!; split;
      try done; try tauto; try (by intros [? [=]]).
  - rewrite (time_insights_cases _ _ _ _ Hdf).
    destruct (pd.getitem t "date"); [|destruct (to_datetime _)]; simpl;
      split_and!; split; try done; try tauto; by eauto.
Qed.

End EmptyColumns.

(** ** Bounds and symmetries of the metrics *)

Section MetricsFacts.

(** X4.  The mapping [get_key_metrics] returns has no key besides
    [total_calls], [total_reps], [total_doctors] and [total_divisions], and
    every count in it lies between 0 and the number of records: a table
    never has more distinct representatives, doctors or divisions than
    calls. *)
Theorem get_key_metrics_bounds (t : DataFrame) :
  ∃ m : gmap string Z,
    get_key_metrics t = inr m ∧
    (∀ key, is_Some (m !! key) →
            key ∈ ["total_calls"; "total_reps"; "total_doctors"; "total_divisions"]) ∧
    (∀ key n, m !! key = Some n → (0 ≤ n ≤ Z.of_nat (pd.len t))%Z).
Proof.
  assert (Hn : ∀ c s, pd.getitem t c = inr s →
                      (0 ≤ Z.of_nat (pd.nunique s) ≤ Z.of_nat (pd.len t))%Z).
  { intros c s Hs. pose proof (countFacts.nunique_le s).
    rewrite (pdFacts.getitem_length _ _ _ Hs) in *. lia. }
  unfold get_key_metrics.
  destruct (pd.has_column "representative" t) eqn:E1;
    [destruct (pdFacts.getitem_has_column _ _ E1) as (i1 & _ & Hs1);
     pose proof (Hn _ _ Hs1); rewrite Hs1|];
    (destruct (pd.has_column "doctor" t) eqn:E2;
     [destruct (pdFacts.getitem_has_column _ _ E2) as (i2 & _ & Hs2);
      pose proof (Hn _ _ Hs2); rewrite Hs2|]);
    (destruct (pd.has_column "division" t) eqn:E3;
     [destruct (pdFacts.getitem_has_column _ _ E3) as (i3 & _ & Hs3);
      pose proof (Hn _ _ Hs3); rewrite Hs3|]);
    unfold_result; (eexists; split; [reflexivity|]); split.
  all: try (intros key [n Hkey]; revert Hkey;
            rewrite ?lookup_insert_Some, lookup_empty;
            intros Hkey; set_unfold; naive_solver).
  all: intros key n; rewrite ?lookup_insert_Some, lookup_empty;
       intros Hkey; repeat destruct Hkey as [[_ <-]|[_ Hkey]]; try done; lia.
Qed.

Lemma nunique_permutation s1 s2 : s1 ≡ₚ s2 → pd.nunique s1 = pd.nunique s2.
Proof.
  intros Hperm. rewrite !pdFacts.nunique_size. f_equal.
  apply set_eq. intros v. rewrite !elem_of_list_to_set, !pdFacts.elem_of_present.
  by rewrite Hperm.
Qed.

(** X5.  The metrics do not depend on the order of the records: two tables
    with the same header whose records are a rearrangement of one another
    get the same mapping. *)
Theorem get_key_metrics_permutation (cols : list string) (rows1 rows2 : list (list cell)) :
  rows1 ≡ₚ rows2 →
  get_key_metrics (mkDataFrame cols rows1) = get_key_metrics (mkDataFrame cols rows2).
Proof.
  intros Hperm.
  assert (Hn : ∀ i, pd.nunique (pd.cell_at i <$> rows1)
                    = pd.nunique (pd.cell_at i <$> rows2)).
  { intros i. apply nunique_permutation. by rewrite Hperm. }
  unfold get_key_metrics, pd.has_column, pd.getitem, pd.len. simpl.
  rewrite (Permutation_length Hperm).
  repeat case_bool_decide; repeat destruct (pd.get_loc _ cols);
    unfold_result; by rewrite ?Hn.
Qed.

End MetricsFacts.

(** ** What the bar and pie charts show *)

Section FrequencyCharts.
Context `{Libraries}.

Lemma elem_of_take_inv {A} (l : list A) n x : x ∈ take n l → x ∈ l.
Proof. intros Hx. rewrite <- (take_drop n l). apply elem_of_app. by left. Qed.

Lemma take_most_frequent n s : most_frequent s (take n (pd.value_counts s)).
Proof.
  pose proof (countFacts.value_counts_sorted s) as Hsorted.
  pose proof (countFacts.NoDup_value_counts s) as Hnodup.
  rewrite <- (take_drop n (pd.value_counts s)) in Hsorted, Hnodup.
  rewrite fmap_app in Hnodup. apply NoDup_app in Hnodup as (Hnd & Hdisj & _).
  split; [done|]. split; [by eapply StronglySorted_app_1_l|]. split.
  - intros v k Hin. by apply elem_of_take_inv, pdFacts.elem_of_value_counts in Hin.
  - intros v v' k' Hv Hleft Hin'.
    assert ((v, pd.occurrences v (pd.present s)) ∈ pd.value_counts s) as Hin
      by by apply pdFacts.elem_of_value_counts.
    rewrite <- (take_drop n (pd.value_counts s)) in Hin.
    apply elem_of_app in Hin as [Hin|Hin].
    + destruct Hleft. apply list_elem_of_fmap. by eexists (_, _).
    + by apply (StronglySorted_app_1_elem_of _ _ _ _ _ Hsorted Hin' Hin).
Qed.

Lemma length_value_counts s : length (pd.value_counts s) = pd.nunique s.
Proof.
  rewrite <- (length_fmap fst), countFacts.value_counts_keys. done.
Qed.

(** X10.  The representative chart is built from 10 entries, the doctor
    chart from 15, or from as many as the column has distinct values if
    these are fewer: values of the column, each once and with the number of
    its records, most frequent first, none of the values left out being more
    frequent than one that is shown. *)
Theorem bar_charts_show_most_frequent (t : DataFrame) :
  (∀ s, pd.getitem t "representative" = inr s →
     ∃ shown, length shown = (10 `min` pd.nunique s)%nat ∧ most_frequent s shown ∧
       create_rep_performance_chart t
       = (fig ← px_bar shown "Top 10 Representatives by Number of Calls" false;
          fig ← update_layout fig;
          mret (Some fig))) ∧
  (∀ s, pd.getitem t "doctor" = inr s →
     ∃ shown, length shown = (15 `min` pd.nunique s)%nat ∧ most_frequent s shown ∧
       create_doctor_engagement_chart t
       = (fig ← px_bar shown "Top 15 Most Visited Doctors" true;
          mret (Some fig))).
Proof.
  split; intros s Hs.
  - exists (take 10 (pd.value_counts s)).
    split; [by rewrite length_take, length_value_counts|].
    split; [apply take_most_frequent|].
    unfold create_rep_performance_chart.
    by rewrite (getitem_guard _ _ _ Hs), Hs.
  - exists (take 15 (pd.value_counts s)).
    split; [by rewrite length_take, length_value_counts|].
    split; [apply take_most_frequent|].
    unfold create_doctor_engagement_chart.
    by rewrite (getitem_guard _ _ _ Hs), Hs.
Qed.

(** X11.  The division chart is built from every value of the division
    column, each once and with the number of its records, and these numbers
    add up to the number of records that have a division. *)
Theorem division_chart_shares (t : DataFrame) (s : list cell) :
  pd.getitem t "division" = inr s →
  ∃ shares,
    create_division_analysis_chart t
    = (fig ← px_pie shares "Call Distribution by Division"; mret (Some fig)) ∧
    NoDup shares.*1 ∧
    (∀ v n, (v, n) ∈ shares ↔ Some v ∈ s ∧ n = pd.occurrences v (pd.present s)) ∧
    sum_list shares.*2 = length (filter is_Some s).
Proof.
  intros Hs. exists (pd.value_counts s). split; [|split; [|split]].
  - unfold create_division_analysis_chart. by rewrite (getitem_guard _ _ _ Hs), Hs.
  - apply countFacts.NoDup_value_counts.
  - intros v n. apply pdFacts.elem_of_value_counts.
  - rewrite countFacts.value_counts_total. unfold pd.present.
    clear. induction s as [|[v|] s IH]; [done| |].
    + rewrite filter_cons_True by eauto. csimpl. f_equal. apply IH.
    + rewrite filter_cons_False by (by intros [? ?]). apply IH.
Qed.

End FrequencyCharts.

(** ** The time-trend chart: what it counts and what it touches *)

Section TimeTrend.
Context `{Libraries}.

Lemma increasing_lower_bound k l :
  increasing (k :: l) → Forall (λ k', (k < k')%Z) l.
Proof.
  revert k. induction l as [|k1 l IH]; intros k; [constructor|].
  intros [Hlt Hinc]. constructor; [done|].
  eapply Forall_impl; [by apply IH|]. simpl. intros k2 Hk2. lia.
Qed.

Lemma increasing_NoDup l : increasing l → NoDup l.
Proof.
  induction l as [|k l IH]; [constructor|]. intros Hinc.
  pose proof (increasing_lower_bound _ _ Hinc) as Hlb.
  destruct Hinc as [_ Hinc]. constructor; [|by apply IH].
  intros Hin. apply (proj1 (Forall_forall _ _) Hlb) in Hin. lia.
Qed.

Lemma groupby_size_total keys : sum_list (dt.groupby_size keys).*2 = length keys.
Proof.
  unfold dt.groupby_size. rewrite <- list_fmap_compose.
  erewrite list_fmap_ext; [apply countFacts.sum_occurrences|done].
  - apply increasing_NoDup, dtFacts.increasing_sorted_keys.
  - intros k. by rewrite dtFacts.elem_of_sorted_keys.
Qed.

Lemma length_groupby_size keys : (length (dt.groupby_size keys) ≤ length keys)%nat.
Proof.
  unfold dt.groupby_size. rewrite length_fmap.
  induction keys as [|k keys IH]; simpl; [done|].
  etransitivity; [|apply le_n_S, IH].
  generalize (foldr dt.insert_key [] keys). clear. intros l.
  induction l as [|u l IH]; simpl; [done|].
  destruct (k <? u)%Z; [done|]. destruct (k =? u)%Z; simpl; lia.
Qed.

(** X12.  In the chart the time-trend builder asks for, the daily counts add
    up to the number of records whose date parsed, and there are no more
    days than such records: every dated record is counted on exactly one
    day. *)
Theorem daily_counts_add_up df w t s parsed :
  heap w !! df = Some t →
  pd.getitem t "date" = inr s →
  to_datetime s = inr parsed →
  omap id parsed ≠ [] →
  let times := omap id parsed in
  fst (create_time_trend_chart df w)
  = inr (match line_chart times with inr fig => Some fig | inl _ => None end) ∧
  sum_list (daily_calls times).*2 = length (filter is_Some parsed) ∧
  (1 ≤ length (daily_calls times) ≤ length (filter is_Some parsed))%nat.
Proof.
  intros Hdf Hs Hp Hne times. subst times. split; [|split].
  - rewrite (create_time_trend_chart_run _ _ _ Hdf), Hs, Hp. cbn zeta.
    destruct (omap id parsed); [done|]. by destruct (line_chart _).
  - unfold daily_calls.
    by rewrite groupby_size_total, length_fmap, frameFacts.length_filter_present.
  - unfold daily_calls. split.
    + destruct (omap id parsed) as [|x xs]; [done|].
      unfold dt.groupby_size. rewrite length_fmap. csimpl.
      generalize (foldr dt.insert_key [] (dt.date <$> xs)). intros l.
      destruct l as [|u l]; simpl; [lia|].
      destruct (dt.date x <? u)%Z; [simpl; lia|].
      destruct (dt.date x =? u)%Z; simpl; lia.
    + etransitivity; [apply length_groupby_size|].
      by rewrite length_fmap, frameFacts.length_filter_present.
Qed.

Lemma create_time_trend_chart_dangling df w :
  heap w !! df = None →
  create_time_trend_chart df w = (inl DanglingReference, w).
Proof.
  intros Hdf. unfold create_time_trend_chart. unfold mbind at 1, M_bind at 1.
  by rewrite (read_dangling _ _ Hdf).
Qed.

(** The effect of the time-trend builder on the store and the screen, for
    any reference. *)
Lemma create_time_trend_chart_world df w :
  let w' := snd (create_time_trend_chart df w) in
  length (heap w') = length (heap w) ∧
  (∀ r, r ≠ df → heap w' !! r = heap w !! r) ∧
  (screen w' = screen w ∨ ∃ e, screen w' = screen w ++ [st_warning (NoTimeTrend e)]).
Proof.
  destruct (heap w !! df) as [t|] eqn:Hdf.
  - rewrite (create_time_trend_chart_run _ _ _ Hdf).
    destruct (pd.getitem t "date"); [|destruct (to_datetime _)]; cbn zeta;
      [| |destruct (omap id _); [|destruct (line_chart _)]];
      simpl; rewrite ?length_insert;
      (split; [done|]);
      (split; [intros r Hr; by rewrite ?list_lookup_insert_ne|]);
      first [by left | right; by eexists].
  - rewrite (create_time_trend_chart_dangling _ _ Hdf). simpl.
    split; [done|]. split; [done|]. by left.
Qed.

(** X13.  The time-trend builder touches no object of the store but the
    table it is given, and puts at most one warning on screen.  Of that
    table it keeps the header, the number of records and every column other
    than [date]; the date column it overwrites with the parsed timestamps
    when the date parser returns, and leaves alone otherwise.  Called on a
    copy, as [main] does, it leaves the original as it was. *)
Theorem create_time_trend_chart_frame df w t :
  heap w !! df = Some t →
  let w' := snd (create_time_trend_chart df w) in
  (screen w' = screen w ∨ ∃ e, screen w' = screen w ++ [st_warning (NoTimeTrend e)]) ∧
  (∀ r, r ≠ df → heap w' !! r = heap w !! r) ∧
  (∃ t', heap w' !! df = Some t' ∧
         columns t' = columns t ∧
         pd.len t' = pd.len t ∧
         (∀ c, c ≠ "date" → pd.getitem t' c = pd.getitem t c) ∧
         match pd.getitem t "date" ≫= to_datetime with
         | inr parsed => pd.getitem t' "date" = inr (dt.series parsed)
         | inl _ => t' = t
         end) ∧
  heap (snd ((c ← copy df; create_time_trend_chart c) w)) !! df = Some t.
Proof.
  intros Hdf w'.
  destruct (create_time_trend_chart_world df w) as (_ & Hothers & Hscreen).
  split; [done|]. split; [done|]. split.
  - subst w'. rewrite (create_time_trend_chart_run _ _ _ Hdf).
    destruct (pd.getitem t "date") as [e|s] eqn:Hs; [by exists t|].
    unfold_result.
    destruct (to_datetime s) as [e|parsed] eqn:Hparsed; [by exists t|].
    assert (Hlen : length (dt.series parsed) = pd.len t).
    { rewrite series_length, (to_datetime_length _ _ Hparsed).
      by eapply pdFacts.getitem_length. }
    cbn zeta.
    destruct (omap id parsed); [|destruct (line_chart _)].
    all: exists (pd.setitem t "date" (dt.series parsed)); simpl.
    all: split; [apply list_lookup_insert_eq; by eapply lookup_lt_Some|].
    all: split; [apply frameFacts.columns_setitem|].
    all: split; [by apply frameFacts.len_setitem|].
    all: split; [|by eapply frameFacts.getitem_setitem_eq].
    all: intros c Hc; by apply frameFacts.getitem_setitem_ne.
  - unfold copy. unfold mbind at 1, M_bind at 1.
    unfold mbind at 1, M_bind at 1. rewrite (read_valid _ _ _ Hdf).
    unfold new. cbn beta iota.
    destruct (create_time_trend_chart_world (length (heap w))
                (mkWorld (heap w ++ [t]) (screen w))) as (_ & Hkeep & _).
    rewrite Hkeep by (apply lookup_lt_Some in Hdf; lia).
    simpl. by rewrite lookup_app_l by (by eapply lookup_lt_Some).
Qed.

End TimeTrend.

(** ** The normalizer, in full *)

Section Normalizer.
Import PyStr.

(** X1.  On a table of the store [validate_data] returns the reference it
    was given, replaces the header by its lower-cased and trimmed form and
    leaves the records and every other object alone.  It puts nothing on
    screen when every required name is the lower-case form of some label;
    otherwise it puts a warning, listing exactly the required names that are
    the lower-case form of no label, followed by the advice. *)
Theorem validate_data_behaviour df w t :
  heap w !! df = Some t →
  ∃ msgs,
    validate_data df w
    = (inr df, mkWorld (<[df := normalized t]> (heap w)) (screen w ++ msgs)) ∧
    (msgs = [] ↔
       ∀ name, name ∈ required_columns →
               ∃ label, label ∈ columns t ∧ lower label = name) ∧
    (msgs ≠ [] →
       ∃ missing,
         msgs = [st_warning (MissingColumns missing); st_info ColumnsAdvice] ∧
         ∀ name, name ∈ missing ↔
                 name ∈ required_columns ∧
                 ∀ label, label ∈ columns t → lower label ≠ name).
Proof.
  intros Hdf. exists (validation_messages (columns t)).
  split; [by apply validate_data_run|]. split.
  - rewrite validation_messages_nil. split; intros Hall name Hname.
    + apply Hall, list_elem_of_fmap in Hname as (label & -> & Hlabel). eauto.
    + destruct (Hall name Hname) as (label & Hlabel & <-).
      apply list_elem_of_fmap. eauto.
  - unfold validation_messages. case_bool_decide; [|done]. intros _.
    eexists. split; [done|]. intros name. unfold missing_columns.
    rewrite list_elem_of_filter, list_elem_of_fmap. split.
    + intros [Hnot Hreq]. split; [done|]. intros label Hlabel <-. apply Hnot. eauto.
    + intros [Hreq Hnot]. split; [|done]. intros (label & -> & Hlabel).
      by eapply Hnot.
Qed.

Lemma chars_lower s :
  list_ascii_of_string (lower s) = lower_char <$> list_ascii_of_string s.
Proof. induction s as [|c s IH]; simpl; [done|]. by rewrite IH. Qed.

Lemma is_upper_lower_char c : is_upper (lower_char c) = false.
Proof. by destruct c as [[] [] [] [] [] [] [] []]. Qed.

Lemma chars_lstrip s c :
  c ∈ list_ascii_of_string (lstrip s) → c ∈ list_ascii_of_string s.
Proof.
  induction s as [|d s IH]; simpl; [done|].
  destruct (isspace d); [|done]. intros Hc. right. by apply IH.
Qed.

Lemma chars_rstrip s c :
  c ∈ list_ascii_of_string (rstrip s) → c ∈ list_ascii_of_string s.
Proof.
  induction s as [|d s IH]; [done|]. rewrite PyStrFacts.rstrip_cons.
  destruct (rstrip s) as [|d' r] eqn:Hr.
  - destruct (isspace d); simpl; [by intros ?%elem_of_nil|].
    intros ->%list_elem_of_singleton. left.
  - simpl. intros [->|Hc]%elem_of_cons; [left|]. right. by apply IH.
Qed.

Lemma head_lstrip s c :
  head (list_ascii_of_string (lstrip s)) = Some c → isspace c = false.
Proof.
  induction s as [|d s IH]; simpl; [done|].
  destruct (isspace d) eqn:Hd; [done|]. simpl. by intros [= <-].
Qed.

Lemma head_rstrip s c :
  head (list_ascii_of_string (rstrip s)) = Some c →
  head (list_ascii_of_string s) = Some c.
Proof.
  destruct s as [|d s]; [done|]. rewrite PyStrFacts.rstrip_cons.
  destruct (rstrip s); [destruct (isspace d)|]; simpl; done.
Qed.

Lemma last_rstrip s c :
  last (list_ascii_of_string (rstrip s)) = Some c → isspace c = false.
Proof.
  induction s as [|d s IH]; [done|]. rewrite PyStrFacts.rstrip_cons.
  destruct (rstrip s) as [|d' r] eqn:Hr.
  - destruct (isspace d) eqn:Hd; simpl; [done|]. by intros [= <-].
  - simpl. simpl in IH. done.
Qed.

(** A label as [validate_data] leaves it: no capital letter, no white space
    at either end. *)
Lemma normalized_label_clean s :
  let chars := list_ascii_of_string ((strip ∘ lower) s) in
  (∀ c, c ∈ chars → is_upper c = false) ∧
  (∀ c, head chars = Some c → isspace c = false) ∧
  (∀ c, last chars = Some c → isspace c = false).
Proof.
  unfold compose, strip. simpl. split; [|split].
  - intros c Hc%chars_rstrip%chars_lstrip. rewrite chars_lower in Hc.
    apply list_elem_of_fmap in Hc as (c0 & -> & _). apply is_upper_lower_char.
  - intros c Hc%head_rstrip. by eapply head_lstrip.
  - intros c Hc. by eapply last_rstrip.
Qed.

(** X2.  After [validate_data] no label of the table contains an ASCII
    capital letter and no label starts or ends with white space; the table
    has as many labels as before, in the same positions, and the same
    records. *)
Theorem validate_data_labels_clean df w t :
  heap w !! df = Some t →
  ∃ t', heap (snd (validate_data df w)) !! df = Some t' ∧
        rows t' = rows t ∧
        length (columns t') = length (columns t) ∧
        ∀ label, label ∈ columns t' →
          let chars := list_ascii_of_string label in
          (∀ c, c ∈ chars → is_upper c = false) ∧
          (∀ c, head chars = Some c → isspace c = false) ∧
          (∀ c, last chars = Some c → isspace c = false).
Proof.
  intros Hdf. rewrite (validate_data_run _ _ _ Hdf). simpl.
  eexists. split; [apply list_lookup_insert_eq; by eapply lookup_lt_Some|].
  simpl. split; [done|]. split; [by rewrite length_fmap|].
  intros label (s & -> & _)%list_elem_of_fmap. apply normalized_label_clean.
Qed.

End Normalizer.

(** ** File names the loader accepts *)

Section Suffixes.
Context `{Libraries}.
Import PyStr.

Lemma substring_all s : substring 0 (String.length s) s = s.
Proof. induction s as [|c s IH]; simpl; [done|]. by rewrite IH. Qed.

Lemma substring_append stem suffix :
  substring (String.length stem) (String.length suffix) (stem +:+ suffix) = suffix.
Proof. induction stem as [|c stem IH]; simpl; [apply substring_all|done]. Qed.

Lemma length_append stem suffix :
  String.length (stem +:+ suffix) = (String.length stem + String.length suffix)%nat.
Proof. induction stem as [|c stem IH]; simpl; [done|]. by rewrite IH. Qed.

Lemma substring_split s j :
  (j ≤ String.length s)%nat →
  s = substring 0 j s +:+ substring j (String.length s - j) s.
Proof.
  revert j. induction s as [|c s IH]; intros [|j] Hj; simpl in *; try lia.
  - done.
  - by rewrite substring_all.
  - change (String c s = String c (substring 0 j s
                                   +:+ substring j (String.length s - j) s)).
    f_equal. apply IH. lia.
Qed.

(** [endswith] holds exactly of the strings that are a stem followed by the
    suffix. *)
Lemma endswith_spec s suffix :
  endswith s suffix = true ↔ ∃ stem, s = stem +:+ suffix.
Proof.
  unfold endswith. rewrite andb_true_iff, Nat.leb_le, bool_decide_eq_true. split.
  - intros [Hle Hsub].
    exists (substring 0 (String.length s - String.length suffix) s).
    pose proof (substring_split s (String.length s - String.length suffix)) as Hsplit.
    replace (String.length s - (String.length s - String.length suffix))%nat
      with (String.length suffix) in Hsplit by lia.
    rewrite Hsub in Hsplit. apply Hsplit. lia.
  - intros [stem ->]. rewrite length_append. split; [lia|].
    replace (String.length stem + String.length suffix - String.length suffix)%nat
      with (String.length stem) by lia.
    apply substring_append.
Qed.

Lemma chosen_parser_None file :
  chosen_parser file = None ↔
  ¬ ∃ stem suffix, suffix ∈ supported_suffixes ∧ name file = stem +:+ suffix.
Proof.
  unfold chosen_parser, supported_suffixes.
  destruct (endswith (name file) ".csv") eqn:E1.
  { split; [done|]. intros Hno. destruct Hno.
    apply endswith_spec in E1 as [stem ->]. exists stem, ".csv". split; [left|done]. }
  destruct (endswith (name file) ".xlsx") eqn:E2.
  { split; [done|]. intros Hno. destruct Hno.
    apply endswith_spec in E2 as [stem ->]. exists stem, ".xlsx".
    split; [right; left|done]. }
  destruct (endswith (name file) ".xls") eqn:E3.
  { split; [done|]. intros Hno. destruct Hno.
    apply endswith_spec in E3 as [stem ->]. exists stem, ".xls".
    split; [right; right; left|done]. }
  simpl. split; [|done]. intros _ (stem & suffix & Hin & Hname).
  assert (endswith (name file) suffix = true) as Hends
    by (apply endswith_spec; eauto).
  repeat (apply elem_of_cons in Hin as [->|Hin]; [congruence|]).
  by apply elem_of_nil in Hin.
Qed.

(** X3.  [load_data] reports an unsupported format exactly for the file
    names that are not some stem followed by [.csv], [.xlsx] or [.xls]
    (in lower case); for those it creates no table and calls no parser's
    result into the store. *)
Theorem load_data_unsupported_iff (file : UploadedFile) (w : world) :
  (screen (snd (load_data file w)) = screen w ++ [st_error UnsupportedFormat] ↔
   ¬ ∃ stem suffix, suffix ∈ supported_suffixes ∧ name file = stem +:+ suffix)
  ∧ ((¬ ∃ stem suffix, suffix ∈ supported_suffixes ∧ name file = stem +:+ suffix) →
     load_data file w
     = (inr None, mkWorld (heap w) (screen w ++ [st_error UnsupportedFormat]))).
Proof.
  rewrite <- chosen_parser_None, load_data_run.
  destruct (chosen_parser file) as [[e|t]|]; simpl.
  - split; [|done]. split; [|done]. intros [=]%app_inv_head.
  - split; [|done]. split; [|done]. intros Heq.
    apply (f_equal length) in Heq. rewrite length_app in Heq. simpl in Heq. lia.
  - done.
Qed.

End Suffixes.

(** ** One pass of [main] *)

Ltac insights_cases Hdf :=
  rewrite (generate_insights_run _ _ _ _ Hdf);
  destruct (column_insights _ _);
  [|rewrite (time_insights_cases _ _ _ _ Hdf);
    destruct (pd.getitem _ "date"); [|destruct (to_datetime _)]].

Section Main.
Context `{Libraries}.

Lemma generate_insights_dangling df metrics w :
  heap w !! df = None → generate_insights df metrics w = (inl DanglingReference, w).
Proof.
  intros Hdf. unfold generate_insights. unfold mbind at 1, M_bind at 1.
  by rewrite (read_dangling _ _ Hdf).
Qed.

Lemma generate_insights_world df metrics w :
  let w' := snd (generate_insights df metrics w) in
  length (heap w') = length (heap w) ∧
  (∀ r, r ≠ df → heap w' !! r = heap w !! r) ∧
  screen w' = screen w.
Proof.
  destruct (heap w !! df) as [t|] eqn:Hdf.
  - insights_cases Hdf; simpl; rewrite ?length_insert;
      (split; [done|]); (split; [|done]);
      intros r Hr; by rewrite ?list_lookup_insert_ne.
  - by rewrite (generate_insights_dangling _ _ _ Hdf).
Qed.

Lemma generate_insights_result df metrics w t :
  heap w !! df = Some t →
  fst (generate_insights df metrics w) = insights_of t metrics.
Proof.
  intros Hdf. unfold insights_of.
  rewrite (generate_insights_run _ _ _ _ Hdf).
  destruct (column_insights t metrics) as [e|pre]; [done|].
  rewrite (time_insights_cases _ _ _ _ Hdf).
  destruct (pd.getitem t "date") as [e|s]; unfold_result; [by rewrite app_nil_r|].
  destruct (to_datetime s); simpl; by rewrite ?app_nil_r.
Qed.

Lemma create_time_trend_chart_result df w t :
  heap w !! df = Some t →
  fst (create_time_trend_chart df w) = inr (trend_of t).
Proof.
  intros Hdf. unfold trend_of. rewrite (create_time_trend_chart_run _ _ _ Hdf).
  destruct (pd.getitem t "date"); [done|]. unfold_result.
  destruct (to_datetime _); [done|]. cbn zeta.
  destruct (omap id _); [done|]. by destruct (line_chart _).
Qed.

Lemma lookup_snoc {A} (l : list A) x : (l ++ [x]) !! length l = Some x.
Proof. by apply list_lookup_middle. Qed.

Lemma main_run file w t :
  chosen_parser file = Some (inr t) →
  let tn := normalized t in
  let df := length (heap w) in
  let w2 := mkWorld (heap w ++ [tn]) (screen w ++ validation_messages (columns t)) in
  main (Some file) w =
  match get_key_metrics tn with
  | inl e => (inl e, w2)
  | inr metrics =>
      match generate_insights (S df) metrics (mkWorld (heap w2 ++ [tn]) (screen w2)) with
      | (inl e, w4) => (inl e, w4)
      | (inr insights, w4) =>
          match create_rep_performance_chart tn with
          | inl e => (inl e, w4)
          | inr fig1 =>
              match create_division_analysis_chart tn with
              | inl e => (inl e, w4)
              | inr fig2 =>
                  match create_time_trend_chart (length (heap w4))
                          (mkWorld (heap w4 ++ [tn]) (screen w4)) with
                  | (inl e, w6) => (inl e, w6)
                  | (inr fig3, w6) =>
                      match create_doctor_engagement_chart tn with
                      | inl e => (inl e, w6)
                      | inr fig4 =>
                          match create_cross_analysis tn with
                          | inl e => (inl e, w6)
                          | inr fig5 =>
                              (inr (Some (mkPage metrics insights
                                            [fig1; fig2; fig3; fig4; fig5])), w6)
                          end
                      end
                  end
              end
          end
      end
  end.
Proof.
  intros Hparser tn df w2. unfold main.
  unfold mbind at 1, M_bind at 1. rewrite load_data_run, Hparser. fold df.
  assert (Hdf1 : heap (mkWorld (heap w ++ [t]) (screen w)) !! df = Some t)
    by apply lookup_snoc.
  unfold mbind at 1, M_bind at 1. rewrite (validate_data_run _ _ _ Hdf1).
  cbn [heap screen].
  replace (<[df:=mkDataFrame (PyStr.strip ∘ PyStr.lower <$> columns t) (rows t)]>
             (heap w ++ [t])) with (heap w ++ [tn]).
  2:{ subst df. rewrite insert_app_r_alt, Nat.sub_diag by lia. done. }
  fold w2.
  assert (Hdf2 : heap w2 !! df = Some tn) by apply lookup_snoc.
  unfold mbind at 1, M_bind at 1. rewrite (read_valid _ _ _ Hdf2).
  unfold mbind at 1, M_bind at 1, lift at 1.
  destruct (get_key_metrics tn) as [e|metrics]; [done|].
  unfold mbind at 1, M_bind at 1. unfold copy at 1.
  unfold mbind at 1, M_bind at 1. rewrite (read_valid _ _ _ Hdf2). unfold new at 1.
  cbn [heap screen].
  replace (length (heap w2)) with (S df)
    by (subst w2 df; simpl; rewrite length_app; simpl; lia).
  set (w3 := mkWorld (heap w2 ++ [tn]) (screen w2)).
  pose proof (generate_insights_world (S df) metrics w3) as (_ & Hoth4 & _).
  unfold mbind at 1, M_bind at 1.
  destruct (generate_insights (S df) metrics w3) as [[e|insights] w4]; [done|].
  simpl in Hoth4.
  assert (Hdf4 : heap w4 !! df = Some tn).
  { rewrite Hoth4 by lia. by rewrite lookup_app_l by (by eapply lookup_lt_Some). }
  unfold mbind at 1, M_bind at 1. rewrite (read_valid _ _ _ Hdf4).
  unfold mbind at 1, M_bind at 1, lift at 1.
  destruct (create_rep_performance_chart tn) as [e|fig1]; [done|].
  unfold mbind at 1, M_bind at 1. rewrite (read_valid _ _ _ Hdf4).
  unfold mbind at 1, M_bind at 1, lift at 1.
  destruct (create_division_analysis_chart tn) as [e|fig2]; [done|].
  unfold mbind at 1, M_bind at 1. unfold copy at 1.
  unfold mbind at 1, M_bind at 1. rewrite (read_valid _ _ _ Hdf4). unfold new at 1.
  cbn [heap screen].
  set (w5 := mkWorld (heap w4 ++ [tn]) (screen w4)).
  pose proof (create_time_trend_chart_world (length (heap w4)) w5) as (_ & Hoth6 & _).
  unfold mbind at 1, M_bind at 1.
  destruct (create_time_trend_chart (length (heap w4)) w5) as [[e|fig3] w6]; [done|].
  simpl in Hoth6.
  assert (Hdf6 : heap w6 !! df = Some tn).
  { rewrite Hoth6 by (apply lookup_lt_Some in Hdf4; lia).
    by rewrite lookup_app_l by (by eapply lookup_lt_Some). }
  unfold mbind at 1, M_bind at 1. rewrite (read_valid _ _ _ Hdf6).
  unfold mbind at 1, M_bind at 1, lift at 1.
  destruct (create_doctor_engagement_chart tn) as [e|fig4]; [done|].
  unfold mbind at 1, M_bind at 1. rewrite (read_valid _ _ _ Hdf6).
  unfold mbind at 1, M_bind at 1, lift at 1.
  by destruct (create_cross_analysis tn) as [e|fig5].
Qed.

(** X14.  On an upload [main] returns without a page exactly when
    [load_data] returns no table.  In that case it stops there: it raises
    nothing, creates no table, and the one message it puts on screen is the
    error of the loader. *)
Theorem main_without_table file w :
  (fst (main (Some file) w) = inr None ↔ fst (load_data file w) = inr None) ∧
  (fst (load_data file w) = inr None →
     main (Some file) w = (inr None, snd (load_data file w)) ∧
     heap (snd (load_data file w)) = heap w ∧
     ∃ msg, screen (snd (load_data file w)) = screen w ++ [st_error msg]).
Proof.
  assert (Hstop : fst (load_data file w) = inr None →
                  main (Some file) w = (inr None, snd (load_data file w))).
  { unfold main. unfold mbind at 1, M_bind at 1.
    destruct (load_data file w) as [[e|[df|]] w1]; cbn [fst snd]; by intros. }
  destruct (chosen_parser file) as [[e|t]|] eqn:Hparser.
  - rewrite Hstop; rewrite load_data_run, Hparser; cbn [fst snd heap screen]; [|done].
    split; [done|]. intros _. split_and!; eauto.
  - rewrite (main_run _ _ _ Hparser), load_data_run, Hparser. cbn [fst snd].
    split; [|done]. split; [|done].
    destruct (get_key_metrics _); [done|].
    destruct (generate_insights _ _ _) as [[?|?] ?]; [done|].
    destruct (create_rep_performance_chart _); [done|].
    destruct (create_division_analysis_chart _); [done|].
    destruct (create_time_trend_chart _ _) as [[?|?] ?]; [done|].
    destruct (create_doctor_engagement_chart _); [done|].
    by destruct (create_cross_analysis _).
  - rewrite Hstop; rewrite load_data_run, Hparser; cbn [fst snd heap screen]; [|done].
    split; [done|]. intros _. split_and!; eauto.
Qed.

(** X15.  When [main] returns a page, the upload was parsed into a table,
    and everything on the page is computed from that table with its header
    normalized: the metrics are those of [get_key_metrics], the insights
    those of [generate_insights] called with these metrics, the five charts
    those of the five builders, in the order representative, division, time
    trend, doctor, heat map.  At the end the store holds the normalized
    table, with the date column as it was parsed from the file, at the
    reference the loader created, and the objects that were there before
    are untouched. *)
Theorem main_page file w p w' :
  main (Some file) w = (inr (Some p), w') →
  ∃ t, chosen_parser file = Some (inr t) ∧
    let tn := normalized t in
    heap w' !! length (heap w) = Some tn ∧
    (∀ r, (r < length (heap w))%nat → heap w' !! r = heap w !! r) ∧
    get_key_metrics tn = inr (page_metrics p) ∧
    insights_of tn (page_metrics p) = inr (page_insights p) ∧
    ∃ fig1 fig2 fig4 fig5,
      page_charts p = [fig1; fig2; trend_of tn; fig4; fig5] ∧
      create_rep_performance_chart tn = inr fig1 ∧
      create_division_analysis_chart tn = inr fig2 ∧
      create_doctor_engagement_chart tn = inr fig4 ∧
      create_cross_analysis tn = inr fig5.
Proof.
  intros Hmain.
  destruct (chosen_parser file) as [[e|t]|] eqn:Hparser.
  1,3: unfold main in Hmain; unfold mbind at 1, M_bind at 1 in Hmain;
       rewrite load_data_run, Hparser in Hmain; simpl in Hmain; done.
  exists t. split; [done|]. intros tn.
  rewrite (main_run _ _ _ Hparser) in Hmain. cbn zeta in Hmain. fold tn in Hmain.
  destruct (get_key_metrics tn) as [e|metrics] eqn:Hm; [done|].
  set (df := length (heap w)) in *.
  set (w2 := mkWorld (heap w ++ [tn]) (screen w ++ validation_messages (columns t))) in *.
  set (w3 := mkWorld (heap w2 ++ [tn]) (screen w2)) in *.
  assert (Hdf3 : heap w3 !! df = Some tn).
  { subst w3 w2 df. simpl. rewrite <- app_assoc. by apply list_lookup_middle. }
  assert (Hc3 : heap w3 !! S df = Some tn).
  { subst w3 w2 df. simpl. apply list_lookup_middle. rewrite length_app. simpl. lia. }
  pose proof (generate_insights_world (S df) metrics w3) as (Hlen4 & Hoth4 & _).
  pose proof (generate_insights_result (S df) metrics w3 tn Hc3) as Hres.
  destruct (generate_insights (S df) metrics w3) as [[e|insights] w4]; [done|].
  simpl in Hlen4, Hoth4, Hres.
  destruct (create_rep_performance_chart tn) as [e|fig1] eqn:H1; [done|].
  destruct (create_division_analysis_chart tn) as [e|fig2] eqn:H2; [done|].
  set (w5 := mkWorld (heap w4 ++ [tn]) (screen w4)) in *.
  assert (Hc5 : heap w5 !! length (heap w4) = Some tn) by apply lookup_snoc.
  pose proof (create_time_trend_chart_world (length (heap w4)) w5) as (_ & Hoth6 & _).
  pose proof (create_time_trend_chart_result (length (heap w4)) w5 tn Hc5) as Hres6.
  destruct (create_time_trend_chart (length (heap w4)) w5) as [[e|fig3] w6]; [done|].
  simpl in Hoth6, Hres6.
  destruct (create_doctor_engagement_chart tn) as [e|fig4] eqn:H4; [done|].
  destruct (create_cross_analysis tn) as [e|fig5] eqn:H5; [done|].
  injection Hmain as <- <-. injection Hres6 as ->. simpl.
  assert (Hlen3 : length (heap w4) = S (S df)).
  { rewrite Hlen4. subst w3 w2 df. simpl. rewrite !length_app. simpl. lia. }
  assert (Hkeep : ∀ r, (r ≤ df)%nat → heap w6 !! r = heap w3 !! r).
  { intros r Hr. rewrite Hoth6 by lia. subst w5. simpl.
    rewrite lookup_app_l by lia. apply Hoth4. lia. }
  split; [by rewrite Hkeep|]. split.
  { intros r Hr. rewrite Hkeep by lia. subst w3 w2. simpl.
    by rewrite !lookup_app_l by (rewrite ?length_app; simpl; lia). }
  split; [done|]. split; [done|]. by exists fig1, fig2, fig4, fig5.
Qed.


End Main.

(** ** The test script against the dashboard *)

Section TestScript.

Lemma getitem_absent t c : pd.has_column c t = false → pd.getitem t c = inl (KeyError c).
Proof.
  intros Hcol%pdFacts.has_column_false%pdFacts.get_loc_None.
  unfold pd.getitem. by rewrite Hcol.
Qed.

Lemma required_lower name : name ∈ required_columns → PyStr.lower name = name.
Proof.
  unfold required_columns. intros Hin.
  repeat (apply elem_of_cons in Hin as [->|Hin]; [reflexivity|]).
  by apply elem_of_nil in Hin.
Qed.

Lemma required_normal name :
  name ∈ required_columns → (PyStr.strip ∘ PyStr.lower) name = name.
Proof.
  unfold required_columns. intros Hin.
  repeat (apply elem_of_cons in Hin as [->|Hin]; [reflexivity|]).
  by apply elem_of_nil in Hin.
Qed.

(** X17.  The validation of the test script succeeds exactly on the tables
    whose header holds the four required names as they are written.  On
    such a table [validate_data] puts nothing on screen and the four columns
    are still there after it.  When the validation fails it prints exactly
    the required names that the header does not hold. *)
Theorem test_data_validation_agrees df w t :
  heap w !! df = Some t →
  (fst (test_data_validation t) = true ↔
     ∀ name, name ∈ required_columns → name ∈ columns t) ∧
  (fst (test_data_validation t) = true →
     screen (snd (validate_data df w)) = screen w ∧
     ∀ name, name ∈ required_columns → pd.has_column name (normalized t) = true) ∧
  (fst (test_data_validation t) = false →
     ∃ missing, snd (test_data_validation t) = [MissingRequiredColumns missing] ∧
                missing ≠ [] ∧
                ∀ name, name ∈ missing ↔ name ∈ required_columns ∧ name ∉ columns t).
Proof.
  intros Hdf.
  assert (Hiff : fst (test_data_validation t) = true ↔
                 ∀ name, name ∈ required_columns → name ∈ columns t).
  { unfold test_data_validation. case_bool_decide as Hm; simpl.
    - split; [done|]. intros Hall. destruct Hm.
      apply filter_nil_Forall, Forall_forall. intros name Hname Hnot.
      by apply Hnot, Hall.
    - split; [|done]. intros _ name Hname.
      destruct (decide (name ∈ columns t)) as [|Hnot]; [done|].
      assert (name ∈ filter (λ col, col ∉ columns t) required_columns) as Hin
        by by apply list_elem_of_filter.
      rewrite Hm in Hin. by apply elem_of_nil in Hin. }
  split; [done|]. split.
  - intros Hall. pose proof (proj1 Hiff Hall) as Hin. clear Hall.
    rewrite (validate_data_run _ _ _ Hdf). simpl. split.
    + rewrite (proj2 (validation_messages_nil (columns t))); [by rewrite app_nil_r|].
      intros name Hname. apply list_elem_of_fmap. exists name.
      split; [by rewrite required_lower|by apply Hin].
    + intros name Hname. apply pdFacts.has_column_true. simpl.
      apply list_elem_of_fmap. exists name.
      split; [by rewrite required_normal|by apply Hin].
  - unfold test_data_validation. case_bool_decide as Hm; simpl; [|done]. intros _.
    eexists. split; [done|]. split; [done|]. intros name.
    rewrite list_elem_of_filter. tauto.
Qed.

(** X18.  The metrics check of the test script succeeds exactly on the tables
    that have the representative, doctor and division columns, and then
    prints the four numbers [get_key_metrics] reports for the table.  On any
    other table it fails with the [KeyError] of the first of these columns
    that is absent. *)
Theorem test_metrics_calculation_agrees (t : DataFrame) :
  (fst (test_metrics_calculation t) = true ↔
     ∀ c, c ∈ ["representative"; "doctor"; "division"] → pd.has_column c t = true) ∧
  (fst (test_metrics_calculation t) = true →
     ∃ (m : gmap string Z) calls reps doctors divisions,
       snd (test_metrics_calculation t)
       = [MetricsCalculated calls reps doctors divisions] ∧
       get_key_metrics t = inr m ∧
       m !! "total_calls" = Some (Z.of_nat calls) ∧
       m !! "total_reps" = Some (Z.of_nat reps) ∧
       m !! "total_doctors" = Some (Z.of_nat doctors) ∧
       m !! "total_divisions" = Some (Z.of_nat divisions)) ∧
  (fst (test_metrics_calculation t) = false →
     ∃ c before,
       snd (test_metrics_calculation t) = [ErrorCalculatingMetrics (KeyError c)] ∧
       before ++ [c] `prefix_of` ["representative"; "doctor"; "division"] ∧
       pd.has_column c t = false ∧
       ∀ c', c' ∈ before → pd.has_column c' t = true).
Proof.
  destruct (get_key_metrics_run t) as (m & Hm & Hcalls & Hcols).
  pose proof (Hcols "representative" "total_reps") as Hreps.
  pose proof (Hcols "doctor" "total_doctors") as Hdocs.
  pose proof (Hcols "division" "total_divisions") as Hdivs.
  unfold counted_columns in Hreps, Hdocs, Hdivs.
  specialize (Hreps ltac:(set_solver)).
  specialize (Hdocs ltac:(set_solver)).
  specialize (Hdivs ltac:(set_solver)).
  unfold test_metrics_calculation.
  destruct (pd.has_column "representative" t) eqn:E1.
  2:{ rewrite (getitem_absent _ _ E1). simpl. split; [|split; [done|]].
      - split; [done|]. intros Hall. rewrite <- E1. apply Hall. left.
      - intros _. exists "representative", []. split; [done|].
        split; [by exists ["doctor"; "division"]|]. split; [done|].
        by intros c' ?%elem_of_nil. }
  destruct Hreps as (s1 & Hs1 & Hk1). rewrite Hs1.
  destruct (pd.has_column "doctor" t) eqn:E2.
  2:{ rewrite (getitem_absent _ _ E2). simpl. split; [|split; [done|]].
      - split; [done|]. intros Hall. rewrite <- E2. apply Hall. right; left.
      - intros _. exists "doctor", ["representative"]. split; [done|].
        split; [by exists ["division"]|]. split; [done|].
        by intros c' ->%list_elem_of_singleton. }
  destruct Hdocs as (s2 & Hs2 & Hk2). rewrite Hs2.
  destruct (pd.has_column "division" t) eqn:E3.
  2:{ rewrite (getitem_absent _ _ E3). simpl. split; [|split; [done|]].
      - split; [done|]. intros Hall. rewrite <- E3. apply Hall. right; right; left.
      - intros _. exists "division", ["representative"; "doctor"]. split; [done|].
        split; [by exists []|]. split; [done|].
        intros c' Hc'. repeat (apply elem_of_cons in Hc' as [->|Hc']; [done|]).
        by apply elem_of_nil in Hc'. }
  destruct Hdivs as (s3 & Hs3 & Hk3). rewrite Hs3. simpl.
  split; [|split; [|done]].
  - split; [|done]. intros _ c Hc.
    repeat (apply elem_of_cons in Hc as [->|Hc]; [done|]).
    by apply elem_of_nil in Hc.
  - intros _. exists m. eexists _, _, _, _. split; [done|]. by split_and!.
Qed.

End TestScript.

(** ** The further properties on the sample tables *)

Section FurtherSamples.
Import Sample.
#[local] Existing Instance working.

Lemma metrics_of_run (t : DataFrame) : get_key_metrics t = inr (metrics_of t).
Proof.
  destruct (get_key_metrics_run t) as (m & Hm & _).
  unfold metrics_of. by rewrite Hm.
Qed.

(** X1 on a table whose header is capitalised: the header is replaced and
    nothing is put on screen. *)
Lemma validate_data_behaviour_witness :
  let t := mkDataFrame ["Representative"; "DOCTOR"; "division"; "Date"]
             [[Some (VStr "John Doe"); Some (VStr "Dr. Smith");
               Some (VStr "Cardiology"); Some (VStr "2024-01-15")]] in
  let w := mkWorld [t] [] in
  heap w !! 0%nat = Some t
  ∧ validate_data 0%nat w = (inr 0%nat, mkWorld [normalized t] []).
Proof.
  intros t w.
  assert (H1 : heap w !! 0%nat = Some t) by reflexivity.
  destruct (validate_data_behaviour 0%nat w t H1) as (msgs & Hrun & Hnone & _).
  split; [exact H1|].
  assert (Hmsgs : msgs = []).
  { apply Hnone. unfold required_columns. intros name Hname.
    apply elem_of_cons in Hname as [->|Hname];
      [exists "Representative"; split; [simpl; set_solver|reflexivity]|].
    apply elem_of_cons in Hname as [->|Hname];
      [exists "DOCTOR"; split; [simpl; set_solver|reflexivity]|].
    apply elem_of_cons in Hname as [->|Hname];
      [exists "division"; split; [simpl; set_solver|reflexivity]|].
    apply elem_of_cons in Hname as [->|Hname];
      [exists "Date"; split; [simpl; set_solver|reflexivity]|].
    by apply elem_of_nil in Hname. }
  rewrite Hrun, Hmsgs. reflexivity.
Defined.

(** X2 on a table whose labels are capitalised and padded. *)
Lemma validate_data_labels_clean_witness :
  let t := mkDataFrame [" Representative"; "DOCTOR  "]
             [[Some (VStr "John Doe"); Some (VStr "Dr. Smith")]] in
  let w := mkWorld [t] [] in
  heap w !! 0%nat = Some t
  ∧ ∃ t', heap (snd (validate_data 0%nat w)) !! 0%nat = Some t'
          ∧ rows t' = rows t
          ∧ length (columns t') = 2%nat.
Proof.
  intros t w.
  assert (H1 : heap w !! 0%nat = Some t) by reflexivity.
  destruct (validate_data_labels_clean 0%nat w t H1) as (t' & Ht' & Hrows & Hlen & _).
  split; [exact H1|]. exists t'. split; [exact Ht'|]. split; [exact Hrows|exact Hlen].
Defined.

(** X5 on the two calls of the specification, in either order. *)
Lemma get_key_metrics_permutation_witness :
  let r1 := [Some (VStr "John Doe"); Some (VStr "Dr. Smith");
             Some (VStr "Cardiology"); Some (VStr "2024-01-15")] in
  let r2 := [Some (VStr "John Doe"); Some (VStr "Dr. Jones");
             Some (VStr "Cardiology"); Some (VStr "2024-01-16")] in
  [r1; r2] ≡ₚ [r2; r1]
  ∧ get_key_metrics two_calls
    = get_key_metrics (mkDataFrame (columns two_calls) [r2; r1]).
Proof.
  intros r1 r2.
  assert (H1 : [r1; r2] ≡ₚ [r2; r1]) by apply perm_swap.
  split; [exact H1|].
  exact (get_key_metrics_permutation (columns two_calls) [r1; r2] [r2; r1] H1).
Defined.

(** X6 on the two calls of the specification. *)
Lemma top_lines_most_frequent_witness :
  let w := mkWorld [two_calls] [] in
  let ins := [AverageCallsPerRepresentative (inject_Z 2 / inject_Z 1)%Q;
              TopPerformer (VStr "John Doe") 2;
              AverageVisitsPerDoctor (inject_Z 2 / inject_Z 2)%Q;
              MostActiveDivision (VStr "Cardiology") 2;
              DataCovers 1;
              AverageDailyCalls (inject_Z 2 / inject_Z 1)%Q] in
  (heap w !! 0%nat = Some two_calls
   ∧ fst (generate_insights 0%nat (metrics_of two_calls) w) = inr ins)
  ∧ ∃ s, pd.getitem two_calls "representative" = inr s
         ∧ Some (VStr "John Doe") ∈ s
         ∧ 2%nat = pd.occurrences (VStr "John Doe") (pd.present s).
Proof.
  intros w ins.
  assert (H1 : heap w !! 0%nat = Some two_calls) by reflexivity.
  assert (H2 : fst (generate_insights 0%nat (metrics_of two_calls) w) = inr ins)
    by (vm_compute; reflexivity).
  split; [by split|].
  destruct (top_lines_most_frequent 0%nat w two_calls _ ins H1 H2) as (Htop & _).
  destruct (Htop (VStr "John Doe") 2%nat) as (s & Hs & Hin & Hn & _).
  { apply list_elem_of_further, list_elem_of_here. }
  by exists s.
Defined.

(** X7 on the two calls of the specification. *)
Lemma insight_lines_in_range_witness :
  let w := mkWorld [two_calls] [] in
  let ins := [AverageCallsPerRepresentative (inject_Z 2 / inject_Z 1)%Q;
              TopPerformer (VStr "John Doe") 2;
              AverageVisitsPerDoctor (inject_Z 2 / inject_Z 2)%Q;
              MostActiveDivision (VStr "Cardiology") 2;
              DataCovers 1;
              AverageDailyCalls (inject_Z 2 / inject_Z 1)%Q] in
  (heap w !! 0%nat = Some two_calls
   ∧ get_key_metrics two_calls = inr (metrics_of two_calls)
   ∧ fst (generate_insights 0%nat (metrics_of two_calls) w) = inr ins)
  ∧ Forall (in_range 2) ins.
Proof.
  intros w ins.
  assert (H1 : heap w !! 0%nat = Some two_calls) by reflexivity.
  assert (H2 : get_key_metrics two_calls = inr (metrics_of two_calls))
    by apply metrics_of_run.
  assert (H3 : fst (generate_insights 0%nat (metrics_of two_calls) w) = inr ins)
    by (vm_compute; reflexivity).
  split; [by split_and!|].
  exact (insight_lines_in_range 0%nat w two_calls _ ins H1 H2 H3).
Defined.

(** X8 on a table whose only representative cell is empty. *)
Lemma generate_insights_raises_witness :
  let w := mkWorld [blank_representative] [] in
  let metrics := metrics_of blank_representative in
  (heap w !! 0%nat = Some blank_representative
   ∧ fst (generate_insights 0%nat metrics w) = inl ZeroDivisionError)
  ∧ column_rule_error ZeroDivisionError
  ∧ snd (generate_insights 0%nat metrics w) = w.
Proof.
  intros w metrics.
  assert (H1 : heap w !! 0%nat = Some blank_representative) by reflexivity.
  assert (H2 : fst (generate_insights 0%nat metrics w) = inl ZeroDivisionError)
    by (vm_compute; reflexivity).
  split; [by split|].
  exact (generate_insights_raises 0%nat w blank_representative metrics _ H1 H2).
Defined.

(** X9 on the two calls of the specification: a list is returned, so none
    of the three columns is without a value. *)
Lemma generate_insights_returns_iff_witness :
  let w := mkWorld [two_calls] [] in
  (heap w !! 0%nat = Some two_calls
   ∧ get_key_metrics two_calls = inr (metrics_of two_calls))
  ∧ (∃ ins, fst (generate_insights 0%nat (metrics_of two_calls) w) = inr ins)
  ∧ ¬ without_values two_calls "representative"
  ∧ ¬ without_values two_calls "doctor"
  ∧ ¬ without_values two_calls "division".
Proof.
  intros w.
  assert (H1 : heap w !! 0%nat = Some two_calls) by reflexivity.
  assert (H2 : get_key_metrics two_calls = inr (metrics_of two_calls))
    by apply metrics_of_run.
  split; [by split|].
  destruct (generate_insights_returns_iff 0%nat w two_calls _ H1 H2) as (Hiff & _).
  assert (H3 : ∃ ins, fst (generate_insights 0%nat (metrics_of two_calls) w) = inr ins).
  { eexists. vm_compute. reflexivity. }
  split; [exact H3|]. exact (proj1 Hiff H3).
Defined.

(** X11 on the two calls of the specification. *)
Lemma division_chart_shares_witness :
  let s := [Some (VStr "Cardiology"); Some (VStr "Cardiology")] in
  pd.getitem two_calls "division" = inr s
  ∧ ∃ shares,
      create_division_analysis_chart two_calls
      = (fig ← px_pie shares "Call Distribution by Division"; mret (Some fig))
      ∧ sum_list shares.*2 = length (filter is_Some s).
Proof.
  intros s.
  assert (H1 : pd.getitem two_calls "division" = inr s) by reflexivity.
  split; [exact H1|].
  destruct (division_chart_shares two_calls s H1) as (shares & Hchart & _ & _ & Hsum).
  exists shares. split; [exact Hchart|exact Hsum].
Defined.

(** X12 on a table with one readable and one unreadable date. *)
Lemma daily_counts_add_up_witness :
  let w := mkWorld [one_bad_date] [] in
  let s := [Some (VStr "2024-01-15"); Some (VStr "not-a-date")] in
  let parsed := [Some jan15; None] in
  (heap w !! 0%nat = Some one_bad_date
   ∧ pd.getitem one_bad_date "date" = inr s
   ∧ to_datetime s = inr parsed
   ∧ omap id parsed ≠ [])
  ∧ sum_list (daily_calls (omap id parsed)).*2 = length (filter is_Some parsed).
Proof.
  intros w s parsed.
  assert (H1 : heap w !! 0%nat = Some one_bad_date) by reflexivity.
  assert (H2 : pd.getitem one_bad_date "date" = inr s) by reflexivity.
  assert (H3 : to_datetime s = inr parsed) by (vm_compute; reflexivity).
  assert (H4 : omap id parsed ≠ []) by discriminate.
  split; [by split_and!|].
  exact (proj1 (proj2 (daily_counts_add_up 0%nat w one_bad_date s parsed H1 H2 H3 H4))).
Defined.

(** X13 on the two calls of the specification. *)
Lemma create_time_trend_chart_frame_witness :
  let w := mkWorld [two_calls] [] in
  heap w !! 0%nat = Some two_calls
  ∧ (∃ t', heap (snd (create_time_trend_chart 0%nat w)) !! 0%nat = Some t'
           ∧ columns t' = columns two_calls
           ∧ pd.getitem t' "doctor" = pd.getitem two_calls "doctor")
  ∧ heap (snd ((c ← copy 0%nat; create_time_trend_chart c) w)) !! 0%nat
    = Some two_calls.
Proof.
  intros w.
  assert (H1 : heap w !! 0%nat = Some two_calls) by reflexivity.
  destruct (create_time_trend_chart_frame 0%nat w two_calls H1)
    as (_ & _ & (t' & Ht' & Hcols & _ & Hother & _) & Hcopy).
  split; [exact H1|]. split; [|exact Hcopy].
  exists t'. split; [exact Ht'|]. split; [exact Hcols|]. by apply Hother.
Defined.

(** X15 on the two calls of the specification, uploaded as a file. *)
Lemma main_page_witness :
  ∃ p w',
    main (Some upload) (mkWorld [] []) = (inr (Some p), w')
    ∧ heap w' !! 0%nat = Some (normalized two_calls)
    ∧ get_key_metrics (normalized two_calls) = inr (page_metrics p)
    ∧ insights_of (normalized two_calls) (page_metrics p) = inr (page_insights p)
    ∧ page_charts p !! 2%nat = Some (trend_of (normalized two_calls)).
Proof.
  assert (Hrun : ∃ p w', main (Some upload) (mkWorld [] []) = (inr (Some p), w')).
  { vm_compute. eexists _, _. reflexivity. }
  destruct Hrun as (p & w' & Hmain). exists p, w'. split; [exact Hmain|].
  destruct (main_page upload (mkWorld [] []) p w' Hmain)
    as (t & Hparse & Hheap & _ & Hmetrics & Hins & fig1 & fig2 & fig4 & fig5 & Hcharts & _).
  assert (Ht : chosen_parser upload = Some (inr two_calls)) by (vm_compute; reflexivity).
  rewrite Ht in Hparse. injection Hparse as <-.
  split; [exact Hheap|]. split; [exact Hmetrics|]. split; [exact Hins|].
  rewrite Hcharts. reflexivity.
Defined.


(** X17 on the two calls of the specification. *)
Lemma test_data_validation_agrees_witness :
  let w := mkWorld [two_calls] [] in
  heap w !! 0%nat = Some two_calls
  ∧ fst (test_data_validation two_calls) = true
  ∧ screen (snd (validate_data 0%nat w)) = []
  ∧ pd.has_column "date" (normalized two_calls) = true.
Proof.
  intros w.
  assert (H1 : heap w !! 0%nat = Some two_calls) by reflexivity.
  assert (H2 : fst (test_data_validation two_calls) = true) by reflexivity.
  destruct (test_data_validation_agrees 0%nat w two_calls H1) as (_ & Hpass & _).
  destruct (Hpass H2) as (Hscreen & Hcols).
  split; [exact H1|]. split; [exact H2|]. split; [exact Hscreen|].
  apply Hcols. unfold required_columns. set_solver.
Defined.

End FurtherSamples.
